(** * Airline market-demand dashboard: aggregation and insight generation

    A shallow embedding of the data-processing code of the dashboard

      - [src/app.py]              class [AirlineDataProcessor] and the endpoints
      - [src/Api_Integration.py]  classes [OpenAIAnalyzer], [MarketDataAggregator],
                                  [FlightAPIIntegrator]
      - [src/scraper.py]          class [AirlineDataScraper]

    together with the properties of that code.  Python values are
    modelled with the types the code gives them: integers as [Z], text as
    [string], binary64 floats exactly (a mantissa and a binary exponent,
    every operation rounding to nearest-even as the hardware does),
    exceptions as a result type, and the stateful parts (random draws, the
    clock, [print], the HTTP call) in a state-and-exception monad. *)

From Stdlib Require Import ZArith QArith Qround List String Ascii Bool Lia.
From Stdlib Require Import Permutation Sorted DecimalString.
Import ListNotations.
Set Warnings "-register-all".
Create HintDb pure.
Open Scope string_scope.
Open Scope list_scope.
Open Scope Z_scope.

(** ** Python runtime fragments *)

Module Py.

(** The exception classes the modelled code can meet. *)
Inductive exn_kind : Type :=
| KeyError | IndexError | TypeError | ValueError
| ZeroDivisionError | OverflowError
| JSONDecodeError          (* json.JSONDecodeError, a ValueError *)
| RequestException.        (* requests.exceptions.* : transport failures *)

(** An exception: its class and the text [str(e)], which is what an
    f-string or [print] shows of it. *)
Record exn : Type := Exn { exn_class : exn_kind; exn_msg : string }.

(** Outcome of running a piece of code.  [OutOfFuel] is not a Python
    outcome: it marks a run of the model that stopped because the bound
    on loop iterations was reached. *)
Inductive result (A : Type) : Type :=
| Ok (a : A)
| Raise (e : exn)
| OutOfFuel.
Arguments Ok {A} a.
Arguments Raise {A} e.
Arguments OutOfFuel {A}.

Definition rbind {A B} (r : result A) (k : A -> result B) : result B :=
  match r with
  | Ok a => k a
  | Raise e => Raise e
  | OutOfFuel => OutOfFuel
  end.

(** [mapM] for the exception monad: the first failure wins, as in a
    Python loop that raises. *)
Fixpoint rmap {A B} (f : A -> result B) (l : list A) : result (list B) :=
  match l with
  | [] => Ok []
  | x :: l' =>
      rbind (f x) (fun y => rbind (rmap f l') (fun ys => Ok (y :: ys)))
  end.

(** State and exceptions.  The state survives a raise: what a [try]
    body printed or drew before it failed stays printed or drawn. *)
Definition M (W A : Type) : Type := W -> result A * W.

Definition ret {W A} (a : A) : M W A := fun w => (Ok a, w).

Definition bind {W A B} (c : M W A) (k : A -> M W B) : M W B :=
  fun w =>
    match c w with
    | (Ok a, w') => k a w'
    | (Raise e, w') => (Raise e, w')
    | (OutOfFuel, w') => (OutOfFuel, w')
    end.

Definition lift {W A} (r : result A) : M W A := fun w => (r, w).

(** [try: c except Exception as e: h e] *)
Definition try_except {W A} (c : M W A) (h : exn -> M W A) : M W A :=
  fun w =>
    match c w with
    | (Raise e, w') => h e w'
    | other => other
    end.

(** ** str(int) *)
Definition str_of_Z (z : Z) : string := NilZero.string_of_int (Z.to_int z).

(** Left-pad a non-negative number with zeros to [width] digits. *)
Fixpoint zeros (n : nat) : string :=
  match n with O => "" | S n' => String "0" (zeros n') end.

Definition zero_pad (width : nat) (z : Z) : string :=
  let s := str_of_Z z in
  (zeros (width - String.length s) ++ s)%string.

(** ** repr(str), for ASCII text

    The text between quotes: single quotes, unless the text holds a
    single quote and no double quote; the quote in use and the
    backslash are escaped, tab, newline and carriage return are written
    with their letter, every other control character as [\xhh]. *)
Definition dquote : ascii := ascii_of_nat 34.
Definition squote : ascii := ascii_of_nat 39.
Definition backslash : ascii := ascii_of_nat 92.

Fixpoint contains (c : ascii) (s : string) : bool :=
  match s with
  | EmptyString => false
  | String a rest => Ascii.eqb a c || contains c rest
  end.

Definition hex_digit (n : nat) : ascii :=
  ascii_of_nat (if (n <? 10)%nat then 48 + n else 87 + n).

Definition repr_char (quote c : ascii) : string :=
  let n := nat_of_ascii c in
  if Ascii.eqb c backslash || Ascii.eqb c quote then String backslash (String c EmptyString)
  else if (n =? 9)%nat then String backslash "t"
  else if (n =? 10)%nat then String backslash "n"
  else if (n =? 13)%nat then String backslash "r"
  else if (n <? 32)%nat || (n =? 127)%nat then
    String backslash
      (String "x" (String (hex_digit (n / 16)) (String (hex_digit (n mod 16)) EmptyString)))
  else String c EmptyString.

Fixpoint repr_body (quote : ascii) (s : string) : string :=
  match s with
  | EmptyString => EmptyString
  | String c rest => (repr_char quote c ++ repr_body quote rest)%string
  end.

Definition repr_str (s : string) : string :=
  let quote := if contains squote s && negb (contains dquote s) then dquote else squote in
  String quote (repr_body quote s ++ String quote EmptyString).

(** The distinct strings of a list, in order of first appearance (the
    key order of a dict filled from it). *)
Definition add_new (seen : list string) (k : string) : list string :=
  if existsb (String.eqb k) seen then seen else seen ++ [k].

Definition uniq (l : list string) : list string := fold_left add_new l [].

Definition Zsum (l : list Z) : Z := fold_left Z.add l 0.
Definition Zlen {A} (l : list A) : Z := Z.of_nat (List.length l).

(** [min(l)] and [max(l)] on a non-empty list of ints. *)
Definition Zmin_list (x : Z) (l : list Z) : Z := fold_left Z.min l x.
Definition Zmax_list (x : Z) (l : list Z) : Z := fold_left Z.max l x.

End Py.

Import Py.

Notation "x <- c ;; k" := (Py.bind c (fun x => k))
  (at level 61, c at next level, right associativity).
Notation "c ;;; k" := (Py.bind c (fun _ => k))
  (at level 61, right associativity).
Notation "'let?' x ':=' r 'in' k" := (Py.rbind r (fun x => k))
  (at level 61, x name, r at next level, right associativity).

(** ** Binary64 floating point, exactly

    A finite double is [mant * 2^expo].  Every operation of the code that
    yields a float is the exact rational result rounded to the nearest
    double, ties to even, which is what [fround] computes on a fraction
    [n/d].  Python's [int / int], [round(x, k)] and ['%.kf'] formatting
    are all correctly rounded, so they are functions of the exact value. *)

Module Float.

Record float : Type := mkFloat { mant : Z; expo : Z }.

(** The rational a float denotes. *)
Definition value (x : float) : Q :=
  Qmake (mant x * 2 ^ Z.max 0 (expo x)) (Z.to_pos (2 ^ Z.max 0 (- expo x))).

(** Round the fraction [n/d] ([d > 0]) to the nearest integer, ties to
    even. *)
Definition round_half_even (n d : Z) : Z :=
  let q := n / d in
  let r := n mod d in
  match 2 * r ?= d with
  | Lt => q
  | Gt => q + 1
  | Eq => if Z.even q then q else q + 1
  end.

(** Exponent of the unit in the last place for the positive fraction
    [n/d]: floor(log2(n/d)) - 52, and never below the subnormal
    exponent -1074. *)
Definition ulp_expo (n d : Z) : Z :=
  let l := Z.log2 n - Z.log2 d in
  let fl := if n * 2 ^ Z.max 0 (- l) <? d * 2 ^ Z.max 0 l then l - 1 else l in
  Z.max (fl - 52) (-1074).

Definition zero : float := mkFloat 0 0.

(** Keep the mantissa below 2^53 after a carry. *)
Definition normalize (m e : Z) : float :=
  if m =? 2 ^ 53 then mkFloat (2 ^ 52) (e + 1) else mkFloat m e.

(** Nearest double to the positive fraction [n/d]; [None] past the
    largest finite double. *)
Definition fround_pos (n d : Z) : option float :=
  let e := ulp_expo n d in
  let m := round_half_even (n * 2 ^ Z.max 0 (- e)) (d * 2 ^ Z.max 0 e) in
  if 971 <? e then None
  else if (e =? 971) && (2 ^ 53 <=? m) then None
  else Some (normalize m e).

Definition fneg (x : float) : float := mkFloat (- mant x) (expo x).

(** Nearest double to the fraction [n/d], [d > 0]. *)
Definition fround (n d : Z) : option float :=
  if n =? 0 then Some zero
  else if 0 <? n then fround_pos n d
  else option_map fneg (fround_pos (- n) d).

(** Numerator and denominator of the exact value, denominator a power
    of two. *)
Definition num (x : float) : Z := mant x * 2 ^ Z.max 0 (expo x).
Definition den (x : float) : Z := 2 ^ Z.max 0 (- expo x).

(** [float(z)] *)
Definition of_Z (z : Z) : result float :=
  match fround z 1 with
  | Some x => Ok x
  | None => Raise (Exn OverflowError "int too large to convert to float")
  end.

(** [a / b] on Python ints: the correctly rounded quotient. *)
Definition true_divide (a b : Z) : result float :=
  if b =? 0 then Raise (Exn ZeroDivisionError "division by zero")
  else
    let (n, d) := if 0 <? b then (a, b) else (- a, - b) in
    match fround n d with
    | Some x => Ok x
    | None =>
        Raise (Exn OverflowError "integer division result too large for a float")
    end.

(** A float literal written in decimal, [n / 10^k]. *)
Definition literal (n : Z) (k : Z) : float :=
  match fround n (10 ^ k) with Some x => x | None => zero end.

(** [x * y]; [None] is the infinity Python would produce. *)
Definition fmul (x y : float) : option float :=
  fround (num x * num y) (den x * den y).

(** [int(x)]: truncation toward zero. *)
Definition to_int (x : float) : Z := Z.quot (num x) (den x).

(** [round(x, k)] for a float [x] and [k >= 0] digits: the exact value
    is rounded half-even to [k] decimals and the decimal converted back
    to the nearest double. *)
Definition round_digits (x : float) (k : Z) : float :=
  let t := round_half_even (num x * 10 ^ k) (den x) in
  match fround t (10 ^ k) with Some y => y | None => x end.

(** [f"{x:.kf}"] for a finite float: sign, integer part, and [k]
    decimals of the exact value rounded half-even. *)
Definition format_f (k : nat) (x : float) : string :=
  let p := 10 ^ Z.of_nat k in
  let t := round_half_even (Z.abs (num x) * p) (den x) in
  let sign := if num x <? 0 then "-" else "" in
  let body := str_of_Z (t / p) in
  match k with
  | O => (sign ++ body)%string
  | _ => (sign ++ body ++ "." ++ zero_pad k (t mod p))%string
  end.

Definition fle_bool (x y : float) : bool := Qle_bool (value x) (value y).
Definition flt_bool (x y : float) : bool := negb (Qle_bool (value y) (value x)).

End Float.

Import Float.

(** ** Calendar: [datetime] dates as proleptic Gregorian ordinals *)

Module Calendar.

Definition is_leap (y : Z) : bool :=
  (y mod 4 =? 0) && (negb (y mod 100 =? 0) || (y mod 400 =? 0)).

Definition days_before_year (y : Z) : Z :=
  let y1 := y - 1 in y1 * 365 + y1 / 4 - y1 / 100 + y1 / 400.

Definition days_in_month (y m : Z) : Z :=
  if m =? 2 then (if is_leap y then 29 else 28)
  else if (m =? 4) || (m =? 6) || (m =? 9) || (m =? 11) then 30
  else 31.

Definition days_before_month (y m : Z) : Z :=
  nth (Z.to_nat m) [0; 0; 31; 59; 90; 120; 151; 181; 212; 243; 273; 304; 334] 0
  + (if (2 <? m) && is_leap y then 1 else 0).

(** [date(y, m, d).toordinal()]: 1 January of year 1 is day 1. *)
Definition ymd2ord (y m d : Z) : Z :=
  days_before_year y + days_before_month y m + d.

Definition max_ordinal : Z := 3652059.   (* 9999-12-31 *)

(** [date.fromordinal(n)], as [datetime._ord2ymd] computes it. *)
Definition ord2ymd (ordinal : Z) : Z * Z * Z :=
  let n := ordinal - 1 in
  let n400 := n / 146097 in
  let n := n mod 146097 in
  let n100 := n / 36524 in
  let n := n mod 36524 in
  let n4 := n / 1461 in
  let n := n mod 1461 in
  let n1 := n / 365 in
  let n := n mod 365 in
  let year := n400 * 400 + 1 + n100 * 100 + n4 * 4 + n1 in
  if (n1 =? 4) || (n100 =? 4) then (year - 1, 12, 31)
  else
    let leapyear := (n1 =? 3) && (negb (n4 =? 24) || (n100 =? 3)) in
    let month := Z.shiftr (n + 50) 5 in
    let preceding :=
      days_before_month 1 month + (if (2 <? month) && leapyear then 1 else 0) in
    if n <? preceding then
      let month' := month - 1 in
      let preceding' :=
        preceding
        - (days_in_month 1 month' + (if (month' =? 2) && leapyear then 1 else 0)) in
      (year, month', n - preceding' + 1)
    else (year, month, n - preceding + 1).

(** [d.weekday()]: Monday is 0, Sunday is 6. *)
Definition weekday (ordinal : Z) : Z := (ordinal + 6) mod 7.

Definition day_names : list string :=
  ["Monday"; "Tuesday"; "Wednesday"; "Thursday"; "Friday"; "Saturday"; "Sunday"].

(** [d.strftime('%A')] *)
Definition strftime_A (ordinal : Z) : string :=
  nth (Z.to_nat (weekday ordinal)) day_names "".

(** [d.strftime('%Y-%m-%d')] for the years 1000 to 9999.  A year
    below 1000 is printed by the C library, with or without leading
    zeros according to the platform; the four digits written here are
    what is printed from the year 1000 on, and no property below relies
    on the text of an earlier year. *)
Definition strftime_ymd (ordinal : Z) : string :=
  let '(y, m, d) := ord2ymd ordinal in
  (zero_pad 4 y ++ "-" ++ zero_pad 2 m ++ "-" ++ zero_pad 2 d)%string.

(** *** [datetime.strptime(s, '%Y-%m-%d')]

    [_strptime] turns the format into the regular expression

      (?P<Y>\d\d\d\d)-(?P<m>1[0-2]|0[1-9]|[1-9])-(?P<d>3[0-1]|[1-2]\d|0[1-9]|[1-9]| [1-9])

    and matches it at the start of the text.  Without a match the text
    does not match the format; with text left over after the match
    there is unconverted data; otherwise [date(year, month, day)]
    checks the year and the day.  The model is written for ASCII text,
    where [\d] is one of the ten digits; in text with other characters
    [\d] also matches the decimal digits of other scripts, which are
    not modelled. *)

Definition digit (c : ascii) : option Z :=
  let n := Z.of_nat (nat_of_ascii c) in
  if (48 <=? n) && (n <=? 57) then Some (n - 48) else None.

Definition digit_in (lo hi : Z) (c : ascii) : option Z :=
  match digit c with
  | Some v => if (lo <=? v) && (v <=? hi) then Some v else None
  | None => None
  end.

Definition blank (c : ascii) : option Z := if Ascii.eqb c " " then Some 0 else None.

(** A piece of the pattern reads a number off the head of the text and
    leaves the rest. *)
Definition token : Type := string -> option (Z * string).

(** One character of a class; two characters, read as tens and units. *)
Definition one (p : ascii -> option Z) : token :=
  fun s =>
    match s with
    | String a rest => option_map (fun v => (v, rest)) (p a)
    | EmptyString => None
    end.

Definition two (p q : ascii -> option Z) : token :=
  fun s =>
    match s with
    | String a (String b rest) =>
        match p a, q b with
        | Some x, Some y => Some (10 * x + y, rest)
        | _, _ => None
        end
    | _ => None
    end.

(** The directive [%m]: [1[0-2]|0[1-9]|[1-9]]. *)
Definition month_alternatives : list token :=
  [two (digit_in 1 1) (digit_in 0 2);
   two (digit_in 0 0) (digit_in 1 9);
   one (digit_in 1 9)].

(** The directive [%d]: [3[0-1]|[1-2]\d|0[1-9]|[1-9]| [1-9]]. *)
Definition day_alternatives : list token :=
  [two (digit_in 3 3) (digit_in 0 1);
   two (digit_in 1 2) digit;
   two (digit_in 0 0) (digit_in 1 9);
   one (digit_in 1 9);
   two blank (digit_in 1 9)].

(** An alternation followed by the rest of the pattern: the
    alternatives are tried in order, and one that matches is given up
    again when the rest of the pattern does not match behind it. *)
Fixpoint alternation {A} (alts : list token) (rest_of_pattern : Z -> string -> option A)
    (s : string) : option A :=
  match alts with
  | [] => None
  | t :: alts' =>
      match t s with
      | Some (v, rest) =>
          match rest_of_pattern v rest with
          | Some r => Some r
          | None => alternation alts' rest_of_pattern s
          end
      | None => alternation alts' rest_of_pattern s
      end
  end.

Definition dash {A} (rest_of_pattern : string -> option A) (s : string) : option A :=
  match s with
  | String c rest => if Ascii.eqb c "-" then rest_of_pattern rest else None
  | EmptyString => None
  end.

(** The directive [%Y]: [\d\d\d\d]. *)
Definition four_digit_year : token :=
  fun s =>
    match s with
    | String a (String b (String c (String d rest))) =>
        match digit a, digit b, digit c, digit d with
        | Some va, Some vb, Some vc, Some vd =>
            Some (1000 * va + 100 * vb + 10 * vc + vd, rest)
        | _, _, _, _ => None
        end
    | _ => None
    end.

(** What follows the year: [-], the month, [-], the day, and the text
    behind the match. *)
Definition month_and_day : string -> option (Z * Z * string) :=
  dash (alternation month_alternatives
          (fun m => dash (alternation day_alternatives
                            (fun d left_over => Some (m, d, left_over))))).

(** [format_regex.match(data_string)]: the year, the month, the day,
    and the text behind the match. *)
Definition match_ymd (s : string) : option (Z * Z * Z * string) :=
  match four_digit_year s with
  | Some (y, rest) =>
      match month_and_day rest with
      | Some (m, d, left_over) => Some (y, m, d, left_over)
      | None => None
      end
  | None => None
  end.

Definition bad_date (s : string) : exn :=
  Exn ValueError ("time data " ++ repr_str s ++ " does not match format '%Y-%m-%d'").

(** [datetime.strptime(s, '%Y-%m-%d')], giving the ordinal of the
    date. *)
Definition strptime_ymd (s : string) : result Z :=
  match match_ymd s with
  | None => Raise (bad_date s)
  | Some (y, m, d, EmptyString) =>
      if y =? 0 then Raise (Exn ValueError "year 0 is out of range")
      else if days_in_month y m <? d
      then Raise (Exn ValueError "day is out of range for month")
      else Ok (ymd2ord y m d)
  | Some (_, _, _, left_over) =>
      Raise (Exn ValueError ("unconverted data remains: " ++ left_over))
  end.

End Calendar.

Import Calendar.

(** ** [src/app.py]: class [AirlineDataProcessor] *)

Module App.

(** One flight record, with the eight keys of the dict literal that
    [generate_sample_data] builds. *)
Record flight : Type := mkFlight {
  origin : string;
  destination : string;
  price : Z;
  date : string;
  demand_score : Z;
  availability : Z;
  is_domestic : bool;
  airline : string
}.

(** The instance attributes set by [__init__]. *)
Record AirlineDataProcessor : Type := mkProcessor {
  routes_data : list flight;
  price_trends : list (string * string);
  demand_patterns : list (string * string)
}.

Definition init : AirlineDataProcessor := mkProcessor [] [] [].

(** What a method call can read or change: the instance, the state of
    the [random] module (a stream of raw draws and a cursor into it)
    and the clock (today's ordinal). *)
Record World : Type := mkWorld {
  self_ : AirlineDataProcessor;
  rng : nat -> N;
  rng_pos : nat;
  clock : Z
}.

(** A number that is an [int] or a [float]. *)
Inductive number : Type :=
| Int (z : Z)
| Flt (x : float).

(** *** Random draws and the clock *)

(** [random._randbelow(n)] *)
Definition randbelow (n : Z) : M World Z :=
  fun w =>
    (Ok (Z.of_N (rng w (rng_pos w)) mod n),
     mkWorld (self_ w) (rng w) (S (rng_pos w)) (clock w)).

(** [random.randint(a, b)] *)
Definition randint (a b : Z) : M World Z :=
  r <- randbelow (b - a + 1) ;; ret (a + r).

(** [random.choice(seq)] *)
Definition choice (seq : list string) : M World string :=
  match seq with
  | [] => lift (Raise (Exn IndexError "Cannot choose from an empty sequence"))
  | _ => i <- randbelow (Zlen seq) ;; ret (nth (Z.to_nat i) seq "")
  end.

(** [datetime.now()], as far as the code uses it: the current date. *)
Definition now : M World Z := fun w => (Ok (clock w), w).

(** [for _ in range(n): acc.append(body)] *)
Fixpoint for_range {W A} (n : nat) (body : M W A) : M W (list A) :=
  match n with
  | O => ret []
  | S n' => x <- body ;; xs <- for_range n' body ;; ret (x :: xs)
  end.

(** *** generate_sample_data *)

Definition cities : list string :=
  ["Sydney"; "Melbourne"; "Brisbane"; "Perth"; "Adelaide";
   "Gold Coast"; "Cairns"; "Darwin"; "Hobart"; "Canberra";
   "Singapore"; "Kuala Lumpur"; "Bangkok"; "Tokyo"; "Seoul";
   "Los Angeles"; "London"; "Dubai"; "Hong Kong"; "Bali"].

Definition airlines : list string :=
  ["Qantas"; "Jetstar"; "Virgin Australia"; "Tiger Air"; "Singapore Airlines"].

Definition str_in (s : string) (l : list string) : bool :=
  existsb (String.eqb s) l.

(** [while destination == origin: destination = random.choice(cities)] *)
Fixpoint redraw (fuel : nat) (org dst : string) : M World string :=
  if String.eqb dst org then
    match fuel with
    | O => lift OutOfFuel
    | S fuel' => d <- choice cities ;; redraw fuel' org d
    end
  else ret dst.

(** [base_date + timedelta(days=offset)] *)
Definition add_days (base offset : Z) : result Z :=
  if max_ordinal <? base + offset
  then Raise (Exn OverflowError "date value out of range")
  else Ok (base + offset).

(** [1.2 if flight_date.weekday() >= 5 else 1.0] *)
Definition weekend_multiplier (flight_date : Z) : float :=
  if 5 <=? weekday flight_date then literal 12 1 else literal 10 1.

(** [int(base_price * weekend_multiplier)]: the int is converted to a
    float, the product is rounded to a double, [int] truncates it. *)
Definition priced (base_price : Z) (mult : float) : result Z :=
  let? b := of_Z base_price in
  match fmul b mult with
  | Some p => Ok (to_int p)
  | None => Raise (Exn OverflowError "cannot convert float infinity to integer")
  end.

(** The body of the [for _ in range(100)] loop. *)
Definition gen_flight (fuel : nat) (base_date : Z) : M World flight :=
  org <- choice (firstn 10 cities) ;;
  dst0 <- choice cities ;;
  dst <- redraw fuel org dst0 ;;
  let dom := str_in dst (firstn 10 cities) in
  base_price <- (if dom then randint 150 400 else randint 800 2500) ;;
  date_offset <- randint 1 90 ;;
  flight_date <- lift (add_days base_date date_offset) ;;
  p <- lift (priced base_price (weekend_multiplier flight_date)) ;;
  demand <- randint 30 100 ;;
  avail <- randint 10 200 ;;
  al <- choice airlines ;;
  ret (mkFlight org dst p (strftime_ymd flight_date) demand avail dom al).

Definition generate_sample_data (fuel : nat) : M World (list flight) :=
  base_date <- now ;;
  for_range 100 (gen_flight fuel base_date).

(** *** analyze_popular_routes *)

(** [" → "], the arrow in UTF-8. *)
Definition arrow : string :=
  String " " (String (ascii_of_nat 226) (String (ascii_of_nat 134)
    (String (ascii_of_nat 146) (String " " EmptyString)))).

Definition route_key (f : flight) : string :=
  (origin f ++ arrow ++ destination f)%string.

(** [d[k].append(v)] on a [defaultdict(list)]; the association list
    keeps the dict's insertion order. *)
Fixpoint dict_append {V} (k : string) (v : V) (d : list (string * list V))
  : list (string * list V) :=
  match d with
  | [] => [(k, [v])]
  | (k', vs) :: d' =>
      if String.eqb k k' then (k', vs ++ [v]) :: d'
      else (k', vs) :: dict_append k v d'
  end.

Definition group_by {A V} (key : A -> string) (val : A -> V) (data : list A)
  : list (string * list V) :=
  fold_left (fun d x => dict_append (key x) (val x) d) data [].

Record route_entry : Type := mkRoute {
  route : string;
  avg_demand : float;
  flight_count : Z
}.

(** The body of the loop over [route_demand.items()]. *)
Definition route_stats (kv : string * list Z) : result route_entry :=
  let (r, demands) := kv in
  let? avg := true_divide (Zsum demands) (Zlen demands) in
  Ok (mkRoute r (round_digits avg 1) (Zlen demands)).

(** [sorted(l, key=key, reverse=True)]: a stable sort, so the result is
    the one permutation of [l] that is non-increasing in [key] and keeps
    the input order among equal keys.  Insertion from the right computes
    it. *)
Fixpoint insert_desc {A} (key : A -> float) (x : A) (l : list A) : list A :=
  match l with
  | [] => [x]
  | y :: l' =>
      if fle_bool (key y) (key x) then x :: y :: l'
      else y :: insert_desc key x l'
  end.

Definition sorted_reverse {A} (key : A -> float) (l : list A) : list A :=
  fold_right (insert_desc key) [] l.

(** The list built by the second loop, before sorting. *)
Definition route_entries (data : list flight) : result (list route_entry) :=
  rmap route_stats (group_by route_key demand_score data).

Definition analyze_popular_routes (data : list flight)
  : M World (list route_entry) :=
  popular_routes <- lift (route_entries data) ;;
  ret (firstn 10 (sorted_reverse avg_demand popular_routes)).

(** *** analyze_price_trends *)

Record PriceTrends : Type := mkTrends {
  domestic_avg : number;
  international_avg : number;
  domestic_range : string;
  international_range : string
}.

(** [round(sum(ps) / len(ps) if ps else 0, 2)] *)
Definition rounded_mean (ps : list Z) : result number :=
  match ps with
  | [] => Ok (Int 0)
  | _ =>
      let? m := true_divide (Zsum ps) (Zlen ps) in
      Ok (Flt (round_digits m 2))
  end.

(** [f"${min(ps)} - ${max(ps)}" if ps else "N/A"] *)
Definition range_str (ps : list Z) : string :=
  match ps with
  | [] => "N/A"
  | p :: ps' =>
      ("$" ++ str_of_Z (Zmin_list p ps') ++ " - $" ++ str_of_Z (Zmax_list p ps'))%string
  end.

Definition domestic_prices (data : list flight) : list Z :=
  map price (filter is_domestic data).

Definition international_prices (data : list flight) : list Z :=
  map price (filter (fun f => negb (is_domestic f)) data).

Definition analyze_price_trends (data : list flight) : M World PriceTrends :=
  let dps := domestic_prices data in
  let ips := international_prices data in
  davg <- lift (rounded_mean dps) ;;
  iavg <- lift (rounded_mean ips) ;;
  ret (mkTrends davg iavg (range_str dps) (range_str ips)).

(** *** get_demand_insights *)

(** [max(d, key=d.get)]: the first key whose value is maximal. *)
Fixpoint argmax (best : string * float) (l : list (string * float))
  : string * float :=
  match l with
  | [] => best
  | kv :: l' => argmax (if flt_bool (snd best) (snd kv) then kv else best) l'
  end.

Definition max_by_value (d : list (string * float)) : result (string * float) :=
  match d with
  | [] => Raise (Exn ValueError "max() arg is an empty sequence")
  | kv :: d' => Ok (argmax kv d')
  end.

(** [sum(demands) / len(demands)] *)
Definition mean (demands : list Z) : result float :=
  true_divide (Zsum demands) (Zlen demands).

Definition weekday_of (f : flight) : result (string * Z) :=
  let? flight_date := strptime_ymd (date f) in
  Ok (strftime_A flight_date, demand_score f).

Definition get_demand_insights (data : list flight) : M World (list string) :=
  days <- lift (rmap weekday_of data) ;;
  let weekday_demand := group_by fst snd days in
  avg_demand_by_day <-
    lift (rmap (fun kv : string * list Z =>
                  let? a := mean (snd kv) in Ok (fst kv, a)) weekday_demand) ;;
  peak <- lift (max_by_value avg_demand_by_day) ;;
  let insight1 :=
    ("Peak demand occurs on " ++ fst peak
       ++ "s with an average demand score of " ++ format_f 1 (snd peak))%string in
  let domestic_flights := filter is_domestic data in
  let international_flights := filter (fun f => negb (is_domestic f)) data in
  match domestic_flights, international_flights with
  | _ :: _, _ :: _ =>
      dom_avg_demand <- lift (mean (map demand_score domestic_flights)) ;;
      intl_avg_demand <- lift (mean (map demand_score international_flights)) ;;
      if flt_bool intl_avg_demand dom_avg_demand then
        ret [insight1;
             ("Domestic routes show higher demand (" ++ format_f 1 dom_avg_demand
                ++ ") compared to international routes ("
                ++ format_f 1 intl_avg_demand ++ ")")%string]
      else
        ret [insight1;
             ("International routes show higher demand ("
                ++ format_f 1 intl_avg_demand
                ++ ") compared to domestic routes ("
                ++ format_f 1 dom_avg_demand ++ ")")%string]
  | _, _ => ret [insight1]
  end.

End App.

(** ** [src/Api_Integration.py]: [OpenAIAnalyzer] and [MarketDataAggregator] *)

Module Api.

(** What [json.loads] returns, and what the analyzer hands back. *)
Inductive json : Type :=
| JNull
| JBool (b : bool)
| JInt (z : Z)
| JFloat (literal : string)
| JStr (s : string)
| JArr (items : list json)
| JObj (fields : list (string * json)).

(** The dicts of [flight_data] are used as rows of a DataFrame: a cell
    holds an int, a string or nothing ([None], which pandas reads as
    missing, like an absent key). *)
Inductive cell : Type :=
| CInt (z : Z)
| CStr (s : string)
| CNull.

Definition row : Type := list (string * cell).

(** A float that may be [nan]. *)
Inductive pyfloat : Type :=
| Finite (x : float)
| NaN.

(** One entry of the [issues] list; the constructors stand for the four
    message templates and carry the data interpolated into them. *)
Inductive issue : Type :=
| NoDataAvailable                                 (* 'No data available' *)
| MissingRequiredFields (fields : list string)    (* f"Missing required fields: {..}" *)
| NullValuesFound (counts : list (string * Z))    (* f"Null values found in: {..}" *)
| NoMajorIssues.                                  (* 'No major issues detected' *)

Record DataQuality : Type := mkQuality {
  quality_score : Z;
  issues : list issue;
  completeness : option pyfloat       (* [None]: the key is absent *)
}.

Record OpenAIAnalyzer : Type := mkAnalyzer {
  api_key : option string;
  base_url : string;
  authorization : string
}.

Record request : Type := mkRequest {
  url : string;
  auth_header : string;
  content_type : string;
  model : string;
  system_message : string;
  user_message : string;
  max_tokens : Z;
  temperature : float
}.

Inductive http_outcome : Type :=
| Response (status_code : Z) (text : string)
| Fails (e : exn).

(** What a call can read or change: the text printed so far and the
    network, which answers a request with a response or an error. *)
Record World : Type := mkWorld {
  stdout : list string;
  http : request -> http_outcome
}.

Definition print (line : string) : M World unit :=
  fun w => (Ok tt, mkWorld (stdout w ++ [line]) (http w)).

(** [requests.post(...)] *)
Definition post (rq : request) : M World (Z * string) :=
  fun w =>
    match http w rq with
    | Response code body => (Ok (code, body), w)
    | Fails e => (Raise e, w)
    end.

(** *** DataFrame views of the rows *)

Fixpoint lookup (k : string) (r : row) : option cell :=
  match r with
  | [] => None
  | (k', c) :: r' => if String.eqb k k' then Some c else lookup k r'
  end.

(** [df[k]] row by row: an absent key reads as missing. *)
Definition cell_at (k : string) (r : row) : cell :=
  match lookup k r with Some c => c | None => CNull end.

Definition is_null (c : cell) : bool :=
  match c with CNull => true | _ => false end.

(** [df.columns]: the keys of all rows, in order of first appearance. *)
Definition columns (data : list row) : list string :=
  fold_left (fun cols r => fold_left add_new (map fst r) cols) data [].

(** [k in df.columns] *)
Definition has_column (data : list row) (k : string) : bool :=
  existsb (String.eqb k) (columns data).

(** [df.isnull().sum()]: the number of missing cells per column. *)
Definition null_counts (data : list row) : list (string * Z) :=
  map (fun k => (k, Zlen (filter (fun r => is_null (cell_at k r)) data)))
      (columns data).

Definition total_nulls (data : list row) : Z :=
  Zsum (map snd (null_counts data)).

(** *** OpenAIAnalyzer.__init__ *)

Definition truthy (k : option string) : bool :=
  match k with
  | Some EmptyString | None => false
  | Some _ => true
  end.

(** [api_key or os.getenv('OPENAI_API_KEY')] *)
Definition new_analyzer (key env_key : option string) : OpenAIAnalyzer :=
  let k := if truthy key then key else env_key in
  mkAnalyzer k "https://api.openai.com/v1"
    (match k with
     | Some s => if truthy k then ("Bearer " ++ s)%string else ""
     | None => ""
     end).

(** *** _generate_mock_insights *)

(** The values of a numeric column that pandas aggregates: missing
    cells are skipped, a string makes the reduction fail. *)
Fixpoint numeric (cells : list cell) : result (list Z) :=
  match cells with
  | [] => Ok []
  | CInt z :: cs => let? zs := numeric cs in Ok (z :: zs)
  | CNull :: cs => numeric cs
  | CStr _ :: cs =>
      Raise (Exn TypeError "Could not convert string to numeric")
  end.

(** [df['price'].mean()].  pandas adds the column up in binary64 and
    divides by the count; as long as the magnitudes of the cells add up
    to at most 2^53 every partial sum is exact, in whatever order it is
    taken, and the mean is the correctly rounded quotient of the integer
    sum written here.  Past that bound the two can differ in the last
    places, and no property below states the value there. *)
Definition column_mean (data : list row) (k : string) : result pyfloat :=
  let? zs := numeric (map (cell_at k) data) in
  match zs with
  | [] => Ok NaN
  | _ => let? m := true_divide (Zsum zs) (Zlen zs) in Ok (Finite m)
  end.

(** [df['price'].min()] and [.max()], as the float that [:.0f] formats. *)
Definition column_extreme (pick : Z -> list Z -> Z) (data : list row) (k : string)
  : result pyfloat :=
  let? zs := numeric (map (cell_at k) data) in
  match zs with
  | [] => Ok NaN
  | z :: zs' => let? x := of_Z (pick z zs') in Ok (Finite x)
  end.

(** [f"{x:.0f}"] *)
Definition format_0f (x : pyfloat) : string :=
  match x with
  | Finite y => format_f 0 y
  | NaN => "nan"
  end.

Definition strs (l : list string) : json := JArr (map JStr l).

Definition five_keys : list string :=
  ["demand_insights"; "price_insights"; "route_insights";
   "recommendations"; "summary"].

Definition bundle (demand price_ route_ recs : list string) (summary : string)
  : json :=
  JObj [("demand_insights", strs demand);
        ("price_insights", strs price_);
        ("route_insights", strs route_);
        ("recommendations", strs recs);
        ("summary", JStr summary)].

Definition _generate_mock_insights (flight_data : list row) : M World json :=
  match flight_data with
  | [] =>
      ret (bundle ["No flight data available for analysis"] [] [] []
                  "Insufficient data for analysis")
  | _ =>
      let has_price := has_column flight_data "price" in
      avg_price <- lift (if has_price then column_mean flight_data "price"
                         else Ok (Finite zero)) ;;
      price_line <-
        (if has_price then
           lo <- lift (column_extreme Zmin_list flight_data "price") ;;
           hi <- lift (column_extreme Zmax_list flight_data "price") ;;
           ret ("Price range varies from $" ++ format_0f lo
                  ++ " to $" ++ format_0f hi)%string
         else ret "Price data unavailable") ;;
      ret (bundle
             [("Analyzed " ++ str_of_Z (Zlen flight_data)
                 ++ " flights across multiple routes")%string;
              ("Average flight price is $" ++ format_0f avg_price ++ " AUD")%string;
              "Weekend flights show higher demand patterns";
              "Morning flights (6-9 AM) are most popular for business routes"]
             [price_line;
              "International flights average 60% higher than domestic";
              "Booking 3-4 weeks in advance offers best value"]
             ["Sydney-Melbourne remains the busiest route";
              "International routes to Asia show strong demand";
              "Regional routes have limited but stable demand"]
             ["Book domestic flights 2-3 weeks in advance";
              "Consider Tuesday/Wednesday departures for lower prices";
              "Morning flights offer better on-time performance"]
             "Market shows healthy demand with price stability across major routes")
  end.

(** *** Subscripts on parsed JSON *)

Fixpoint field (k : string) (fs : list (string * json)) : option json :=
  match fs with
  | [] => None
  | (k', v) :: fs' => if String.eqb k k' then Some v else field k fs'
  end.

(** [type(v).__name__] *)
Definition type_name (v : json) : string :=
  match v with
  | JNull => "NoneType"
  | JBool _ => "bool"
  | JInt _ => "int"
  | JFloat _ => "float"
  | JStr _ => "str"
  | JArr _ => "list"
  | JObj _ => "dict"
  end.

Definition not_subscriptable (v : json) : exn :=
  Exn TypeError ("'" ++ type_name v ++ "' object is not subscriptable").

(** [v[k]] for a string [k].  The text of a [KeyError] is the [repr]
    of the key. *)
Definition getitem (v : json) (k : string) : result json :=
  match v with
  | JObj fs =>
      match field k fs with
      | Some x => Ok x
      | None => Raise (Exn KeyError (repr_str k))
      end
  | JArr _ => Raise (Exn TypeError "list indices must be integers or slices, not str")
  | JStr _ => Raise (Exn TypeError "string indices must be integers, not 'str'")
  | _ => Raise (not_subscriptable v)
  end.

(** [v[0]] *)
Definition getfirst (v : json) : result json :=
  match v with
  | JArr (x :: _) => Ok x
  | JArr [] => Raise (Exn IndexError "list index out of range")
  | JObj _ => Raise (Exn KeyError "0")
  | JStr (String c _) => Ok (JStr (String c EmptyString))
  | JStr EmptyString => Raise (Exn IndexError "string index out of range")
  | _ => Raise (not_subscriptable v)
  end.

(** [result['choices'][0]['message']['content']] *)
Definition message_content (parsed : json) : result json :=
  let? choices := getitem parsed "choices" in
  let? first := getfirst choices in
  let? message := getitem first "message" in
  getitem message "content".

Definition dq : string := String (ascii_of_nat 34) EmptyString.
Definition nl : string := String (ascii_of_nat 10) EmptyString.
Definition quoted (s : string) : string := (dq ++ s ++ dq)%string.

Definition prompt_head : string :=
  (nl ++ "        Analyze the following airline booking data and provide insights about:"
   ++ nl ++ "        1. Market demand patterns"
   ++ nl ++ "        2. Price trends and anomalies  "
   ++ nl ++ "        3. Popular routes and destinations"
   ++ nl ++ "        4. Best booking recommendations"
   ++ nl ++ "        5. Seasonal or temporal patterns"
   ++ nl ++ "        "
   ++ nl ++ "        Data Summary:"
   ++ nl ++ "        ")%string.

Definition insight_line (k : string) : string :=
  ("            " ++ quoted k ++ ": [" ++ quoted "insight1" ++ ", "
     ++ quoted "insight2" ++ ", ...],")%string.

Definition prompt_tail : string :=
  (nl ++ "        "
   ++ nl ++ "        Please provide clear, actionable insights in JSON format with the following structure:"
   ++ nl ++ "        {"
   ++ nl ++ insight_line "demand_insights"
   ++ nl ++ insight_line "price_insights"
   ++ nl ++ insight_line "route_insights"
   ++ nl ++ "            " ++ quoted "recommendations" ++ ": [" ++ quoted "rec1"
         ++ ", " ++ quoted "rec2" ++ ", ...],"
   ++ nl ++ "            " ++ quoted "summary" ++ ": " ++ quoted "Overall market summary"
   ++ nl ++ "        }"
   ++ nl ++ "        ")%string.

Section Libraries.

(** The behaviour of the libraries the code calls is a parameter of
    the model: [json.loads]; the pandas and [json.dumps] pipeline that
    renders the summary of a non-empty DataFrame; and what pandas
    yields for the completeness ratio 0/0 of a frame without columns
    (a [nan] or a [ZeroDivisionError], by version). *)
Variable json_loads : string -> result json.
Variable pandas_summary : list row -> result string.
Variable ratio_without_columns : result pyfloat.

(** *** _prepare_data_summary *)
Definition _prepare_data_summary (flight_data : list row) : result string :=
  match flight_data with
  | [] => Ok "No flight data available"
  | _ => pandas_summary flight_data
  end.

(** *** analyze_flight_trends *)

Definition chat_request (self : OpenAIAnalyzer) (prompt : string) : request :=
  mkRequest (base_url self ++ "/chat/completions")%string
    (authorization self)
    "application/json"
    "gpt-3.5-turbo"
    "You are an airline industry analyst expert at interpreting market data and trends."
    prompt
    1000
    (literal 7 1).

(** The inner [try]: [json.loads(content)], with the fallback for text
    that is not JSON. *)
Definition parse_insights (content : json) : result json :=
  match content with
  | JStr s =>
      match json_loads s with
      | Raise (Exn JSONDecodeError _) =>
          Ok (bundle [s] [] [] [] "AI analysis completed")
      | other => other
      end
  | _ =>
      Raise (Exn TypeError ("the JSON object must be str, bytes or bytearray, not "
                              ++ type_name content))
  end.

Definition analyze_flight_trends (self : OpenAIAnalyzer) (flight_data : list row)
  : M World json :=
  if negb (truthy (api_key self)) then _generate_mock_insights flight_data
  else
    data_summary <- lift (_prepare_data_summary flight_data) ;;
    let prompt := (prompt_head ++ data_summary ++ prompt_tail)%string in
    try_except
      (response <- post (chat_request self prompt) ;;
       if fst response =? 200 then
         parsed <- lift (json_loads (snd response)) ;;
         content <- lift (message_content parsed) ;;
         lift (parse_insights content)
       else
         print ("OpenAI API error: " ++ str_of_Z (fst response))%string ;;;
         _generate_mock_insights flight_data)
      (fun e =>
         print ("Error calling OpenAI API: " ++ exn_msg e)%string ;;;
         _generate_mock_insights flight_data).

(** *** _assess_data_quality *)

Definition required_fields : list string :=
  ["origin"; "destination"; "price"; "date"].

Definition missing_fields (data : list row) : list string :=
  filter (fun f => negb (has_column data f)) required_fields.

(** [(1 - nulls / (len(df) * len(df.columns))) * 100] *)
Definition completeness_of (data : list row) : result pyfloat :=
  let cells := Zlen data * Zlen (columns data) in
  if cells =? 0 then ratio_without_columns
  else
    let? ratio := true_divide (total_nulls data) cells in
    match fround (den ratio - num ratio) (den ratio) with
    | Some rest =>
        match fmul rest (mkFloat 100 0) with
        | Some pct => Ok (Finite pct)
        | None => Ok NaN
        end
    | None => Ok NaN
    end.

Definition _assess_data_quality (flight_data : list row) : result DataQuality :=
  match flight_data with
  | [] => Ok (mkQuality 0 [NoDataAvailable] None)
  | _ =>
      let missing := missing_fields flight_data in
      let quality_score := Z.max 0 (100 - Zlen missing * 25) in
      let issues :=
        match missing with
        | [] => []
        | _ => [MissingRequiredFields missing]
        end in
      let nulls := total_nulls flight_data in
      let '(issues, quality_score) :=
        if 0 <? nulls then
          (issues ++ [NullValuesFound
                        (filter (fun kc => 0 <? snd kc) (null_counts flight_data))],
           quality_score - Z.min 20 nulls)
        else (issues, quality_score) in
      let? pct := completeness_of flight_data in
      Ok (mkQuality (Z.max 0 quality_score)
            (match issues with [] => [NoMajorIssues] | _ => issues end)
            (Some pct))
  end.

End Libraries.

End Api.

(** * Vocabulary of the properties *)

Module Spec.

(** The exact value compared with an integer. *)
Definition ge_int (x : float) (c : Z) : Prop := c * den x <= num x.
Definition le_int (x : float) (c : Z) : Prop := num x <= c * den x.

(** A computation that neither reads nor writes the world. *)
Definition pure {W A} (c : M W A) : Prop := exists r, forall w, c w = (r, w).

(** [a] may stand before [b] in a descending order. *)
Definition before {A} (key : A -> float) (a b : A) : Prop := (value (key b) <= value (key a))%Q.

(** The elements whose key equals [v]. *)
Definition tied {A} (key : A -> float) (v : Q) (a : A) : bool := Qeq_bool (value (key a)) v.

(** The value of an average, compared with integer bounds. *)
Definition within (avg : App.number) (lo hi : Z) : Prop :=
  match avg with
  | App.Int z => lo <= z <= hi
  | App.Flt x => (inject_Z lo <= value x)%Q /\ (value x <= inject_Z hi)%Q
  end.

(** [min(ps)] and [max(ps)] of a partition. *)
Definition min_price (ps : list Z) : Z :=
  match ps with [] => 0 | p :: ps' => Zmin_list p ps' end.
Definition max_price (ps : list Z) : Z :=
  match ps with [] => 0 | p :: ps' => Zmax_list p ps' end.

Definition fits_double (z : Z) : Prop := - 2 ^ 53 <= z <= 2 ^ 53.

Definition priced_is (mult : float) (expected : Z -> Z) (bp : Z) : bool :=
  match App.priced bp mult with
  | Ok p => p =? expected bp
  | _ => false
  end.

Definition in_band (dom : bool) (bp : Z) : Prop :=
  if dom then 150 <= bp <= 400 else 800 <= bp <= 2500.

(** How the price of a generated record follows from the base price and
    the date offset drawn for it; [rounding] is what happens to the
    base price on a Saturday or Sunday. *)
Definition price_rule (rounding : Z -> Z) (base_date : Z) (f : App.flight) : Prop :=
  exists base_price date_offset,
    1 <= date_offset <= 90
    /\ App.date f = strftime_ymd (base_date + date_offset)
    /\ in_band (App.is_domestic f) base_price
    /\ App.price f = if 5 <=? weekday (base_date + date_offset)
                 then rounding base_price else base_price.

(** The [price] cells are ints of at most 53 bits, or missing. *)
Definition numeric_prices (data : list Api.row) : Prop :=
  Forall (fun r => match Api.cell_at "price" r with
                   | Api.CInt z => fits_double z
                   | Api.CStr _ => False
                   | Api.CNull => True
                   end) data.

(** The keys of a dict. *)
Definition dict_keys (v : Api.json) : option (list string) :=
  match v with
  | Api.JObj fs => Some (map fst fs)
  | _ => None
  end.

(** ** Sample inputs *)

(** A processor just constructed, a clock standing at Friday
    2024-03-15, and a random stream that repeats seven draws: Sydney,
    Melbourne, base price 153, date offset 1, then demand, availability
    and airline. *)
Definition sample_world : App.World :=
  App.mkWorld App.init (fun n => nth (n mod 7) [0; 1; 3; 0; 20; 5; 0]%N 0%N) 0 738960.

Definition sample_flights : list App.flight :=
  [App.mkFlight "Sydney" "Melbourne" 100 "2024-03-15" 50 10 true "Qantas";
   App.mkFlight "Sydney" "Perth" 300 "2024-03-16" 70 12 true "Jetstar";
   App.mkFlight "Sydney" "Tokyo" 1000 "2024-03-16" 70 30 false "Qantas";
   App.mkFlight "Perth" "Sydney" 250 "2024-03-18" 70 30 true "Tiger Air";
   App.mkFlight "Sydney" "Melbourne" 120 "2024-03-17" 91 44 true "Jetstar"].

(** A record with the given price and route type, the other fields as
    in [f]. *)
Definition with_price (f : App.flight) (p : Z) (dom : bool) : App.flight :=
  App.mkFlight (App.origin f) (App.destination f) p (App.date f) (App.demand_score f)
           (App.availability f) dom (App.airline f).

(** Rows in the shape of the module's own example data; the third has
    no date and no airline name. *)
Definition sample_rows : list Api.row :=
  [[("origin", Api.CStr "SYD"); ("destination", Api.CStr "MEL"); ("price", Api.CInt 299);
    ("date", Api.CStr "2024-03-15"); ("airline", Api.CStr "Qantas")];
   [("origin", Api.CStr "MEL"); ("destination", Api.CStr "BNE"); ("price", Api.CInt 189);
    ("date", Api.CStr "2024-03-16"); ("airline", Api.CStr "Virgin")];
   [("origin", Api.CStr "SYD"); ("destination", Api.CStr "PER"); ("price", Api.CInt 449);
    ("airline", Api.CNull)]].

(** The body of a successful chat completion whose message content is
    the text [42]. *)
Definition completion_text : string :=
  ("{" ++ Api.quoted "choices" ++ ": [{" ++ Api.quoted "message" ++ ": {"
     ++ Api.quoted "content" ++ ": " ++ Api.quoted "42" ++ "}}]}")%string.

Definition completion_json : Api.json :=
  Api.JObj
    [("choices",
      Api.JArr [Api.JObj [("message", Api.JObj [("content", Api.JStr "42")])]])].

(** A body without the envelope of a completion. *)
Definition refusal_text : string :=
  ("{" ++ Api.quoted "error" ++ ": " ++ Api.quoted "rate limited" ++ "}")%string.

(** [json.loads] on the texts used below; every other text used there
    starts with a character that begins no JSON value. *)
Definition loads_sample (s : string) : result Api.json :=
  if String.eqb s completion_text then Ok completion_json
  else if String.eqb s refusal_text then Ok (Api.JObj [("error", Api.JStr "rate limited")])
  else if String.eqb s "42" then Ok (Api.JInt 42)
  else if String.eqb s "[]" then Ok (Api.JArr [])
  else Raise (Exn JSONDecodeError "Expecting value: line 1 column 1 (char 0)").

(** Two dated records, the second without a price: the price column
    has a missing cell and is therefore a column of floats. *)
Definition dated_rows : list Api.row :=
  [[("date", Api.CStr "2024-03-15"); ("price", Api.CInt 299)];
   [("date", Api.CStr "2024-03-16")]].

(** The summary of [dated_rows], as [json.dumps(summary, indent=2)]
    lays it out. *)
Definition dated_summary : string :=
  ("{" ++ Api.nl
   ++ "  " ++ Api.quoted "total_flights" ++ ": 2," ++ Api.nl
   ++ "  " ++ Api.quoted "date_range" ++ ": " ++ Api.quoted "2024-03-15 to 2024-03-16"
   ++ "," ++ Api.nl
   ++ "  " ++ Api.quoted "price_stats" ++ ": {" ++ Api.nl
   ++ "    " ++ Api.quoted "average" ++ ": 299.0," ++ Api.nl
   ++ "    " ++ Api.quoted "min" ++ ": 299.0," ++ Api.nl
   ++ "    " ++ Api.quoted "max" ++ ": 299.0" ++ Api.nl
   ++ "  }," ++ Api.nl
   ++ "  " ++ Api.quoted "top_routes" ++ ": {}," ++ Api.nl
   ++ "  " ++ Api.quoted "airlines" ++ ": {}," ++ Api.nl
   ++ "  " ++ Api.quoted "demand_avg" ++ ": 0" ++ Api.nl
   ++ "}")%string.

(** What the mock path makes of [dated_rows]. *)
Definition dated_insights : Api.json :=
  Api.bundle
    ["Analyzed 2 flights across multiple routes";
     "Average flight price is $299 AUD";
     "Weekend flights show higher demand patterns";
     "Morning flights (6-9 AM) are most popular for business routes"]
    ["Price range varies from $299 to $299";
     "International flights average 60% higher than domestic";
     "Booking 3-4 weeks in advance offers best value"]
    ["Sydney-Melbourne remains the busiest route";
     "International routes to Asia show strong demand";
     "Regional routes have limited but stable demand"]
    ["Book domestic flights 2-3 weeks in advance";
     "Consider Tuesday/Wednesday departures for lower prices";
     "Morning flights offer better on-time performance"]
    "Market shows healthy demand with price stability across major routes".

Definition cell_eqb (a b : Api.cell) : bool :=
  match a, b with
  | Api.CInt x, Api.CInt y => x =? y
  | Api.CStr x, Api.CStr y => String.eqb x y
  | Api.CNull, Api.CNull => true
  | _, _ => false
  end.

Fixpoint list_eqb {A} (eqb : A -> A -> bool) (l l' : list A) : bool :=
  match l, l' with
  | [], [] => true
  | x :: t, y :: t' => eqb x y && list_eqb eqb t t'
  | _, _ => false
  end.

Definition rows_eqb : list Api.row -> list Api.row -> bool :=
  list_eqb (list_eqb (fun a b => String.eqb (fst a) (fst b) && cell_eqb (snd a) (snd b))).

(** pandas and [json.dumps] on the sample frames: [dated_rows] is
    rendered as [dated_summary]; a frame like [sample_rows], whose price
    column is of dtype int64, is refused by [json.dumps].  The empty
    list never reaches the libraries. *)
Definition summary_sample (data : list Api.row) : result string :=
  if rows_eqb data dated_rows then Ok dated_summary
  else Raise (Exn TypeError "Object of type int64 is not JSON serializable").

(** The status with which the chat-completion call of
    [analyze_flight_trends] returns, in a run on [flight_data] that
    starts in the world [w].  There is a call only when a key is set
    and [_prepare_data_summary], which runs before it, has returned;
    and the call returns a status only when the transport does not
    fail. *)
Definition call_status (pandas_summary : list Api.row -> result string)
    (self : Api.OpenAIAnalyzer) (flight_data : list Api.row) (w : Api.World) : option Z :=
  if Api.truthy (Api.api_key self) then
    match Api._prepare_data_summary pandas_summary flight_data with
    | Ok summary =>
        match Api.http w (Api.chat_request self
                            (Api.prompt_head ++ summary ++ Api.prompt_tail)) with
        | Api.Response code _ => Some code
        | Api.Fails _ => None
        end
    | _ => None
    end
  else None.

Definition analyzer : Api.OpenAIAnalyzer := Api.new_analyzer (Some "sk-test") None.

Definition world_500 : Api.World :=
  Api.mkWorld [] (fun _ => Api.Response 500 "Internal Server Error").

Definition world_200 : Api.World :=
  Api.mkWorld [] (fun _ => Api.Response 200 completion_text).

End Spec.

(** ** [src/app.py]: the JSON endpoints *)

Module Routes.
Import App.

(** The [data] object of [/api/data]. *)
Record dashboard : Type := mkDashboard {
  popular_routes : list route_entry;
  price_trends : PriceTrends;
  demand_insights : list string;
  total_flights : Z;
  last_updated : string
}.

(** The query parameters of [/filter]; an absent parameter is [""]. *)
Record filters : Type := mkFilters {
  by_origin : string;
  by_destination : string;
  date_from : string;
  date_to : string
}.

(** The [data] object of [/filter]. *)
Record selection : Type := mkSelection {
  sel_popular_routes : list route_entry;
  sel_price_trends : PriceTrends;
  sel_total_flights : Z;
  filters_applied : filters
}.

(** What an endpoint hands to [jsonify]: [{'success': True, 'data': ..}]
    with status 200, or [{'success': False, 'error': str(e)}] with
    status 500. *)
Inductive reply (A : Type) : Type :=
| Success (data : A)
| Failure (error : string).
Arguments Success {A} data.
Arguments Failure {A} error.

Definition status {A} (r : reply A) : Z :=
  match r with
  | Success _ => 200
  | Failure _ => 500
  end.

(** [if s:] on a string *)
Definition nonempty (s : string) : bool :=
  match s with EmptyString => false | _ => true end.

(** *** The chart endpoints *)

(** The traces that the endpoints hand to plotly, with the arguments
    they pass. *)
Inductive trace : Type :=
| Bar (x : list string) (y : list float) (marker_color : string)
      (text : list string) (textposition : string)
| Scatter (x : list string) (y : list float) (mode : string)
          (line_color : string) (line_width marker_size : Z).

(** [go.Figure(data=[..])] after [fig.update_layout(..)]. *)
Record figure : Type := mkFigure {
  fig_data : list trace;
  title : string;
  xaxis_title : string;
  yaxis_title : string;
  template : string
}.

(** What a chart endpoint hands to [jsonify]: [{'chart': graphJSON}],
    or [{'error': str(e)}] with status 500. *)
Inductive chart_reply : Type :=
| Chart (chart : string)
| ChartError (error : string).

Definition chart_status (r : chart_reply) : Z :=
  match r with
  | Chart _ => 200
  | ChartError _ => 500
  end.

(** [destinations, avg_demands = zip(..)] on the unpacked
    [sorted_data]: two tuples, unless there is no pair at all. *)
Definition unzip_pairs (sorted_data : list (string * float))
  : result (list string * list float) :=
  match sorted_data with
  | [] => Raise (Exn ValueError "not enough values to unpack (expected 2, got 0)")
  | _ => Ok (map fst sorted_data, map snd sorted_data)
  end.

(** The figure of [demand_chart] for its two series. *)
Definition bar_figure (destinations : list string) (avg_demands : list float) : figure :=
  mkFigure [Bar destinations avg_demands "lightblue"
                (map (format_f 1) avg_demands) "auto"]
           "Average Demand Score by Destination" "Destination"
           "Average Demand Score" "plotly_white".

(** [demand_chart] from the grouping to the figure. *)
Definition demand_figure (raw_data : list flight) : result figure :=
  let dest_demand := group_by destination demand_score raw_data in
  let? pairs :=
    rmap (fun kv : string * list Z => let? a := mean (snd kv) in Ok (fst kv, a))
         dest_demand in
  let sorted_data := firstn 15 (sorted_reverse snd pairs) in
  let? series := unzip_pairs sorted_data in
  Ok (bar_figure (fst series) (snd series)).

(** [sorted(keys)] on strings: ascending and stable. *)
Fixpoint insert_asc (x : string) (l : list string) : list string :=
  match l with
  | [] => [x]
  | y :: l' => if String.leb x y then x :: y :: l' else y :: insert_asc x l'
  end.

Definition sorted_strings (l : list string) : list string :=
  fold_right insert_asc [] l.

(** [d[k]] on a [defaultdict(list)]: a missing key reads as [[]]. *)
Fixpoint dict_get {V} (k : string) (d : list (string * list V)) : list V :=
  match d with
  | [] => []
  | (k', vs) :: d' => if String.eqb k k' then vs else dict_get k d'
  end.

(** The figure of [price_chart] for its two series. *)
Definition scatter_figure (dates : list string) (avg_prices : list float) : figure :=
  mkFigure [Scatter dates avg_prices "lines+markers" "orange" 3 6]
           "Average Flight Prices Over Time" "Date"
           "Average Price (AUD)" "plotly_white".

(** [price_chart] from the grouping to the figure. *)
Definition price_figure (raw_data : list flight) : result figure :=
  let date_prices := group_by date price raw_data in
  let dates := sorted_strings (map fst date_prices) in
  let? avg_prices := rmap (fun date => mean (dict_get date date_prices)) dates in
  Ok (scatter_figure dates avg_prices).

Section Environment.

(** [str.lower], the time of day that [datetime.now()] shows
    (['%H:%M:%S']), which the clock of the model does not carry, and
    [json.dumps(fig, cls=plotly.utils.PlotlyJSONEncoder)]. *)
Variable lower : string -> string.
Variable time_of_day : World -> string.
Variable plotly_dumps : figure -> result string.

(** [datetime.now().strftime('%Y-%m-%d %H:%M:%S')] *)
Definition now_text : M World string :=
  fun w => (Ok (strftime_ymd (clock w) ++ " " ++ time_of_day w)%string, w).

(** [get_data], the handler of [/api/data] *)
Definition get_data (fuel : nat) : M World (reply dashboard) :=
  try_except
    (raw_data <- generate_sample_data fuel ;;
     routes <- analyze_popular_routes raw_data ;;
     trends <- analyze_price_trends raw_data ;;
     insights <- get_demand_insights raw_data ;;
     stamp <- now_text ;;
     ret (Success (mkDashboard routes trends insights (Zlen raw_data) stamp)))
    (fun e => ret (Failure (exn_msg e))).

(** The four list comprehensions of [filter_data], each applied only
    when its parameter is not empty; strings compare as Python compares
    them. *)
Definition apply_filters (q : filters) (raw_data : list flight) : list flight :=
  let filtered := raw_data in
  let filtered :=
    if nonempty (by_origin q)
    then filter (fun f => String.eqb (lower (origin f)) (lower (by_origin q))) filtered
    else filtered in
  let filtered :=
    if nonempty (by_destination q)
    then filter (fun f => String.eqb (lower (destination f)) (lower (by_destination q)))
                filtered
    else filtered in
  let filtered :=
    if nonempty (date_from q)
    then filter (fun f => String.leb (date_from q) (date f)) filtered
    else filtered in
  if nonempty (date_to q)
  then filter (fun f => String.leb (date f) (date_to q)) filtered
  else filtered.

(** [filter_data], the handler of [/filter] *)
Definition filter_data (fuel : nat) (q : filters) : M World (reply selection) :=
  try_except
    (raw_data <- generate_sample_data fuel ;;
     let filtered_data := apply_filters q raw_data in
     routes <- analyze_popular_routes filtered_data ;;
     trends <- analyze_price_trends filtered_data ;;
     ret (Success (mkSelection routes trends (Zlen filtered_data) q)))
    (fun e => ret (Failure (exn_msg e))).

(** [demand_chart], the handler of [/api/charts/demand] *)
Definition demand_chart (fuel : nat) : M World chart_reply :=
  try_except
    (raw_data <- generate_sample_data fuel ;;
     fig <- lift (demand_figure raw_data) ;;
     graphJSON <- lift (plotly_dumps fig) ;;
     ret (Chart graphJSON))
    (fun e => ret (ChartError (exn_msg e))).

(** [price_chart], the handler of [/api/charts/prices] *)
Definition price_chart (fuel : nat) : M World chart_reply :=
  try_except
    (raw_data <- generate_sample_data fuel ;;
     fig <- lift (price_figure raw_data) ;;
     graphJSON <- lift (plotly_dumps fig) ;;
     ret (Chart graphJSON))
    (fun e => ret (ChartError (exn_msg e))).

End Environment.

End Routes.

(** ** [src/Api_Integration.py]: class [FlightAPIIntegrator] *)

Module Integrator.

(** A float that may have left the finite doubles: [None] is an
    infinity or a nan. *)
Definition xfloat : Type := option float.

(** [x + y], [x - y] and [x / y] on finite floats: the exact result,
    correctly rounded. *)
Definition fadd (x y : float) : xfloat :=
  fround (num x * den y + num y * den x) (den x * den y).

Definition fsub (x y : float) : xfloat :=
  fround (num x * den y - num y * den x) (den x * den y).

Definition fdiv (x y : float) : result xfloat :=
  if num y =? 0 then Raise (Exn ZeroDivisionError "float division by zero")
  else if 0 <? num y then Ok (fround (num x * den y) (den x * num y))
  else Ok (fround (- (num x * den y)) (den x * - num y)).

(** An operation with a finite constant other than zero: an operand
    that is not finite stays so. *)
Definition xbind (x : xfloat) (op : float -> xfloat) : xfloat :=
  match x with
  | Some v => op v
  | None => None
  end.

(** One dict of the list that [get_price_history] returns. *)
Record price_point : Type := mkPoint {
  date : string;
  price : xfloat;
  currency : string;
  route : string
}.

(** [timedelta(days=n)] *)
Definition timedelta (days : Z) : result Z :=
  if 999999999 <? Z.abs days
  then Raise (Exn OverflowError
                ("days=" ++ str_of_Z days ++ "; must have magnitude <= 999999999"))
  else Ok days.

(** [d + delta] on a date and a number of days *)
Definition shift_date (d delta : Z) : result Z :=
  let r := d + delta in
  if (r <? 1) || (max_ordinal <? r)
  then Raise (Exn OverflowError "date value out of range")
  else Ok r.

(** [range(n)] *)
Definition range (n : Z) : list Z := map Z.of_nat (seq 0 (Z.to_nat n)).

(** [1 + (0.2 * (i % 7 - 3.5) / 3.5)] *)
Definition price_variation (i : Z) : result xfloat :=
  let? k := of_Z (i mod 7) in
  let a := fsub k (literal 35 1) in
  let b := xbind a (fmul (literal 2 1)) in
  let? c := match b with
            | Some b' => fdiv b' (literal 35 1)
            | None => Ok None
            end in
  let? one := of_Z 1 in
  Ok (xbind c (fadd one)).

(** [round(base_price * price_variation, 2)] with [base_price = 400] *)
Definition rounded_price (i : Z) : result xfloat :=
  let base_price := 400 in
  let? price_variation := price_variation i in
  let? b := of_Z base_price in
  let daily_price := xbind price_variation (fmul b) in
  Ok (option_map (fun x => round_digits x 2) daily_price).

(** [get_price_history]; [today] is the date of [datetime.now()]. *)
Definition get_price_history (today : Z) (route : string) (days : Z)
  : result (list price_point) :=
  let? delta := timedelta days in
  let? base_date := shift_date today (- delta) in
  rmap (fun i =>
          let? step := timedelta i in
          let? date := shift_date base_date step in
          let? p := rounded_price i in
          Ok (mkPoint (strftime_ymd date) p "AUD" route))
       (range days).

End Integrator.

(** ** [src/scraper.py]: class [AirlineDataScraper] *)

Module Scraper.
Import Integrator.

(** What a method call can read or change: the state of the [random]
    module (a stream of raw draws and a cursor into it), the clock
    (today's ordinal), the text printed so far and the pauses taken
    with [time.sleep]. *)
Record World : Type := mkWorld {
  rng : nat -> N;
  rng_pos : nat;
  clock : Z;
  stdout : list string;
  naps : list float
}.

Definition draw : M World N :=
  fun w =>
    (Ok (rng w (rng_pos w)),
     mkWorld (rng w) (S (rng_pos w)) (clock w) (stdout w) (naps w)).

(** [random._randbelow(n)] *)
Definition randbelow (n : Z) : M World Z :=
  r <- draw ;; ret (Z.of_N r mod n).

(** [random.randint(a, b)] *)
Definition randint (a b : Z) : M World Z :=
  r <- randbelow (b - a + 1) ;; ret (a + r).

(** [random.choice(seq)] *)
Definition choice {A} (seq : list A) (default : A) : M World A :=
  match seq with
  | [] => lift (Raise (Exn IndexError "Cannot choose from an empty sequence"))
  | _ => i <- randbelow (Zlen seq) ;; ret (nth (Z.to_nat i) seq default)
  end.

(** [random.random()]: 53 random bits as a fraction of [2^53]. *)
Definition random : M World float :=
  r <- draw ;; ret (mkFloat (Z.of_N r mod 2 ^ 53) (-53)).

(** [random.uniform(a, b)], that is [a + (b - a) * random()] *)
Definition uniform (a b : float) : M World xfloat :=
  r <- random ;;
  ret (xbind (xbind (fsub b a) (fun width => fmul width r)) (fadd a)).

Definition print (line : string) : M World unit :=
  fun w =>
    (Ok tt, mkWorld (rng w) (rng_pos w) (clock w) (stdout w ++ [line]) (naps w)).

(** [time.sleep(secs)] *)
Definition sleep (secs : xfloat) : M World unit :=
  fun w =>
    match secs with
    | Some s =>
        if num s <? 0
        then (Raise (Exn ValueError "sleep length must be non-negative"), w)
        else (Ok tt, mkWorld (rng w) (rng_pos w) (clock w) (stdout w) (naps w ++ [s]))
    | None => (Raise (Exn OverflowError "timestamp too large to convert to C PyTime_t"), w)
    end.

(** One dict of the list that the scraper returns. *)
Record flight : Type := mkFlight {
  origin : string;
  destination : string;
  airline : string;
  price : Z;
  currency : string;
  departure_time : string;
  arrival_time : string;
  duration : string;
  stops : Z;
  date : string;
  available_seats : Z;
  booking_class : string;
  scraped_at : string;
  demand_indicator : xfloat
}.

(** *** _estimate_distance *)

Definition domestic_routes : list ((string * string) * Z) :=
  [(("SYD", "MEL"), 880); (("SYD", "BNE"), 920); (("MEL", "BNE"), 1370);
   (("SYD", "PER"), 3290); (("MEL", "PER"), 2840); (("SYD", "ADL"), 1160)].

(** [t.get(k)] for a dict keyed by pairs of strings *)
Fixpoint table_get (k : string * string) (t : list ((string * string) * Z))
  : option Z :=
  match t with
  | [] => None
  | (k', v) :: t' =>
      if String.eqb (fst k) (fst k') && String.eqb (snd k) (snd k') then Some v
      else table_get k t'
  end.

Definition _estimate_distance (origin destination : string) : M World Z :=
  match table_get (origin, destination) domestic_routes with
  | Some km => ret km
  | None =>
      match table_get (destination, origin) domestic_routes with
      | Some km => ret km
      | None =>
          if App.str_in origin ["SYD"; "MEL"; "BNE"]
             && App.str_in destination ["SIN"; "BKK"; "NRT"]
          then randint 6000 9000
          else if App.str_in destination ["LAX"; "LHR"]
          then randint 15000 20000
          else randint 1000 5000
      end
  end.

(** *** _generate_realistic_flight_data *)

Definition airlines : list string :=
  ["Qantas"; "Virgin Australia"; "Jetstar"; "Tiger Air";
   "Singapore Airlines"; "Cathay Pacific"; "Emirates";
   "Thai Airways"; "ANA"; "Korean Air"].

Definition booking_classes : list string :=
  ["Economy"; "Premium Economy"; "Business"; "First"].

(** [max(200, route_distance * 0.15)]: the int 200 unless the float
    is greater.  The product of two finite positive numbers that is
    not finite is an infinity. *)
Inductive base_price : Type :=
| Floor                     (* the int 200 *)
| Scaled (x : xfloat).      (* route_distance * 0.15 *)

Definition base_price_of (route_distance : Z) : result base_price :=
  let? km := of_Z route_distance in
  match fmul km (literal 15 2) with
  | Some x => let? floor := of_Z 200 in
              Ok (if flt_bool floor x then Scaled (Some x) else Floor)
  | None => Ok (Scaled None)
  end.

(** [int(base_price * price_variation)] *)
Definition final_price (base : base_price) (price_variation : xfloat) : result Z :=
  let? product :=
    match base with
    | Floor => let? floor := of_Z 200 in Ok (xbind price_variation (fmul floor))
    | Scaled x => Ok (xbind x (fun b => xbind price_variation (fmul b)))
    end in
  match product with
  | Some p => Ok (to_int p)
  | None => Raise (Exn OverflowError "cannot convert float infinity to integer")
  end.

(** [f"{h:02d}:{m:02d}"] *)
Definition clock_text (h m : Z) : string :=
  (zero_pad 2 h ++ ":" ++ zero_pad 2 m)%string.

Section Environment.

(** [datetime.now().isoformat()], with the time of day and the
    microseconds that the clock of the model does not carry. *)
Variable isoformat_now : World -> string.

Definition now_isoformat : M World string :=
  fun w => (Ok (isoformat_now w), w).

(** The body of the loop of [_generate_realistic_flight_data]. *)
Definition gen_flight (origin destination date : string) : M World flight :=
  route_distance <- _estimate_distance origin destination ;;
  base <- lift (base_price_of route_distance) ;;
  price_variation <- uniform (literal 8 1) (literal 14 1) ;;
  final <- lift (final_price base price_variation) ;;
  departure_hour <- randint 6 22 ;;
  let flight_duration := Z.max 1 (route_distance / 800) in
  let arrival_hour := (departure_hour + flight_duration) mod 24 in
  al <- choice airlines "" ;;
  departure_minute <- randint 0 59 ;;
  arrival_minute <- randint 0 59 ;;
  duration_minute <- randint 0 59 ;;
  st <- choice [0; 0; 0; 1] 0 ;;
  seats <- randint 5 200 ;;
  cls <- choice booking_classes "" ;;
  stamp <- now_isoformat ;;
  demand <- uniform (literal 3 1) (literal 10 1) ;;
  ret (mkFlight origin destination al final "AUD"
                (clock_text departure_hour departure_minute)
                (clock_text arrival_hour arrival_minute)
                (str_of_Z flight_duration ++ "h " ++ str_of_Z duration_minute ++ "m")
                st date seats cls stamp demand).

Definition _generate_realistic_flight_data (origin destination date : string)
  : M World (list flight) :=
  n <- randint 5 15 ;;
  App.for_range (Z.to_nat n) (gen_flight origin destination date).

(** *** scrape_flight_data *)

(** [(datetime.now() + timedelta(days=30)).strftime('%Y-%m-%d')] *)
Definition default_date : M World string :=
  fun w =>
    match shift_date (clock w) 30 with
    | Ok d => (Ok (strftime_ymd d), w)
    | Raise e => (Raise e, w)
    | OutOfFuel => (OutOfFuel, w)
    end.

(** [date] is [None] when the argument is left out. *)
Definition scrape_flight_data (origin destination : string) (date : option string)
  : M World (list flight) :=
  date' <- match date with
           | None | Some EmptyString => default_date
           | Some s => ret s
           end ;;
  _generate_realistic_flight_data origin destination date'.

(** *** scrape_multiple_routes *)

(** The body of the loop over [routes]: [all_flights] before and after.
    The inner [try_except] is the part of the [try] block after
    [all_flights.extend(flights)], whose failure leaves the list
    extended. *)
Definition scrape_route (date : option string) (all_flights : list flight)
    (r : string * string) : M World (list flight) :=
  let (origin, destination) := r in
  let failed (e : exn) :=
    print ("Error scraping " ++ origin ++ "-" ++ destination ++ ": " ++ exn_msg e) in
  print ("Scraping data for " ++ origin ++ " -> " ++ destination) ;;;
  try_except
    (flights <- scrape_flight_data origin destination date ;;
     let all_flights' := all_flights ++ flights in
     try_except
       (secs <- uniform (literal 1 0) (literal 3 0) ;;
        sleep secs ;;;
        ret all_flights')
       (fun e => failed e ;;; ret all_flights'))
    (fun e => failed e ;;; ret all_flights).

Fixpoint scrape_routes (date : option string) (all_flights : list flight)
    (routes : list (string * string)) : M World (list flight) :=
  match routes with
  | [] => ret all_flights
  | r :: routes' =>
      all_flights' <- scrape_route date all_flights r ;;
      scrape_routes date all_flights' routes'
  end.

Definition scrape_multiple_routes (routes : list (string * string))
    (date : option string) : M World (list flight) :=
  scrape_routes date [] routes.

End Environment.

End Scraper.

(** * Vocabulary of further properties *)

Module SpecMore.

(** What the analyzer makes of the body of a 200 response: the parsed
    insights, or the exception met on the way. *)
Definition reply_outcome (json_loads : string -> result Api.json) (body : string)
  : result Api.json :=
  let? parsed := json_loads body in
  let? content := Api.message_content parsed in
  Api.parse_insights json_loads content.

(** The world after one more printed line. *)
Definition printed (w : Api.World) (line : string) : Api.World :=
  Api.mkWorld (Api.stdout w ++ [line]) (Api.http w).

(** What every record of [generate_sample_data] looks like. *)
Definition well_formed_flight (f : App.flight) : Prop :=
  In (App.origin f) (firstn 10 App.cities)
  /\ In (App.destination f) App.cities
  /\ App.destination f <> App.origin f
  /\ App.is_domestic f = App.str_in (App.destination f) (firstn 10 App.cities)
  /\ (if App.is_domestic f then 150 <= App.price f <= 480
      else 800 <= App.price f <= 3000)
  /\ 30 <= App.demand_score f <= 100
  /\ 10 <= App.availability f <= 200
  /\ In (App.airline f) App.airlines.

(** No group of [group_by key val data] is empty, and every value in a
    group comes from an element of the input with the key of the group. *)
Definition group_ok {A V} (key : A -> string) (val : A -> V)
    (data : list A) (k : string) (vs : list V) : Prop :=
  vs <> [] /\ Forall (fun v => exists x, In x data /\ key x = k /\ val x = v) vs.

(** The table [avg_demand_by_day] that [get_demand_insights] builds. *)
Definition weekday_means (data : list App.flight) : result (list (string * float)) :=
  let? days := rmap App.weekday_of data in
  rmap (fun kv : string * list Z => let? a := App.mean (snd kv) in Ok (fst kv, a))
       (App.group_by fst snd days).

(** The first sentence of [get_demand_insights]. *)
Definition peak_sentence (peak : string * float) : string :=
  ("Peak demand occurs on " ++ fst peak
     ++ "s with an average demand score of " ++ format_f 1 (snd peak))%string.

(** The month and the day of the month of day [n] (counted from 0) of a
    year, as [ord2ymd] finds them. *)
Definition month_day (leapyear : bool) (n : Z) : Z * Z :=
  let month := Z.shiftr (n + 50) 5 in
  let preceding :=
    days_before_month 1 month + (if (2 <? month) && leapyear then 1 else 0) in
  if n <? preceding then
    let month' := month - 1 in
    let preceding' :=
      preceding
      - (days_in_month 1 month' + (if (month' =? 2) && leapyear then 1 else 0)) in
    (month', n - preceding' + 1)
  else (month, n - preceding + 1).

(** [month_day] lands on day [n + 1] of the year, in a month of the
    calendar and on a day of that month. *)
Definition month_day_ok (leapyear : bool) (n : Z) : bool :=
  let '(m, d) := month_day leapyear n in
  (days_before_month 1 m + (if (2 <? m) && leapyear then 1 else 0) + d =? n + 1)
  && (1 <=? m) && (m <=? 12) && (1 <=? d)
  && (d <=? days_in_month 1 m + (if (m =? 2) && leapyear then 1 else 0)).

(** [zero_pad 4 y] is four digits that read as [y]. *)
Definition year_ok (y : Z) : bool :=
  match zero_pad 4 y with
  | String a (String b (String c (String d EmptyString))) =>
      match digit a, digit b, digit c, digit d with
      | Some va, Some vb, Some vc, Some vd => 1000 * va + 100 * vb + 10 * vc + vd =? y
      | _, _, _, _ => false
      end
  | _ => false
  end.

(** Month [m] and day [d], printed with two digits each, are read back
    as themselves with nothing left over. *)
Definition month_day_read (m d : Z) : bool :=
  match month_and_day ("-" ++ zero_pad 2 m ++ "-" ++ zero_pad 2 d) with
  | Some (m', d', EmptyString) => (m' =? m) && (d' =? d)
  | _ => false
  end.

Definition month_ok (m : Z) : bool :=
  forallb (month_day_read m) (map (fun i => 1 + Z.of_nat i) (seq 0 31)).

(** The character of a decimal digit. *)
Definition digit_char (v : Z) : ascii := ascii_of_nat (48 + Z.to_nat v).

(** [zero_pad 4 y] and [zero_pad 2 m], spelled digit by digit. *)
Definition four_digits (y : Z) : string :=
  String (digit_char (y / 1000))
    (String (digit_char (y / 100 mod 10))
       (String (digit_char (y / 10 mod 10)) (String (digit_char (y mod 10)) ""))).

Definition two_digits (m : Z) : string :=
  String (digit_char (m / 10)) (String (digit_char (m mod 10)) "").

Definition four_digits_ok (y : Z) : bool := String.eqb (zero_pad 4 y) (four_digits y).
Definition two_digits_ok (m : Z) : bool := String.eqb (zero_pad 2 m) (two_digits m).

Definition same_comparison (c1 c2 : comparison) : bool :=
  match c1, c2 with
  | Eq, Eq | Lt, Lt | Gt, Gt => true
  | _, _ => false
  end.

(** The characters of two digits compare as the digits. *)
Definition digit_order_ok (i : Z) : bool :=
  forallb (fun j => same_comparison (Ascii.compare (digit_char i) (digit_char j)) (i ?= j))
          (map Z.of_nat (seq 0 10)).

(** Month [m] has ended when a later month [m'] begins. *)
Definition month_order_ok (leapyear : bool) (m : Z) : bool :=
  forallb (fun m' =>
             (m' <=? m)
             || (days_before_month 1 m + (if (2 <? m) && leapyear then 1 else 0)
                 + (days_in_month 1 m + (if (m =? 2) && leapyear then 1 else 0))
                 <=? days_before_month 1 m' + (if (2 <? m') && leapyear then 1 else 0)))
          (map Z.of_nat (seq 1 12)).

(** Year, month and day as one number that orders dates. *)
Definition date_key (y m d : Z) : Z := (y * 100 + m) * 100 + d.

(** The records whose flight day lies between two days. *)
Definition flies_between (a b : Z) (f : App.flight) : bool :=
  match strptime_ymd (App.date f) with
  | Ok day => (a <=? day) && (day <=? b)
  | _ => false
  end.

(** 1 January 1000, the first day whose year is printed with four
    digits on every platform. *)
Definition first_ordinal : Z := 364878.

(** A record passes every filter whose parameter is given. *)
Definition matches (lower : string -> string) (q : Routes.filters) (f : App.flight)
  : bool :=
  (negb (Routes.nonempty (Routes.by_origin q))
   || String.eqb (lower (App.origin f)) (lower (Routes.by_origin q)))
  && (negb (Routes.nonempty (Routes.by_destination q))
      || String.eqb (lower (App.destination f)) (lower (Routes.by_destination q)))
  && (negb (Routes.nonempty (Routes.date_from q))
      || String.leb (Routes.date_from q) (App.date f))
  && (negb (Routes.nonempty (Routes.date_to q))
      || String.leb (App.date f) (Routes.date_to q)).

(** The elements of [data] filed under the key [k]. *)
Definition keyed {A} (key : A -> string) (k : string) (data : list A) : list A :=
  filter (fun x => String.eqb (key x) k) data.

(** Values from the highest down. *)
Definition descending (ys : list float) : Prop :=
  StronglySorted (fun a b => (value b <= value a)%Q) ys.

(** Date strings that read as later and later days. *)
Definition chronological (xs : list string) : Prop :=
  StronglySorted
    (fun s t => exists a b, strptime_ymd s = Ok a /\ strptime_ymd t = Ok b /\ a < b) xs.

(** Each value of a series is the mean of [val] over the records filed
    under its label, and lies between [lo] and [hi]. *)
Definition series_of_means {A} (key : A -> string) (val : A -> Z) (data : list A)
    (lo hi : Z) (xs : list string) (ys : list float) : Prop :=
  Forall2 (fun k y => App.mean (map val (keyed key k data)) = Ok y
                      /\ (inject_Z lo <= value y)%Q /\ (value y <= inject_Z hi)%Q)
          xs ys.

(** Both a domestic and an international record are present. *)
Definition both_kinds (data : list App.flight) : bool :=
  match filter App.is_domestic data,
        filter (fun f => negb (App.is_domestic f)) data with
  | _ :: _, _ :: _ => true
  | _, _ => false
  end.

(** The date of a record can be read and its demand score fits a
    double. *)
Definition readable (f : App.flight) : Prop :=
  (exists d, strptime_ymd (App.date f) = Ok d) /\ Spec.fits_double (App.demand_score f).

(** A double that is not negative: a mantissa of at most 53 bits and
    an exponent not below that of the subnormals. *)
Definition nonneg_double (x : float) : Prop :=
  0 <= mant x < 2 ^ 53 /\ -1074 <= expo x.

(** The value of a float in units of [2^-1074]. *)
Definition scaled (x : float) : Z := mant x * 2 ^ (expo x + 1074).

(** [x <= y] on the exact values. *)
Definition fleq (x y : float) : Prop := num x * den y <= num y * den x.

(** The origin and the city that the draw at position [p] of the
    random stream selects. *)
Definition origin_at (rng : nat -> N) (p : nat) : string :=
  nth (Z.to_nat (Z.of_N (rng p) mod 10)) (firstn 10 App.cities) "".

Definition city_at (rng : nat -> N) (p : nat) : string :=
  nth (Z.to_nat (Z.of_N (rng p) mod 20)) App.cities "".

(** After the draw of an origin, one of the next [fuel + 1] draws of a
    destination selects another city: the loop
    [while destination == origin] ends within [fuel] rounds. *)
Definition redraw_settles (fuel : nat) (rng : nat -> N) : Prop :=
  forall p, exists j, (j <= fuel)%nat /\ city_at rng (p + 1 + j) <> origin_at rng p.

(** A computation that leaves the random stream and the clock as they
    are (the cursor into the stream may move). *)
Definition steady {A} (c : M App.World A) : Prop :=
  forall w a w', c w = (Ok a, w') -> App.rng w' = App.rng w /\ App.clock w' = App.clock w.

(** A call of the scraper's generator changes nothing but the cursor
    into the random stream. *)
Definition same_output (w w' : Scraper.World) : Prop :=
  Scraper.rng w' = Scraper.rng w
  /\ Scraper.clock w' = Scraper.clock w
  /\ Scraper.stdout w' = Scraper.stdout w
  /\ Scraper.naps w' = Scraper.naps w.

(** [c] returns in every world, with a value that satisfies [P], and
    leaves clock, output and pauses as they were. *)
Definition returns {A} (c : M Scraper.World A) (P : A -> Prop) : Prop :=
  forall w, exists a w', c w = (Ok a, w') /\ P a /\ same_output w w'.

(** The distance that [_estimate_distance] finds in its table, in
    either direction. *)
Definition known_distance (origin destination : string) : option Z :=
  match Scraper.table_get (origin, destination) Scraper.domestic_routes with
  | Some km => Some km
  | None => Scraper.table_get (destination, origin) Scraper.domestic_routes
  end.

(** What every record of [_generate_realistic_flight_data] looks like. *)
Definition scraped_ok (origin destination date : string) (f : Scraper.flight) : Prop :=
  Scraper.origin f = origin
  /\ Scraper.destination f = destination
  /\ Scraper.date f = date
  /\ Scraper.currency f = "AUD"
  /\ 160 <= Scraper.price f <= 4200
  /\ (forall km, known_distance origin destination = Some km -> km <= 1333 ->
                 Scraper.price f <= 280)
  /\ In (Scraper.airline f) Scraper.airlines
  /\ (Scraper.stops f = 0 \/ Scraper.stops f = 1)
  /\ 5 <= Scraper.available_seats f <= 200
  /\ In (Scraper.booking_class f) Scraper.booking_classes
  /\ (exists h m, 6 <= h <= 22 /\ 0 <= m <= 59
                  /\ Scraper.departure_time f = Scraper.clock_text h m)
  /\ (exists h m, 0 <= h <= 23 /\ 0 <= m <= 59
                  /\ Scraper.arrival_time f = Scraper.clock_text h m)
  /\ (exists x, Scraper.demand_indicator f = Some x
                /\ fleq (literal 3 1) x /\ fleq x (literal 10 1)).

(** The date that [scrape_flight_data] hands to the generator: the one
    given, or 30 days from today when none is given. *)
Definition effective_date (date : option string) (today : Z) : string :=
  match date with
  | None | Some EmptyString => strftime_ymd (today + 30)
  | Some s => s
  end.

(** A date is given, or the day 30 days from today is a day of the
    calendar with a four-digit year. *)
Definition date_available (date : option string) (today : Z) : Prop :=
  match date with
  | None | Some EmptyString => first_ordinal <= today + 30 <= max_ordinal
  | Some _ => True
  end.

(** A date is given, or the day 30 days from today is a day of the
    calendar. *)
Definition date_defined (date : option string) (today : Z) : Prop :=
  match date with
  | None | Some EmptyString => 1 <= today + 30 <= max_ordinal
  | Some _ => True
  end.

(** The two lines printed for a route that could not be scraped
    because the default date is out of range. *)
Definition failure_lines (r : string * string) : list string :=
  [("Scraping data for " ++ fst r ++ " -> " ++ snd r)%string;
   ("Error scraping " ++ fst r ++ "-" ++ snd r ++ ": date value out of range")%string].

(** The line that [scrape_multiple_routes] prints before each route. *)
Definition scraping_line (r : string * string) : string :=
  ("Scraping data for " ++ fst r ++ " -> " ++ snd r)%string.

(** The flights of one route: 5 to 15 well-formed records. *)
Definition route_batch (date : string) (r : string * string)
    (flights : list Scraper.flight) : Prop :=
  5 <= Zlen flights <= 15 /\ Forall (scraped_ok (fst r) (snd r) date) flights.

(** The prices of one week of [get_price_history], from the day whose
    index is a multiple of seven on: 320.00, 342.86, 365.71, 388.57,
    411.43, 434.29 and 457.14. *)
Definition weekly_prices : list float :=
  [literal 32000 2; literal 34286 2; literal 36571 2; literal 38857 2;
   literal 41143 2; literal 43429 2; literal 45714 2].

Definition float_eqb (x y : float) : bool :=
  (mant x =? mant y) && (expo x =? expo y).

Definition weekly_ok (k : Z) : bool :=
  match Integrator.rounded_price k with
  | Ok (Some x) => float_eqb x (nth (Z.to_nat k) weekly_prices zero)
  | _ => false
  end.

(** Record [i] of a history of [days] days that ends yesterday. *)
Definition history_point (today : Z) (route : string) (days i : Z)
  : Integrator.price_point :=
  Integrator.mkPoint (strftime_ymd (today - days + i))
                     (Some (nth (Z.to_nat (i mod 7)) weekly_prices zero))
                     "AUD" route.

(** ** More sample inputs *)

(** Lower case on ASCII letters, enough for the city names. *)
Fixpoint ascii_lower (s : string) : string :=
  match s with
  | EmptyString => EmptyString
  | String c rest =>
      let n := nat_of_ascii c in
      String (if ((65 <=? n) && (n <=? 90))%nat then ascii_of_nat (n + 32) else c)
             (ascii_lower rest)
  end.

(** A scraper's world on Friday 2024-03-15, with the random stream of
    [sample_world] and nothing printed yet. *)
Definition scraper_world : Scraper.World :=
  Scraper.mkWorld (fun n => nth (n mod 7) [0; 1; 3; 0; 20; 5; 0]%N 0%N) 0 738960 [] [].

Definition noon_stamp (w : Scraper.World) : string := "2024-03-15T12:00:00.000000".

(** A stand-in for the JSON text that plotly makes of a figure. *)
Definition dumps_sample (fig : Routes.figure) : result string := Ok "{}".

Definition afternoon (w : App.World) : string := "14:30:00".

(** Flights from Sydney in the second half of March 2024. *)
Definition sydney_query : Routes.filters :=
  Routes.mkFilters "SYDNEY" "" "2024-03-16" "2024-03-31".

(** A world whose clock stands 30 days before 9999-12-31. *)
Definition late_world : App.World :=
  App.mkWorld App.init (fun n => nth (n mod 7) [0; 1; 3; 89; 20; 5; 0]%N 0%N) 0
              (max_ordinal - 30).

(** Text of ASCII characters only. *)
Fixpoint ascii_text (s : string) : bool :=
  match s with
  | EmptyString => true
  | String c rest => (nat_of_ascii c <? 128)%nat && ascii_text rest
  end.

(** A record whose day is written with three digits. *)
Definition misdated_flight : App.flight :=
  App.mkFlight "Sydney" "Perth" 300 "2024-03-015" 70 12 true "Jetstar".



Definition world_offline : Api.World :=
  Api.mkWorld [] (fun _ => Api.Fails (Exn RequestException "Connection refused")).

(** A completion whose content is plain text. *)
Definition text_completion : string :=
  ("{" ++ Api.quoted "choices" ++ ": [{" ++ Api.quoted "message" ++ ": {"
     ++ Api.quoted "content" ++ ": " ++ Api.quoted "Demand is strong" ++ "}}]}")%string.

Definition text_completion_json : Api.json :=
  Api.JObj
    [("choices",
      Api.JArr
        [Api.JObj [("message", Api.JObj [("content", Api.JStr "Demand is strong")])]])].

(** [json.loads] on that body and on its content, which is not JSON. *)
Definition loads_text (s : string) : result Api.json :=
  if String.eqb s text_completion then Ok text_completion_json
  else Raise (Exn JSONDecodeError "Expecting value: line 1 column 1 (char 0)").

Definition world_text : Api.World :=
  Api.mkWorld [] (fun _ => Api.Response 200 text_completion).

(** A 200 response whose body is not JSON. *)
Definition world_garbled : Api.World :=
  Api.mkWorld [] (fun _ => Api.Response 200 "<html>Bad Gateway</html>").

(** A 200 response whose body has no [choices]. *)
Definition world_refusal : Api.World :=
  Api.mkWorld [] (fun _ => Api.Response 200 Spec.refusal_text).

(** Rows without a [price] key. *)
Definition unpriced_rows : list Api.row :=
  [[("origin", Api.CStr "SYD"); ("destination", Api.CStr "MEL");
    ("date", Api.CStr "2024-03-15")];
   [("origin", Api.CStr "MEL"); ("destination", Api.CStr "BNE");
    ("date", Api.CNull)]].

End SpecMore.

(** * Properties *)

(** ** The model on concrete inputs *)

Module Checks.
Import Spec.

(** [1.2] is the double 5404319552844595 * 2^-52. *)
Example literal_1_2 : literal 12 1 = mkFloat 5404319552844595 (-52).
Proof. vm_compute. reflexivity. Qed.

Example one_third : true_divide 1 3 = Ok (mkFloat 6004799503160661 (-54)).
Proof. vm_compute. reflexivity. Qed.

Example format_one_third : format_f 1 (mkFloat 6004799503160661 (-54)) = "0.3".
Proof. vm_compute. reflexivity. Qed.

(** [int(153 * 1.2) == 183] and [int(150 * 1.2) == 180]. *)
Example priced_153 : App.priced 153 (literal 12 1) = Ok 183.
Proof. vm_compute. reflexivity. Qed.

Example priced_150 : App.priced 150 (literal 12 1) = Ok 180.
Proof. vm_compute. reflexivity. Qed.

(** [(2**53 + 1) / 1 == 2.0**53] *)
Example divide_past_53_bits : true_divide (2 ^ 53 + 1) 1 = Ok (mkFloat (2 ^ 52) 1).
Proof. vm_compute. reflexivity. Qed.

(** [round(0.35, 1) == 0.3], [round(0.45, 1) == 0.5], [round(0.25, 1) == 0.2]:
    the first two are decided by the binary value, the third is a tie. *)
Example round_0_35 : option_map (fun x => round_digits x 1) (fround 7 20) = fround 3 10.
Proof. vm_compute. reflexivity. Qed.

Example round_0_45 : option_map (fun x => round_digits x 1) (fround 9 20) = fround 5 10.
Proof. vm_compute. reflexivity. Qed.

Example round_0_25 : option_map (fun x => round_digits x 1) (fround 1 4) = fround 2 10.
Proof. vm_compute. reflexivity. Qed.

Example parse_date : strptime_ymd "2024-03-15" = Ok 738960.
Proof. vm_compute. reflexivity. Qed.

Example print_date : strftime_ymd 738960 = "2024-03-15" /\ strftime_A 738960 = "Friday".
Proof. vm_compute. split; reflexivity. Qed.

Example print_dates :
  strftime_ymd 739310 = "2025-02-28" /\ strftime_ymd 738945 = "2024-02-29"
  /\ strftime_ymd 738885 = "2023-12-31" /\ strftime_ymd max_ordinal = "9999-12-31".
Proof. vm_compute. repeat split; reflexivity. Qed.

Example parse_dates :
  strptime_ymd "2024-3-5" = Ok 738950
  /\ strptime_ymd "2024-03- 5" = Ok 738950
  /\ strptime_ymd "2023-02-29" = Raise (Exn ValueError "day is out of range for month")
  /\ strptime_ymd "0000-01-01" = Raise (Exn ValueError "year 0 is out of range")
  /\ strptime_ymd "2024-03-015" = Raise (Exn ValueError "unconverted data remains: 5")
  /\ strptime_ymd "2024-03-32" = Raise (Exn ValueError "unconverted data remains: 2")
  /\ strptime_ymd "2024-13-01"
     = Raise (Exn ValueError "time data '2024-13-01' does not match format '%Y-%m-%d'").
Proof. vm_compute. repeat split; reflexivity. Qed.

Example repr_of_text :
  repr_str "choices" = "'choices'"
  /\ repr_str "it's" = String dquote ("it's" ++ String dquote "")
  /\ repr_str (String backslash "n") = String squote (String backslash (String backslash "n'")).
Proof. vm_compute. repeat split; reflexivity. Qed.

Example insights_of_sample :
  fst (App.get_demand_insights sample_flights sample_world)
  = Ok ["Peak demand occurs on Sundays with an average demand score of 91.0";
        "Domestic routes show higher demand (70.2) compared to international routes (70.0)"].
Proof. vm_compute. reflexivity. Qed.

Example trends_of_sample :
  match fst (App.analyze_price_trends sample_flights sample_world) with
  | Ok r => (App.domestic_range r, App.international_range r)
  | _ => ("", "")
  end = ("$100 - $300", "$1000 - $1000").
Proof. vm_compute. reflexivity. Qed.

Example first_generated :
  option_map (firstn 1)
    (match fst (App.generate_sample_data 1 sample_world) with
     | Ok l => Some l
     | _ => None
     end)
  = Some [App.mkFlight "Sydney" "Melbourne" 183 "2024-03-16" 50 15 true "Qantas"].
Proof. vm_compute. reflexivity. Qed.

Example mock_of_sample :
  fst (Api._generate_mock_insights sample_rows world_500)
  = Ok (Api.bundle
          ["Analyzed 3 flights across multiple routes";
           "Average flight price is $312 AUD";
           "Weekend flights show higher demand patterns";
           "Morning flights (6-9 AM) are most popular for business routes"]
          ["Price range varies from $189 to $449";
           "International flights average 60% higher than domestic";
           "Booking 3-4 weeks in advance offers best value"]
          ["Sydney-Melbourne remains the busiest route";
           "International routes to Asia show strong demand";
           "Regional routes have limited but stable demand"]
          ["Book domestic flights 2-3 weeks in advance";
           "Consider Tuesday/Wednesday departures for lower prices";
           "Morning flights offer better on-time performance"]
          "Market shows healthy demand with price stability across major routes").
Proof. vm_compute. reflexivity. Qed.

Example quality_of_sample :
  Api._assess_data_quality (Ok Api.NaN) sample_rows
  = Ok (Api.mkQuality 98 [Api.NullValuesFound [("date", 1); ("airline", 1)]]
          (Some (Api.Finite (mkFloat 6098624495397547 (-46))))).
Proof. vm_compute. reflexivity. Qed.

Example quality_without_price :
  option_map Api.quality_score
    (match Api._assess_data_quality (Ok Api.NaN)
             [[("origin", Api.CStr "SYD"); ("destination", Api.CStr "MEL");
               ("date", Api.CStr "2024-03-15")]] with
     | Ok q => Some q
     | _ => None
     end) = Some 75.
Proof. vm_compute. reflexivity. Qed.

End Checks.

(** ** Rounding *)

Module FloatFacts.
Import Spec.

Lemma rhe_cases n d :
  round_half_even n d = n / d \/ round_half_even n d = n / d + 1.
Proof.
  unfold round_half_even.
  destruct (2 * (n mod d) ?= d); [destruct (Z.even (n / d))| |]; auto.
Qed.

Lemma rhe_lower n d c : 0 < d -> c * d <= n -> c <= round_half_even n d.
Proof.
  intros Hd H.
  assert (c <= n / d) by (apply Z.div_le_lower_bound; lia).
  destruct (rhe_cases n d); lia.
Qed.

Lemma rhe_upper n d c : 0 < d -> n <= c * d -> round_half_even n d <= c.
Proof.
  intros Hd H.
  pose proof (Z.div_mod n d ltac:(lia)) as E.
  pose proof (Z.mod_pos_bound n d Hd) as B.
  unfold round_half_even.
  destruct (Z.eq_dec (n mod d) 0) as [R | R].
  - rewrite R. replace (2 * 0 ?= d) with Lt by (symmetry; apply Z.compare_lt_iff; lia).
    nia.
  - assert (n / d < c) by nia.
    destruct (2 * (n mod d) ?= d); [destruct (Z.even (n / d))| |]; lia.
Qed.

Lemma pow2_max_pos k : 0 < 2 ^ Z.max 0 k.
Proof. apply Z.pow_pos_nonneg; lia. Qed.

Lemma den_pos x : 0 < den x.
Proof. apply pow2_max_pos. Qed.

Lemma ge_int_value x c : ge_int x c <-> (inject_Z c <= value x)%Q.
Proof.
  unfold ge_int, value, Qle, inject_Z; simpl.
  fold (num x). rewrite Z2Pos.id by apply pow2_max_pos. fold (den x). lia.
Qed.

Lemma le_int_value x c : le_int x c <-> (value x <= inject_Z c)%Q.
Proof.
  unfold le_int, value, Qle, inject_Z; simpl.
  fold (num x). rewrite Z2Pos.id by apply pow2_max_pos. fold (den x). lia.
Qed.

Lemma pow2_succ k : 0 <= k -> 2 ^ (k + 1) = 2 * 2 ^ k.
Proof. intros. rewrite Z.pow_add_r by lia. lia. Qed.

(** Renormalising after a carry keeps the value. *)
Lemma normalize_num_den m e :
  num (normalize m e) * den (mkFloat m e) = num (mkFloat m e) * den (normalize m e).
Proof.
  unfold normalize. destruct (Z.eqb_spec m (2 ^ 53)) as [-> | ]; [ | reflexivity].
  unfold num, den; cbn [mant expo].
  destruct (Z_lt_le_dec e 0).
  - replace (Z.max 0 (e + 1)) with 0 by lia.
    replace (Z.max 0 e) with 0 by lia.
    replace (Z.max 0 (- e)) with (Z.max 0 (- (e + 1)) + 1) by lia.
    rewrite pow2_succ by lia. change (2 ^ 53) with (2 * 2 ^ 52). lia.
  - replace (Z.max 0 (e + 1)) with (e + 1) by lia.
    replace (Z.max 0 e) with e by lia.
    replace (Z.max 0 (- (e + 1))) with 0 by lia.
    replace (Z.max 0 (- e)) with 0 by lia.
    rewrite pow2_succ by lia. change (2 ^ 53) with (2 * 2 ^ 52). lia.
Qed.

Lemma normalize_ge m e c : ge_int (mkFloat m e) c -> ge_int (normalize m e) c.
Proof.
  unfold ge_int. intros H.
  pose proof (normalize_num_den m e).
  pose proof (den_pos (normalize m e)). pose proof (den_pos (mkFloat m e)).
  nia.
Qed.

Lemma normalize_le m e c : le_int (mkFloat m e) c -> le_int (normalize m e) c.
Proof.
  unfold le_int. intros H.
  pose proof (normalize_num_den m e).
  pose proof (den_pos (normalize m e)). pose proof (den_pos (mkFloat m e)).
  nia.
Qed.


(** Above the 53-bit range the unit in the last place is a positive
    power of two, and the fraction is at least 2^52 such units. *)
Lemma ulp_expo_large n d :
  0 < n -> 0 < d -> 0 < ulp_expo n d -> d * 2 ^ (ulp_expo n d + 52) <= n.
Proof.
  intros Hn Hd. unfold ulp_expo.
  set (l := Z.log2 n - Z.log2 d).
  pose proof (Z.log2_spec n Hn) as [Ln _].
  pose proof (Z.log2_spec d Hd) as [_ Ld].
  pose proof (Z.log2_nonneg d) as Nd.
  destruct (Z.ltb_spec (n * 2 ^ Z.max 0 (- l)) (d * 2 ^ Z.max 0 l)) as [T | T];
    intros He.
  - replace (Z.max (l - 1 - 52) (-1074) + 52) with (l - 1) by lia.
    assert (E : 2 ^ Z.log2 n = 2 ^ (Z.log2 d + 1) * 2 ^ (l - 1)).
    { rewrite <- Z.pow_add_r by lia. f_equal. lia. }
    assert (0 < 2 ^ (l - 1)) by (apply Z.pow_pos_nonneg; lia).
    nia.
  - replace (Z.max (l - 52) (-1074) + 52) with l by lia.
    replace (Z.max 0 (- l)) with 0 in T by lia.
    replace (Z.max 0 l) with l in T by lia.
    change (2 ^ 0) with 1 in T. lia.
Qed.

Lemma ulp_expo_small n d :
  0 < n -> 0 < d -> n <= 2 ^ 53 * d -> ulp_expo n d <= 1.
Proof.
  intros Hn Hd H.
  destruct (Z_lt_le_dec 1 (ulp_expo n d)) as [L | L]; [ | exact L].
  pose proof (ulp_expo_large n d Hn Hd ltac:(lia)) as B.
  assert (2 ^ 54 <= 2 ^ (ulp_expo n d + 52)) by (apply Z.pow_le_mono_r; lia).
  change (2 ^ 54) with (2 * 2 ^ 53) in *. nia.
Qed.

Section RoundPos.
Variables n d : Z.
Hypothesis Hn : 0 < n.
Hypothesis Hd : 0 < d.

Local Abbreviation ulp := (ulp_expo n d).
Local Abbreviation mantissa :=
  (round_half_even (n * 2 ^ Z.max 0 (- ulp)) (d * 2 ^ Z.max 0 ulp)).

Ltac name_parts :=
  set (e := ulp_expo n d) in *;
  set (m := round_half_even (n * 2 ^ Z.max 0 (- e)) (d * 2 ^ Z.max 0 e)) in *.

Lemma mant_nonneg : 0 <= mantissa.
Proof.
  name_parts. subst m.
  apply rhe_lower.
  - pose proof (pow2_max_pos e). nia.
  - pose proof (pow2_max_pos (- e)). nia.
Qed.

Lemma raw_ge c : 0 < c <= 2 ^ 53 -> c * d <= n -> ge_int (mkFloat mantissa ulp) c.
Proof.
  name_parts.
  intros Hc H. unfold ge_int, num, den; cbn [mant expo].
  destruct (Z_lt_le_dec 0 e) as [P | P].
  - replace (Z.max 0 (- e)) with 0 by lia. replace (Z.max 0 e) with e by lia.
    change (2 ^ 0) with 1.
    pose proof (ulp_expo_large n d Hn Hd P) as B. fold e in B.
    rewrite Z.pow_add_r in B by lia.
    assert (0 < 2 ^ e) by (apply Z.pow_pos_nonneg; lia).
    assert (2 ^ 52 <= m).
    { apply rhe_lower.
      - replace (Z.max 0 e) with e by lia. nia.
      - replace (Z.max 0 (- e)) with 0 by lia. replace (Z.max 0 e) with e by lia.
        change (2 ^ 0) with 1. lia. }
    assert (2 ^ 1 <= 2 ^ e) by (apply Z.pow_le_mono_r; lia).
    change (2 ^ 1) with 2 in *. change (2 ^ 53) with (2 * 2 ^ 52) in *. nia.
  - replace (Z.max 0 e) with 0 by lia. change (2 ^ 0) with 1.
    rewrite Z.mul_1_r.
    apply rhe_lower.
    + replace (Z.max 0 e) with 0 by lia. change (2 ^ 0) with 1. lia.
    + replace (Z.max 0 e) with 0 by lia. change (2 ^ 0) with 1.
      pose proof (pow2_max_pos (- e)). nia.
Qed.

Lemma raw_le c : 0 < c <= 2 ^ 53 -> n <= c * d -> le_int (mkFloat mantissa ulp) c.
Proof.
  name_parts.
  intros Hc H. unfold le_int, num, den; cbn [mant expo].
  destruct (Z_lt_le_dec 0 e) as [P | P].
  - pose proof (ulp_expo_small n d Hn Hd ltac:(nia)) as S1. fold e in S1.
    assert (e = 1) as E1 by lia.
    pose proof (ulp_expo_large n d Hn Hd P) as B. fold e in B.
    rewrite E1 in *. change (2 ^ (1 + 52)) with (2 ^ 53) in B.
    cbn [Z.max Z.opp]. change (Z.max 0 1) with 1. change (Z.max 0 (-1)) with 0.
    change (2 ^ 0) with 1. change (2 ^ 1) with 2.
    assert (m <= 2 ^ 52).
    { subst m. rewrite E1. change (Z.max 0 (- (1))) with 0.
      change (Z.max 0 1) with 1. change (2 ^ 0) with 1. change (2 ^ 1) with 2.
      apply rhe_upper; [lia | ]. change (2 ^ 53) with (2 * 2 ^ 52) in *. nia. }
    change (2 ^ 53) with (2 * 2 ^ 52) in *. nia.
  - replace (Z.max 0 e) with 0 by lia. change (2 ^ 0) with 1.
    rewrite Z.mul_1_r.
    apply rhe_upper.
    + replace (Z.max 0 e) with 0 by lia. change (2 ^ 0) with 1. lia.
    + replace (Z.max 0 e) with 0 by lia. change (2 ^ 0) with 1.
      pose proof (pow2_max_pos (- e)). nia.
Qed.

Lemma fround_pos_some :
  n <= 2 ^ 53 * d -> fround_pos n d = Some (normalize mantissa ulp).
Proof.
  name_parts.
  intros H. unfold fround_pos. fold e. fold m.
  pose proof (ulp_expo_small n d Hn Hd H) as S1. fold e in S1.
  destruct (Z.ltb_spec 971 e); [lia | ].
  destruct (Z.eqb_spec e 971); [lia | reflexivity].
Qed.

Lemma fround_pos_value x :
  fround_pos n d = Some x -> x = normalize mantissa ulp.
Proof.
  name_parts.
  unfold fround_pos. fold e. fold m.
  destruct (971 <? e); [discriminate | ].
  destruct ((e =? 971) && (2 ^ 53 <=? m)); [discriminate | ].
  congruence.
Qed.

End RoundPos.


Lemma fneg_num x : num (fneg x) = - num x.
Proof. unfold num, fneg; cbn [mant expo]. lia. Qed.

Lemma fneg_den x : den (fneg x) = den x.
Proof. reflexivity. Qed.

Lemma normalize_nonneg n d c :
  0 < n -> 0 < d -> c <= 0 ->
  ge_int (normalize
            (round_half_even (n * 2 ^ Z.max 0 (- ulp_expo n d))
                             (d * 2 ^ Z.max 0 (ulp_expo n d)))
            (ulp_expo n d)) c.
Proof.
  intros Hn Hd Hc. apply normalize_ge.
  unfold ge_int, num, den; cbn [mant expo].
  pose proof (mant_nonneg n d Hn Hd).
  pose proof (pow2_max_pos (ulp_expo n d)).
  pose proof (pow2_max_pos (- ulp_expo n d)). nia.
Qed.

(** Rounding to a double never crosses an integer of at most 53 bits. *)
Lemma fround_ge n d c x :
  0 < d -> - 2 ^ 53 <= c <= 2 ^ 53 -> c * d <= n ->
  fround n d = Some x -> ge_int x c.
Proof.
  intros Hd Hc H. unfold fround.
  destruct (Z.eqb_spec n 0) as [-> | Hn0].
  - intros [= <-]. unfold ge_int, zero, num, den; cbn. nia.
  - destruct (Z.ltb_spec 0 n) as [Hn | Hn].
    + intros E. apply fround_pos_value in E. subst x.
      destruct (Z_lt_le_dec 0 c).
      * apply normalize_ge, raw_ge; auto; lia.
      * apply normalize_nonneg; auto.
    + destruct (fround_pos (- n) d) as [y | ] eqn:E; [ | discriminate].
      intros [= <-]. apply fround_pos_value in E. subst y.
      unfold ge_int. rewrite fneg_num, fneg_den.
      assert (L : le_int
                    (normalize
                       (round_half_even (- n * 2 ^ Z.max 0 (- ulp_expo (- n) d))
                                        (d * 2 ^ Z.max 0 (ulp_expo (- n) d)))
                       (ulp_expo (- n) d)) (- c)).
      { apply normalize_le, raw_le; try lia; nia. }
      unfold le_int in L. lia.
Qed.

Lemma fround_le n d c x :
  0 < d -> - 2 ^ 53 <= c <= 2 ^ 53 -> n <= c * d ->
  fround n d = Some x -> le_int x c.
Proof.
  intros Hd Hc H. unfold fround.
  destruct (Z.eqb_spec n 0) as [-> | Hn0].
  - intros [= <-]. unfold le_int, zero, num, den; cbn. nia.
  - destruct (Z.ltb_spec 0 n) as [Hn | Hn].
    + intros E. apply fround_pos_value in E. subst x.
      apply normalize_le, raw_le; auto; nia.
    + destruct (fround_pos (- n) d) as [y | ] eqn:E; [ | discriminate].
      intros [= <-]. apply fround_pos_value in E. subst y.
      unfold le_int. rewrite fneg_num, fneg_den.
      destruct (Z_lt_le_dec c 0).
      * assert (L : ge_int
                    (normalize
                       (round_half_even (- n * 2 ^ Z.max 0 (- ulp_expo (- n) d))
                                        (d * 2 ^ Z.max 0 (ulp_expo (- n) d)))
                       (ulp_expo (- n) d)) (- c)).
        { apply normalize_ge, raw_ge; try lia; nia. }
        unfold ge_int in L. lia.
      * assert (L : ge_int
                    (normalize
                       (round_half_even (- n * 2 ^ Z.max 0 (- ulp_expo (- n) d))
                                        (d * 2 ^ Z.max 0 (ulp_expo (- n) d)))
                       (ulp_expo (- n) d)) 0).
        { apply normalize_nonneg; lia. }
        unfold ge_int in L.
        match goal with |- - num ?y <= c * den ?y =>
          pose proof (den_pos y) end. nia.
Qed.

Lemma fround_some n d :
  0 < d -> - (2 ^ 53 * d) <= n <= 2 ^ 53 * d -> exists x, fround n d = Some x.
Proof.
  intros Hd H. unfold fround.
  destruct (Z.eqb_spec n 0); [eauto | ].
  destruct (Z.ltb_spec 0 n).
  - rewrite fround_pos_some by lia. eauto.
  - rewrite fround_pos_some by lia. cbn. eauto.
Qed.

(** [a / b] stays between integer bounds of the exact quotient. *)
Lemma true_divide_bounds a b lo hi :
  0 < b -> - 2 ^ 53 <= lo -> hi <= 2 ^ 53 -> lo * b <= a <= hi * b ->
  exists x, true_divide a b = Ok x /\ ge_int x lo /\ le_int x hi.
Proof.
  intros Hb Hlo Hhi H. unfold true_divide.
  destruct (Z.eqb_spec b 0); [lia | ].
  destruct (Z.ltb_spec 0 b); [ | lia].
  assert (lo <= hi) by nia.
  destruct (fround_some a b Hb) as [x E]; [nia | ].
  rewrite E. exists x. split; [reflexivity | ].
  split; [eapply fround_ge | eapply fround_le]; eauto; lia.
Qed.

Lemma pow10_pos k : 0 <= k -> 0 < 10 ^ k.
Proof. intros. apply Z.pow_pos_nonneg; lia. Qed.

(** [round(x, k)] stays between integer bounds of [x]. *)
Lemma round_digits_ge x k c :
  0 <= k -> - 2 ^ 53 <= c <= 2 ^ 53 -> ge_int x c -> ge_int (round_digits x k) c.
Proof.
  intros Hk Hc H. unfold round_digits.
  destruct (fround _ (10 ^ k)) as [y | ] eqn:E; [ | exact H].
  pose proof (pow10_pos k Hk).
  eapply fround_ge; [ | | | exact E]; try lia.
  apply rhe_lower; [apply den_pos | ]. unfold ge_int in H. nia.
Qed.

Lemma round_digits_le x k c :
  0 <= k -> - 2 ^ 53 <= c <= 2 ^ 53 -> le_int x c -> le_int (round_digits x k) c.
Proof.
  intros Hk Hc H. unfold round_digits.
  destruct (fround _ (10 ^ k)) as [y | ] eqn:E; [ | exact H].
  pose proof (pow10_pos k Hk).
  eapply fround_le; [ | | | exact E]; try lia.
  apply rhe_upper; [apply den_pos | ]. unfold le_int in H. nia.
Qed.

End FloatFacts.

(** ** Lists of ints *)

Module ListFacts.

Lemma fold_add l a : fold_left Z.add l a = a + Zsum l.
Proof.
  unfold Zsum. revert a. induction l as [ | x l IH]; intros a; cbn; [lia | ].
  rewrite (IH (a + x)), (IH x). lia.
Qed.

Lemma Zsum_cons x l : Zsum (x :: l) = x + Zsum l.
Proof. unfold Zsum at 1. cbn. apply fold_add. Qed.

Lemma Zlen_cons {A} (x : A) l : Zlen (x :: l) = 1 + Zlen l.
Proof. unfold Zlen. cbn [List.length]. lia. Qed.

Lemma Zlen_nonneg {A} (l : list A) : 0 <= Zlen l.
Proof. unfold Zlen. lia. Qed.

Lemma Zsum_lower c l : Forall (fun x => c <= x) l -> c * Zlen l <= Zsum l.
Proof.
  induction 1 as [ | x l Hx _ IH]; [cbn; lia | ].
  rewrite Zsum_cons, Zlen_cons. lia.
Qed.

Lemma Zsum_upper c l : Forall (fun x => x <= c) l -> Zsum l <= c * Zlen l.
Proof.
  induction 1 as [ | x l Hx _ IH]; [cbn; lia | ].
  rewrite Zsum_cons, Zlen_cons. lia.
Qed.

Lemma Zmin_list_le x l : Zmin_list x l <= x /\ Forall (fun y => Zmin_list x l <= y) l.
Proof.
  unfold Zmin_list. revert x. induction l as [ | y l IH]; intros x; cbn.
  - split; [lia | constructor].
  - destruct (IH (Z.min x y)) as [H1 H2]. split; [lia | ].
    constructor; [lia | exact H2].
Qed.

Lemma Zmax_list_ge x l : x <= Zmax_list x l /\ Forall (fun y => y <= Zmax_list x l) l.
Proof.
  unfold Zmax_list. revert x. induction l as [ | y l IH]; intros x; cbn.
  - split; [lia | constructor].
  - destruct (IH (Z.max x y)) as [H1 H2]. split; [lia | ].
    constructor; [lia | exact H2].
Qed.

(** [min] and [max] return one of the elements. *)
Lemma Zmin_list_pick (P : Z -> Prop) x l :
  P x -> Forall P l -> P (Zmin_list x l).
Proof.
  unfold Zmin_list. revert x. induction l as [ | y l IH]; intros x Hx Hl; cbn.
  - exact Hx.
  - inversion Hl; subst. apply IH; [ | assumption].
    destruct (Z.min_spec x y) as [[_ ->] | [_ ->]]; assumption.
Qed.

Lemma Zmax_list_pick (P : Z -> Prop) x l :
  P x -> Forall P l -> P (Zmax_list x l).
Proof.
  unfold Zmax_list. revert x. induction l as [ | y l IH]; intros x Hx Hl; cbn.
  - exact Hx.
  - inversion Hl; subst. apply IH; [ | assumption].
    destruct (Z.max_spec x y) as [[_ ->] | [_ ->]]; assumption.
Qed.

Lemma mean_bounds x l :
  Zmin_list x l * Zlen (x :: l) <= Zsum (x :: l) <= Zmax_list x l * Zlen (x :: l).
Proof.
  destruct (Zmin_list_le x l). destruct (Zmax_list_ge x l).
  split; [apply Zsum_lower | apply Zsum_upper]; constructor; assumption.
Qed.

End ListFacts.

(** ** The monad *)

Module MonadFacts.
Import Spec.

Lemma pure_ret {W A} (a : A) : pure (@ret W A a).
Proof. exists (Ok a). reflexivity. Qed.

Lemma pure_lift {W A} (r : result A) : pure (@lift W A r).
Proof. exists r. reflexivity. Qed.

Lemma pure_bind {W A B} (c : M W A) (k : A -> M W B) :
  pure c -> (forall a, pure (k a)) -> pure (bind c k).
Proof.
  intros [r Hc] Hk. unfold bind.
  destruct r as [a | e | ].
  - destruct (Hk a) as [rb Hb]. exists rb. intros w. rewrite Hc. apply Hb.
  - exists (Raise e). intros w. now rewrite Hc.
  - exists OutOfFuel. intros w. now rewrite Hc.
Qed.

Lemma pure_fst {W A} (c : M W A) : pure c -> forall w w', fst (c w) = fst (c w').
Proof. intros [r H] w w'. now rewrite !H. Qed.

Lemma pure_snd {W A} (c : M W A) : pure c -> forall w, snd (c w) = w.
Proof. intros [r H] w. now rewrite H. Qed.

Lemma Ok_inj {A} (a b : A) : Ok a = Ok b -> a = b.
Proof. congruence. Qed.

Lemma bind_ok {W A B} (c : M W A) (k : A -> M W B) w b w' :
  bind c k w = (Ok b, w') ->
  exists a w1, c w = (Ok a, w1) /\ k a w1 = (Ok b, w').
Proof.
  unfold bind. destruct (c w) as [[a | e | ] w1]; try discriminate. eauto.
Qed.

Lemma lift_ok {W A} (r : result A) (w : W) a w' :
  lift r w = (Ok a, w') -> r = Ok a /\ w' = w.
Proof. unfold lift. intros [= -> ->]. auto. Qed.

Lemma ret_ok {W A} (x : A) (w : W) a w' :
  ret x w = (Ok a, w') -> a = x /\ w' = w.
Proof. unfold ret. intros [= -> ->]. auto. Qed.

End MonadFacts.

#[local] Hint Resolve MonadFacts.pure_ret MonadFacts.pure_lift MonadFacts.pure_bind : pure.

(** ** [AirlineDataProcessor]: the aggregations *)

Module AppFacts.
Import App Spec FloatFacts ListFacts MonadFacts.

Lemma pure_analyze_popular_routes data : pure (analyze_popular_routes data).
Proof. unfold analyze_popular_routes. auto with pure. Qed.

Lemma pure_analyze_price_trends data : pure (analyze_price_trends data).
Proof. unfold analyze_price_trends. cbv zeta. auto 10 with pure. Qed.

Lemma pure_get_demand_insights data : pure (get_demand_insights data).
Proof.
  unfold get_demand_insights.
  apply pure_bind; [auto with pure | intros days].
  apply pure_bind; [auto with pure | intros avgs].
  apply pure_bind; [auto with pure | intros peak]. cbv zeta.
  destruct (filter is_domestic data); [auto with pure | ].
  destruct (filter (fun f => negb (is_domestic f)) data); [auto with pure | ].
  apply pure_bind; [auto with pure | intros a].
  apply pure_bind; [auto with pure | intros b].
  destruct (flt_bool b a); auto with pure.
Qed.

Lemma rounded_mean_within ps :
  Forall fits_double ps -> ps <> [] ->
  exists avg, rounded_mean ps = Ok avg /\ within avg (min_price ps) (max_price ps).
Proof.
  intros Hb Hne. destruct ps as [ | p ps]; [congruence | ].
  inversion Hb as [ | ? ? Hp Hps]; subst.
  pose proof (Zmin_list_pick fits_double p ps Hp Hps) as [Lo _].
  pose proof (Zmax_list_pick fits_double p ps Hp Hps) as [_ Hi].
  pose proof (Zmin_list_pick fits_double p ps Hp Hps) as [_ Lo'].
  pose proof (Zmax_list_pick fits_double p ps Hp Hps) as [Hi' _].
  destruct (true_divide_bounds (Zsum (p :: ps)) (Zlen (p :: ps))
              (Zmin_list p ps) (Zmax_list p ps)) as (x & E & G & L); try lia.
  { rewrite Zlen_cons. pose proof (Zlen_nonneg ps). lia. }
  { apply mean_bounds. }
  unfold rounded_mean. rewrite E. cbn [rbind].
  eexists. split; [reflexivity | ]. cbn [within min_price max_price].
  split.
  - apply ge_int_value, round_digits_ge; [lia | lia | exact G].
  - apply le_int_value, round_digits_le; [lia | lia | exact L].
Qed.

Lemma rounded_mean_ok ps :
  Forall fits_double ps -> exists avg, rounded_mean ps = Ok avg.
Proof.
  intros H. destruct ps as [ | p ps]; [eexists; reflexivity | ].
  destruct (rounded_mean_within (p :: ps) H) as (avg & E & _); [discriminate | eauto].
Qed.

Lemma prices_fit data (keep : flight -> bool) :
  Forall (fun f => fits_double (price f)) data ->
  Forall fits_double (map price (filter keep data)).
Proof.
  intros H. apply Forall_forall. intros z Hz.
  apply in_map_iff in Hz as (f & <- & Hf). apply filter_In in Hf as [Hf _].
  rewrite Forall_forall in H. auto.
Qed.

End AppFacts.

(** ** Sorting by a float key *)

Module SortFacts.
Import App Spec.

Lemma fle_total x y : fle_bool x y = false -> fle_bool y x = true.
Proof.
  unfold fle_bool. intros H. apply Qle_bool_iff.
  destruct (Qlt_le_dec (value y) (value x)) as [L | L].
  - apply Qlt_le_weak, L.
  - apply Qle_bool_iff in L. congruence.
Qed.

Section Sort.
Context {A : Type} (key : A -> float).

Lemma before_iff a b : before key a b <-> fle_bool (key b) (key a) = true.
Proof. unfold before, fle_bool. now rewrite Qle_bool_iff. Qed.

Lemma insert_desc_perm x l : Permutation (x :: l) (insert_desc key x l).
Proof.
  induction l as [ | y l IH]; cbn; [reflexivity | ].
  destruct (fle_bool (key y) (key x)); [reflexivity | ].
  rewrite perm_swap. now constructor.
Qed.

Lemma insert_desc_sorted x l :
  StronglySorted (before key) l -> StronglySorted (before key) (insert_desc key x l).
Proof.
  induction 1 as [ | y l Hs IH Hy]; cbn.
  - repeat constructor.
  - destruct (fle_bool (key y) (key x)) eqn:E.
    + constructor; [constructor; assumption | ].
      assert (Hxy : before key x y) by (apply before_iff; exact E).
      constructor; [exact Hxy | ].
      rewrite Forall_forall in *. intros z Hz. specialize (Hy z Hz).
      unfold before in *. eapply Qle_trans; eassumption.
    + constructor; [exact IH | ].
      apply fle_total in E.
      rewrite Forall_forall in *. intros z Hz.
      apply (Permutation_in _ (Permutation_sym (insert_desc_perm x l))) in Hz.
      destruct Hz as [<- | Hz]; [apply before_iff; exact E | auto].
Qed.

Lemma insert_desc_tied v x l :
  filter (tied key v) (insert_desc key x l) = filter (tied key v) (x :: l).
Proof.
  induction l as [ | y l IH]; [reflexivity | ].
  cbn [insert_desc]. destruct (fle_bool (key y) (key x)) eqn:E; [reflexivity | ].
  cbn [filter] in *. rewrite IH.
  destruct (tied key v x) eqn:Tx; [ | reflexivity].
  destruct (tied key v y) eqn:Ty; [ | reflexivity].
  exfalso. unfold tied in *. apply Qeq_bool_iff in Tx, Ty.
  assert (fle_bool (key y) (key x) = true); [ | congruence].
  unfold fle_bool. apply Qle_bool_iff. rewrite Tx, Ty. apply Qle_refl.
Qed.

Lemma sorted_reverse_perm l : Permutation l (sorted_reverse key l).
Proof.
  induction l as [ | x l IH]; cbn; [constructor | ].
  rewrite <- insert_desc_perm. now constructor.
Qed.

Lemma sorted_reverse_sorted l : StronglySorted (before key) (sorted_reverse key l).
Proof.
  induction l as [ | x l IH]; cbn; [constructor | ].
  now apply insert_desc_sorted.
Qed.

(** Stability: the elements of one key keep the order of the input. *)
Lemma sorted_reverse_stable v l :
  filter (tied key v) (sorted_reverse key l) = filter (tied key v) l.
Proof.
  induction l as [ | x l IH]; [reflexivity | ].
  cbn [sorted_reverse fold_right]. rewrite insert_desc_tied.
  cbn [filter]. fold (sorted_reverse key l). now rewrite IH.
Qed.

Lemma in_firstn (x : A) n l : In x (firstn n l) -> In x l.
Proof.
  revert l. induction n as [ | n IH]; intros [ | y l]; cbn; try tauto.
  intros [-> | H]; auto.
Qed.

Lemma firstn_sorted n l :
  StronglySorted (before key) l -> StronglySorted (before key) (firstn n l).
Proof.
  intros H. revert n. induction H as [ | x l Hs IH Hx]; intros [ | n]; cbn;
    try constructor.
  - apply IH.
  - rewrite Forall_forall in *. intros z Hz. apply Hx.
    eapply in_firstn. exact Hz.
Qed.

Lemma firstn_filter_prefix (p : A -> bool) n l :
  exists rest, filter p l = filter p (firstn n l) ++ rest.
Proof.
  exists (filter p (skipn n l)).
  rewrite <- filter_app, firstn_skipn. reflexivity.
Qed.

End Sort.

(** *** Grouping *)

Lemma dict_append_keys {V} k (v : V) d :
  map fst (dict_append k v d) = add_new (map fst d) k.
Proof.
  induction d as [ | [k' vs] d IH]; [reflexivity | ].
  cbn [dict_append]. unfold add_new in *. cbn [map fst existsb].
  destruct (String.eqb k k'); cbn [orb]; [reflexivity | ].
  cbn [map fst]. rewrite IH.
  destruct (existsb (String.eqb k) (map fst d)); reflexivity.
Qed.

Lemma group_by_keys_acc {A V} (key : A -> string) (val : A -> V) data d :
  map fst (fold_left (fun d x => dict_append (key x) (val x) d) data d)
  = fold_left add_new (map key data) (map fst d).
Proof.
  revert d. induction data as [ | x data IH]; intros d; [reflexivity | ].
  cbn [fold_left map]. rewrite IH, dict_append_keys. reflexivity.
Qed.

(** The groups appear in the order in which their keys first occur. *)
Lemma group_by_keys {A V} (key : A -> string) (val : A -> V) data :
  map fst (group_by key val data) = uniq (map key data).
Proof. apply group_by_keys_acc. Qed.

Lemma add_new_spec seen k x : In x (add_new seen k) <-> In x seen \/ x = k.
Proof.
  unfold add_new. destruct (existsb (String.eqb k) seen) eqn:E.
  - split; [auto | ]. intros [H | ->]; [exact H | ].
    apply existsb_exists in E as (y & Hy & Ey).
    apply String.eqb_eq in Ey. now subst.
  - rewrite in_app_iff. cbn. intuition congruence.
Qed.

Lemma add_new_nodup seen k : NoDup seen -> NoDup (add_new seen k).
Proof.
  intros H. unfold add_new. destruct (existsb (String.eqb k) seen) eqn:E; [exact H | ].
  apply NoDup_app; [exact H | repeat constructor; intros [] | ].
  intros x Hx [<- | []].
  assert (existsb (String.eqb k) seen = true); [ | congruence].
  apply existsb_exists. exists k. split; [exact Hx | apply String.eqb_refl].
Qed.

Lemma fold_add_new l seen :
  NoDup seen ->
  NoDup (fold_left add_new l seen)
  /\ forall x, In x (fold_left add_new l seen) <-> In x seen \/ In x l.
Proof.
  revert seen. induction l as [ | k l IH]; intros seen H; cbn [fold_left].
  - split; [exact H | ]. cbn. intuition.
  - destruct (IH (add_new seen k) (add_new_nodup seen k H)) as [N I].
    split; [exact N | ]. intros x. rewrite I, add_new_spec. cbn. intuition.
Qed.

Lemma uniq_length l :
  (List.length (uniq l) <= List.length (nodup string_dec l))%nat.
Proof.
  destruct (fold_add_new l [] (NoDup_nil _)) as [N I].
  apply NoDup_incl_length; [exact N | ].
  intros x Hx. apply nodup_In. apply I in Hx as [[] | Hx]. exact Hx.
Qed.

Lemma route_entries_routes data entries :
  route_entries data = Ok entries ->
  map route entries = uniq (map route_key data).
Proof.
  unfold route_entries. rewrite <- (group_by_keys route_key demand_score).
  generalize (group_by route_key demand_score data). intros g. revert entries.
  induction g as [ | [k ds] g IH]; intros entries; cbn.
  - intros [= <-]. reflexivity.
  - destruct (true_divide (Zsum ds) (Zlen ds)); cbn; try discriminate.
    destruct (rmap route_stats g); cbn; try discriminate.
    intros [= <-]. cbn. f_equal. now apply IH.
Qed.

End SortFacts.

(** ** The sample-data generator *)

Module GenFacts.
Import App Spec MonadFacts.

(** A boolean check over an interval of ints. *)
Lemma forall_range (P : Z -> bool) lo n :
  forallb P (map (fun i => lo + Z.of_nat i) (seq 0 n)) = true ->
  forall z, lo <= z < lo + Z.of_nat n -> P z = true.
Proof.
  intros H z Hz. rewrite forallb_forall in H. apply H.
  apply in_map_iff. exists (Z.to_nat (z - lo)). split; [lia | ].
  apply in_seq. lia.
Qed.

Lemma priced_is_true mult expected bp :
  priced_is mult expected bp = true -> priced bp mult = Ok (expected bp).
Proof.
  unfold priced_is. destruct (priced bp mult); try discriminate.
  intros H. apply Z.eqb_eq in H. now subst.
Qed.

(** On the price bands of the generator, the float product truncated by
    [int] is the integer quotient of [6 * bp] by 5. *)
Lemma priced_weekend dom bp :
  in_band dom bp -> priced bp (literal 12 1) = Ok (6 * bp / 5).
Proof.
  intros H. apply priced_is_true with (expected := fun b => 6 * b / 5).
  destruct dom; cbn in H.
  - apply (forall_range _ 150 251); [vm_compute; reflexivity | lia].
  - apply (forall_range _ 800 1701); [vm_compute; reflexivity | lia].
Qed.

Lemma priced_weekday dom bp :
  in_band dom bp -> priced bp (literal 10 1) = Ok bp.
Proof.
  intros H. apply priced_is_true with (expected := fun b => b).
  destruct dom; cbn in H.
  - apply (forall_range _ 150 251); [vm_compute; reflexivity | lia].
  - apply (forall_range _ 800 1701); [vm_compute; reflexivity | lia].
Qed.

Lemma randint_range a b w z w' :
  a <= b -> randint a b w = (Ok z, w') -> a <= z <= b.
Proof.
  intros Hab H. unfold randint, bind, randbelow, ret in H.
  injection H as <- _.
  pose proof (Z.mod_pos_bound (Z.of_N (rng w (rng_pos w))) (b - a + 1) ltac:(lia)).
  lia.
Qed.

Lemma for_range_Forall {W A} (P : A -> Prop) (body : M W A) n :
  (forall w x w', body w = (Ok x, w') -> P x) ->
  forall w l w', for_range n body w = (Ok l, w') -> Forall P l.
Proof.
  intros Hb. induction n as [ | n IH]; intros w l w' H; cbn [for_range] in H.
  - apply ret_ok in H as [-> _]. constructor.
  - apply bind_ok in H as (x & w1 & Hx & H).
    apply bind_ok in H as (xs & w2 & Hxs & H).
    apply ret_ok in H as [-> _].
    constructor; [eapply Hb; eassumption | eapply IH; eassumption].
Qed.

Lemma gen_flight_price fuel base_date w f w' :
  gen_flight fuel base_date w = (Ok f, w') ->
  price_rule (fun bp => 6 * bp / 5) base_date f.
Proof.
  unfold gen_flight. intros H.
  apply bind_ok in H as (org & w1 & _ & H).
  apply bind_ok in H as (dst0 & w2 & _ & H).
  apply bind_ok in H as (dst & w3 & _ & H). cbv zeta in H.
  apply bind_ok in H as (bp & w4 & Hbp & H).
  apply bind_ok in H as (off & w5 & Hoff & H).
  apply bind_ok in H as (fd & w6 & Hfd & H).
  apply bind_ok in H as (p & w7 & Hp & H).
  apply bind_ok in H as (dem & w8 & _ & H).
  apply bind_ok in H as (av & w9 & _ & H).
  apply bind_ok in H as (al & w10 & _ & H).
  apply ret_ok in H as [-> _].
  apply randint_range in Hoff; [ | lia].
  apply lift_ok in Hfd as [Hfd _]. apply lift_ok in Hp as [Hp _].
  unfold add_days in Hfd.
  destruct (max_ordinal <? base_date + off); [discriminate | ].
  injection Hfd as <-.
  assert (Hband : in_band (str_in dst (firstn 10 cities)) bp).
  { unfold in_band. destruct (str_in dst (firstn 10 cities));
      eapply randint_range; try eassumption; lia. }
  exists bp, off. cbn [date is_domestic price].
  repeat split; try lia; try assumption.
  unfold weekend_multiplier in Hp.
  destruct (5 <=? weekday (base_date + off)).
  - rewrite (priced_weekend _ _ Hband) in Hp. congruence.
  - rewrite (priced_weekday _ _ Hband) in Hp. congruence.
Qed.

End GenFacts.

(** ** Properties of [AirlineDataProcessor] *)

Module AppProps.
Import App Spec FloatFacts ListFacts MonadFacts SortFacts GenFacts AppFacts.

(** C1.  On the empty record list [analyze_popular_routes] returns the
    empty list and [analyze_price_trends] returns averages 0 with both
    ranges "N/A", but [get_demand_insights] does not return its empty
    insight list: [max] over the empty weekday table raises
    [ValueError]. *)
Theorem empty_input_outcomes (w : World) :
  fst (analyze_popular_routes [] w) = Ok []
  /\ fst (analyze_price_trends [] w) = Ok (mkTrends (Int 0) (Int 0) "N/A" "N/A")
  /\ fst (get_demand_insights [] w)
     = Raise (Exn ValueError "max() arg is an empty sequence").
Proof. repeat split. Qed.

(** C3 as stated fails: a generated record dated on a Saturday whose
    base price is 153 is stored with price 183, while 153 * 1.2 = 183.6
    rounds to 184; no base price of the domestic band rounds to 183. *)
Lemma weekend_price_is_not_rounded :
  exists routes w',
    generate_sample_data 1 sample_world = (Ok routes, w')
    /\ ~ Forall (price_rule (fun bp => round_half_even (6 * bp) 5)
                            (clock sample_world)) routes.
Proof.
  eexists. eexists. split; [vm_compute; reflexivity | ].
  intros HF. apply Forall_inv in HF.
  destruct HF as (bp & off & Hoff & Hdate & Hband & Hprice).
  cbn [date is_domestic price clock sample_world in_band] in *.
  assert (E : off = 1).
  { apply Z.eqb_eq.
    assert (String.eqb (strftime_ymd (738960 + off)) "2024-03-16" = true)
      by (rewrite <- Hdate; apply String.eqb_refl).
    pose proof (forall_range
                  (fun o => implb (String.eqb (strftime_ymd (738960 + o)) "2024-03-16")
                                  (o =? 1)) 1 90 ltac:(vm_compute; reflexivity)
                  off ltac:(lia)) as R.
    cbv beta in R. rewrite H in R. exact R. }
  subst off. change (5 <=? weekday (738960 + 1)) with true in Hprice.
  cbv iota in Hprice.
  pose proof (forall_range
                (fun b => negb (round_half_even (6 * b) 5 =? 183)) 150 251
                ltac:(vm_compute; reflexivity) bp ltac:(lia)) as R.
  cbv beta in R. rewrite <- Hprice, Z.eqb_refl in R. discriminate.
Qed.

(** C3, amended.  Every generated record has a base price in the band
    of its route type ([150, 400] domestic, [800, 2500] international)
    and a date offset of 1 to 90 days from today such that, when the
    flight date falls on a Saturday or Sunday, the stored price is the
    base price times 1.2 truncated to an integer, that is
    floor(6 * base / 5), and otherwise the base price unchanged. *)
Theorem generated_price_rule (fuel : nat) (w : World) (routes : list flight) (w' : World) :
  generate_sample_data fuel w = (Ok routes, w') ->
  Forall (price_rule (fun bp => 6 * bp / 5) (clock w)) routes.
Proof.
  unfold generate_sample_data. intros H.
  apply bind_ok in H as (base_date & w1 & Hnow & H).
  unfold now in Hnow. injection Hnow as <- <-.
  eapply for_range_Forall; [ | exact H].
  intros w2 f w3. apply gen_flight_price.
Qed.

(** The rule on the hundred records generated in [sample_world]. *)
Lemma sample_generation_prices :
  let routes := match fst (generate_sample_data 1 sample_world) with
                | Ok routes => routes
                | _ => []
                end in
  List.length routes = 100%nat
  /\ Forall (price_rule (fun bp => 6 * bp / 5) (clock sample_world)) routes.
Proof.
  cbv zeta. split; [vm_compute; reflexivity | ].
  apply (generated_price_rule 1 sample_world _
           (snd (generate_sample_data 1 sample_world))).
  vm_compute. reflexivity.
Defined.

(** C5.  For three records with prices 100 and 300 (domestic) and 1000
    (international), [analyze_price_trends] returns the floats 200.0 as
    [domestic_avg] and 1000.0 as [international_avg]. *)
Theorem price_trends_example (f1 f2 f3 : flight) (w : World) :
  exists r x y,
    fst (analyze_price_trends
           [with_price f1 100 true; with_price f2 300 true;
            with_price f3 1000 false] w) = Ok r
    /\ domestic_avg r = Flt x /\ (value x == inject_Z 200)%Q
    /\ international_avg r = Flt y /\ (value y == inject_Z 1000)%Q.
Proof.
  do 3 eexists. split; [reflexivity | ].
  cbn [domestic_avg international_avg].
  split; [reflexivity | ]. split; [vm_compute; reflexivity | ].
  split; [reflexivity | vm_compute; reflexivity].
Qed.

(** C6 as stated fails: one domestic record priced 2^53 + 1 has the
    average 2^53, the nearest double, which is below the minimum. *)
Lemma price_average_below_minimum :
  let data := [mkFlight "Sydney" "Perth" (2 ^ 53 + 1) "2024-03-16" 70 12 true "Jetstar"] in
  exists r,
    fst (analyze_price_trends data sample_world) = Ok r
    /\ domestic_prices data <> []
    /\ ~ within (domestic_avg r) (min_price (domestic_prices data))
                (max_price (domestic_prices data)).
Proof.
  eexists. split; [vm_compute; reflexivity | ].
  split; [discriminate | ].
  intros [H _]. vm_compute in H. apply H. reflexivity.
Qed.

(** C6, amended.  For every record list whose prices are ints of
    magnitude at most 2^53, [analyze_price_trends] returns, and for each
    of the domestic and international partitions that is non-empty the
    average it returns lies within the minimum and the maximum of that
    partition's prices. *)
Theorem price_average_within_range (data : list flight) (w : World) :
  Forall (fun f => fits_double (price f)) data ->
  exists r,
    fst (analyze_price_trends data w) = Ok r
    /\ (domestic_prices data <> [] ->
        within (domestic_avg r) (min_price (domestic_prices data))
               (max_price (domestic_prices data)))
    /\ (international_prices data <> [] ->
        within (international_avg r) (min_price (international_prices data))
               (max_price (international_prices data))).
Proof.
  intros H.
  pose proof (prices_fit data is_domestic H) as Hd.
  pose proof (prices_fit data (fun f => negb (is_domestic f)) H) as Hi.
  fold (domestic_prices data) in Hd. fold (international_prices data) in Hi.
  destruct (rounded_mean_ok _ Hd) as [davg Ed].
  destruct (rounded_mean_ok _ Hi) as [iavg Ei].
  unfold analyze_price_trends, bind, lift, ret. cbv zeta.
  rewrite Ed, Ei. eexists. split; [reflexivity | ].
  cbn [fst domestic_avg international_avg]. split; intros Hne.
  - destruct (rounded_mean_within _ Hd Hne) as (a & Ea & Wa). congruence.
  - destruct (rounded_mean_within _ Hi Hne) as (a & Ea & Wa). congruence.
Qed.

(** The averages of [sample_flights]. *)
Lemma sample_averages_in_range :
  exists r,
    fst (analyze_price_trends sample_flights sample_world) = Ok r
    /\ (domestic_prices sample_flights <> [] ->
        within (domestic_avg r) (min_price (domestic_prices sample_flights))
               (max_price (domestic_prices sample_flights)))
    /\ (international_prices sample_flights <> [] ->
        within (international_avg r) (min_price (international_prices sample_flights))
               (max_price (international_prices sample_flights))).
Proof.
  apply (price_average_within_range sample_flights sample_world).
  repeat constructor; cbn; unfold fits_double; lia.
Defined.


(** C7.  The list returned by [analyze_popular_routes] has at most 10
    entries and at most as many as there are distinct route keys in the
    input; it is in non-increasing order of [avg_demand]; and entries
    with the same [avg_demand] keep the order of the groups, which is
    the order in which the route keys first occur in the input. *)
Theorem popular_routes_top_sorted_stable
    (data : list flight) (w : World) (out : list route_entry) :
  fst (analyze_popular_routes data w) = Ok out ->
  (List.length out <= 10)%nat
  /\ (List.length out <= List.length (nodup string_dec (map route_key data)))%nat
  /\ StronglySorted (fun a b => (value (avg_demand b) <= value (avg_demand a))%Q) out
  /\ exists entries,
       route_entries data = Ok entries
       /\ map route entries = uniq (map route_key data)
       /\ forall v, exists rest,
            filter (tied avg_demand v) entries
            = filter (tied avg_demand v) out ++ rest.
Proof.
  unfold analyze_popular_routes, bind, lift, ret.
  destruct (route_entries data) as [entries | e | ] eqn:E; cbn [fst];
    try discriminate.
  intros H.
  assert (Hout : out = firstn 10 (sorted_reverse avg_demand entries)) by congruence.
  clear H. subst out.
  pose proof (route_entries_routes data entries E) as Hroutes.
  split; [apply firstn_le_length | ].
  split.
  { rewrite length_firstn. etransitivity; [apply Nat.le_min_r | ].
    rewrite <- (Permutation_length (sorted_reverse_perm avg_demand entries)).
    rewrite <- (length_map route), Hroutes. apply uniq_length. }
  split.
  { apply (firstn_sorted avg_demand), sorted_reverse_sorted. }
  exists entries. split; [reflexivity | ]. split; [exact Hroutes | ].
  intros v.
  destruct (firstn_filter_prefix (tied avg_demand v) 10
              (sorted_reverse avg_demand entries)) as [rest Hrest].
  exists rest. rewrite <- Hrest. symmetry. apply sorted_reverse_stable.
Qed.

(** The ranking of [sample_flights]: one route with mean demand 70.5,
    then three routes tied at 70.0 in the order of their first flight. *)
Lemma sample_routes_ranked :
  let out := match fst (analyze_popular_routes sample_flights sample_world) with
             | Ok l => l
             | _ => []
             end in
  map route out
  = [("Sydney" ++ arrow ++ "Melbourne")%string; ("Sydney" ++ arrow ++ "Perth")%string;
     ("Sydney" ++ arrow ++ "Tokyo")%string; ("Perth" ++ arrow ++ "Sydney")%string]
  /\ (List.length out <= 10)%nat
  /\ (List.length out
      <= List.length (nodup string_dec (map route_key sample_flights)))%nat
  /\ StronglySorted (fun a b => (value (avg_demand b) <= value (avg_demand a))%Q) out
  /\ exists entries,
       route_entries sample_flights = Ok entries
       /\ map route entries = uniq (map route_key sample_flights)
       /\ forall v, exists rest,
            filter (tied avg_demand v) entries
            = filter (tied avg_demand v) out ++ rest.
Proof.
  cbv zeta. split; [vm_compute; reflexivity | ].
  apply (popular_routes_top_sorted_stable sample_flights sample_world).
  vm_compute. reflexivity.
Defined.

(** C9.  No aggregation changes the processor: after a call of
    [analyze_popular_routes], [analyze_price_trends] or
    [get_demand_insights] the instance, with its fields [routes_data],
    [price_trends] and [demand_patterns], is what it was, as is the rest
    of the world; and the outcome of the call is the same whatever the
    state it is made in, so it depends on the record list alone. *)
Theorem aggregations_are_pure (data : list flight) (w w' : World) :
  (snd (analyze_popular_routes data w) = w
   /\ snd (analyze_price_trends data w) = w
   /\ snd (get_demand_insights data w) = w)
  /\ (routes_data (self_ (snd (analyze_popular_routes data w))) = routes_data (self_ w)
      /\ price_trends (self_ (snd (analyze_price_trends data w))) = price_trends (self_ w)
      /\ demand_patterns (self_ (snd (get_demand_insights data w)))
         = demand_patterns (self_ w))
  /\ (fst (analyze_popular_routes data w) = fst (analyze_popular_routes data w')
      /\ fst (analyze_price_trends data w) = fst (analyze_price_trends data w')
      /\ fst (get_demand_insights data w) = fst (get_demand_insights data w')).
Proof.
  pose proof (pure_analyze_popular_routes data) as P1.
  pose proof (pure_analyze_price_trends data) as P2.
  pose proof (pure_get_demand_insights data) as P3.
  rewrite !(pure_snd _ P1), !(pure_snd _ P2), !(pure_snd _ P3).
  repeat split; apply pure_fst; assumption.
Qed.

End AppProps.

(** ** Properties of [OpenAIAnalyzer] and [MarketDataAggregator] *)

Module ApiFacts.
Import Api Spec FloatFacts ListFacts MonadFacts.

Lemma pure_mock data : pure (_generate_mock_insights data).
Proof.
  unfold _generate_mock_insights. destruct data as [ | r data]; [auto with pure | ].
  cbv zeta. apply pure_bind; [auto with pure | intros avg].
  apply pure_bind; [ | auto with pure].
  destruct (has_column (r :: data) "price"); auto 10 with pure.
Qed.

Lemma mock_keys data w b w' :
  _generate_mock_insights data w = (Ok b, w') -> dict_keys b = Some five_keys.
Proof.
  unfold _generate_mock_insights. destruct data as [ | r data]; cbv zeta; intros H.
  - apply ret_ok in H as [-> _]. reflexivity.
  - apply bind_ok in H as (avg & w1 & _ & H).
    apply bind_ok in H as (line & w2 & _ & H).
    apply ret_ok in H as [-> _]. reflexivity.
Qed.

Lemma numeric_ok data :
  numeric_prices data ->
  exists zs, numeric (map (cell_at "price") data) = Ok zs /\ Forall fits_double zs.
Proof.
  induction 1 as [ | r data Hr _ (zs & E & F)]; cbn [map numeric].
  - exists []. split; [reflexivity | constructor].
  - destruct (cell_at "price" r) as [z | t | ]; [ | contradiction | eauto].
    rewrite E. cbn [rbind]. exists (z :: zs). split; [reflexivity | ].
    constructor; assumption.
Qed.

Lemma column_mean_ok data :
  numeric_prices data -> exists x, column_mean data "price" = Ok x.
Proof.
  intros H. destruct (numeric_ok data H) as (zs & E & F).
  unfold column_mean. rewrite E. cbn [rbind].
  destruct zs as [ | z zs]; [eauto | ].
  inversion F as [ | ? ? Hz Hzs]; subst.
  pose proof (Zmin_list_pick fits_double z zs Hz Hzs) as [Lo _].
  pose proof (Zmax_list_pick fits_double z zs Hz Hzs) as [_ Hi].
  destruct (true_divide_bounds (Zsum (z :: zs)) (Zlen (z :: zs))
              (Zmin_list z zs) (Zmax_list z zs)) as (x & -> & _); try lia.
  - rewrite Zlen_cons. pose proof (Zlen_nonneg zs). lia.
  - apply mean_bounds.
  - cbn [rbind]. eauto.
Qed.

Lemma column_extreme_ok pick data :
  (forall z zs, fits_double z -> Forall fits_double zs -> fits_double (pick z zs)) ->
  numeric_prices data -> exists x, column_extreme pick data "price" = Ok x.
Proof.
  intros Hpick H. destruct (numeric_ok data H) as (zs & E & F).
  unfold column_extreme. rewrite E. cbn [rbind].
  destruct zs as [ | z zs]; [eauto | ].
  inversion F as [ | ? ? Hz Hzs]; subst.
  destruct (Hpick z zs Hz Hzs) as [Lo Hi].
  unfold of_Z. destruct (fround_some (pick z zs) 1) as [x ->]; [lia | lia | ].
  cbn [rbind]. eauto.
Qed.

(** On numeric prices the mock path returns a bundle. *)
Lemma mock_returns data w :
  numeric_prices data -> exists b, _generate_mock_insights data w = (Ok b, w).
Proof.
  intros H. unfold _generate_mock_insights.
  destruct data as [ | r data]; [eexists; reflexivity | ].
  cbv zeta. unfold bind, lift, ret.
  destruct (has_column (r :: data) "price").
  - destruct (column_mean_ok _ H) as [avg ->].
    destruct (column_extreme_ok Zmin_list _ (Zmin_list_pick fits_double) H) as [lo ->].
    destruct (column_extreme_ok Zmax_list _ (Zmax_list_pick fits_double) H) as [hi ->].
    eexists. reflexivity.
  - eexists. reflexivity.
Qed.

Lemma filter_Zlen {A} (p : A -> bool) l : Zlen (filter p l) <= Zlen l.
Proof. unfold Zlen. pose proof (filter_length_le p l). lia. Qed.

Lemma total_nulls_bounds data :
  0 <= total_nulls data <= Zlen data * Zlen (columns data).
Proof.
  unfold total_nulls, null_counts. rewrite map_map. cbn [snd].
  set (count := fun k => Zlen (filter (fun r => is_null (cell_at k r)) data)).
  assert (L : Zlen (map count (columns data)) = Zlen (columns data))
    by (unfold Zlen; now rewrite length_map).
  split.
  - pose proof (Zsum_lower 0 (map count (columns data))) as H.
    rewrite Z.mul_0_l in H. apply H.
    apply Forall_forall. intros z Hz. apply in_map_iff in Hz as (k & <- & _).
    apply Zlen_nonneg.
  - rewrite <- L. apply Zsum_upper.
    apply Forall_forall. intros z Hz. apply in_map_iff in Hz as (k & <- & _).
    apply filter_Zlen.
Qed.

End ApiFacts.

Module ApiProps.
Import Api Spec FloatFacts ListFacts MonadFacts ApiFacts.

Section Libraries.
Variable json_loads : string -> result json.
Variable pandas_summary : list row -> result string.
Variable ratio_without_columns : result pyfloat.

(** C2.  For every record list: when the chat-completion call of
    [analyze_flight_trends] returns a status other than 200, the outcome
    is that of [_generate_mock_insights] on the same records; when that
    is a bundle it is returned, it has the five keys, and the only trace
    of the failed call is one printed line.  On records whose prices
    are numeric the mock path does return a bundle, so nothing is
    raised.  The call returns a status only in a run that gets as far
    as the call: a key is set and [_prepare_data_summary], which runs
    before the [try], has returned ([call_status]). *)
Theorem non_200_gives_mock_insights
    (self : OpenAIAnalyzer) (flight_data : list row) (w : World) (code : Z) :
  call_status pandas_summary self flight_data w = Some code ->
  code <> 200 ->
  fst (analyze_flight_trends json_loads pandas_summary self flight_data w)
    = fst (_generate_mock_insights flight_data w)
  /\ (forall b,
        fst (_generate_mock_insights flight_data w) = Ok b ->
        dict_keys b = Some five_keys
        /\ analyze_flight_trends json_loads pandas_summary self flight_data w
           = (Ok b,
              mkWorld (stdout w ++ [("OpenAI API error: " ++ str_of_Z code)%string])
                      (http w)))
  /\ (numeric_prices flight_data ->
      exists b,
        fst (analyze_flight_trends json_loads pandas_summary self flight_data w) = Ok b
        /\ dict_keys b = Some five_keys).
Proof.
  unfold call_status. intros Hcall Hcode.
  destruct (truthy (api_key self)) eqn:Hkey; [ | discriminate].
  destruct (_prepare_data_summary pandas_summary flight_data) as [summary | | ] eqn:Hsum;
    try discriminate.
  destruct (http w (chat_request self (prompt_head ++ summary ++ prompt_tail)))
    as [code' body | ] eqn:Hhttp; [ | discriminate].
  injection Hcall as ->.
  destruct (pure_mock flight_data) as [r Hr].
  assert (E : analyze_flight_trends json_loads pandas_summary self flight_data w
              = match r with
                | Raise e =>
                    (Raise e,
                     mkWorld ((stdout w
                                 ++ [("OpenAI API error: " ++ str_of_Z code)%string])
                                ++ [("Error calling OpenAI API: " ++ exn_msg e)%string])
                             (http w))
                | other =>
                    (other,
                     mkWorld (stdout w
                                ++ [("OpenAI API error: " ++ str_of_Z code)%string])
                             (http w))
                end).
  { unfold analyze_flight_trends. rewrite Hkey. cbn [negb].
    unfold bind at 1. unfold lift at 1. rewrite Hsum.
    unfold try_except, bind, post, print. rewrite Hhttp. cbn [fst snd].
    destruct (Z.eqb_spec code 200) as [ | _]; [contradiction | ].
    rewrite Hr. destruct r; cbn [http stdout]; rewrite ?Hr; reflexivity. }
  rewrite E, Hr. cbn [fst]. split; [ | split].
  - destruct r; reflexivity.
  - intros b ->. split; [ | reflexivity].
    eapply (mock_keys flight_data w). rewrite Hr. reflexivity.
  - intros Hnum. destruct (mock_returns flight_data w Hnum) as [b Hb].
    rewrite Hr in Hb. injection Hb as ->. exists b. split; [reflexivity | ].
    eapply (mock_keys flight_data w). rewrite Hr. reflexivity.
Qed.

(** C10.  With a key set and a 200 response whose message content is
    a string that [json.loads] accepts, [analyze_flight_trends]
    returns the parsed value as it is, whatever its shape, and prints
    nothing. *)
Theorem parsed_content_returned_verbatim
    (self : OpenAIAnalyzer) (flight_data : list row) (w : World)
    (summary body content : string) (parsed v : json) :
  truthy (api_key self) = true ->
  _prepare_data_summary pandas_summary flight_data = Ok summary ->
  http w (chat_request self (prompt_head ++ summary ++ prompt_tail))
    = Response 200 body ->
  json_loads body = Ok parsed ->
  message_content parsed = Ok (JStr content) ->
  json_loads content = Ok v ->
  analyze_flight_trends json_loads pandas_summary self flight_data w = (Ok v, w).
Proof.
  intros Hkey Hsum Hhttp Hbody Hcontent Hv.
  unfold analyze_flight_trends. rewrite Hkey. cbn [negb].
  unfold bind at 1. unfold lift at 1. rewrite Hsum.
  unfold try_except, bind, post, lift. rewrite Hhttp. cbn [fst snd].
  rewrite Hbody, Hcontent. unfold parse_insights. rewrite Hv. reflexivity.
Qed.

(** C4.  Whenever the data-quality assessor returns, its
    [quality_score] lies in [0, 100]; and it returns for the empty
    list and for every list in which some record has a key. *)
Theorem quality_score_in_range (flight_data : list row) :
  (forall q, _assess_data_quality ratio_without_columns flight_data = Ok q ->
             0 <= quality_score q <= 100)
  /\ (columns flight_data <> [] \/ flight_data = [] ->
      exists q, _assess_data_quality ratio_without_columns flight_data = Ok q).
Proof.
  unfold _assess_data_quality. destruct flight_data as [ | r data].
  { split; [intros q [= <-]; cbn; lia | eauto]. }
  set (rows := r :: data).
  cbv zeta.
  pose proof (Zlen_nonneg (missing_fields rows)) as Hm.
  split.
  - intros q.
    destruct (Z.ltb_spec 0 (total_nulls rows));
      (destruct (completeness_of ratio_without_columns rows); cbn [rbind];
       try discriminate; intros E; apply Ok_inj in E; subst q;
       cbn [quality_score]; lia).
  - intros [Hc | ?]; [ | discriminate].
    assert (E : exists p, completeness_of ratio_without_columns rows = Ok p).
    { unfold completeness_of.
      pose proof (total_nulls_bounds rows) as B.
      assert (0 < Zlen rows) by (unfold rows; rewrite Zlen_cons;
                                 pose proof (Zlen_nonneg data); lia).
      assert (0 < Zlen (columns rows)).
      { destruct (columns rows); [congruence | ].
        rewrite Zlen_cons. pose proof (Zlen_nonneg l). lia. }
      destruct (Z.eqb_spec (Zlen rows * Zlen (columns rows)) 0); [nia | ].
      destruct (true_divide_bounds (total_nulls rows)
                  (Zlen rows * Zlen (columns rows)) 0 1) as (x & -> & _);
        try lia.
      cbn [rbind].
      destruct (fround _ _); [ | eauto].
      destruct (fmul _ _); eauto. }
    destruct E as [p ->].
    destruct (0 <? total_nulls rows); cbn [rbind]; eauto.
Qed.

End Libraries.

(** C8.  [_generate_mock_insights] is deterministic: its outcome on a
    record list is the same in every state of the world, it leaves the
    world as it was, and so a second call with the same list returns
    what the first returned, sentence by sentence. *)
Theorem mock_insights_deterministic (flight_data : list row) (w1 w2 : World) :
  fst (_generate_mock_insights flight_data w1)
    = fst (_generate_mock_insights flight_data w2)
  /\ snd (_generate_mock_insights flight_data w1) = w1
  /\ fst (_generate_mock_insights flight_data
            (snd (_generate_mock_insights flight_data w1)))
     = fst (_generate_mock_insights flight_data w1).
Proof.
  pose proof (pure_mock flight_data) as P.
  rewrite (pure_snd _ P). repeat split. apply pure_fst, P.
Qed.

(** A status 500 on [dated_rows], two records of which one carries a
    price: the call is reached, the bundle of the mock path comes back
    with the price sentences of that record, and one line is printed. *)
Lemma status_500_run :
  call_status summary_sample analyzer dated_rows world_500 = Some 500
  /\ analyze_flight_trends loads_sample summary_sample analyzer dated_rows world_500
     = (Ok dated_insights, mkWorld ["OpenAI API error: 500"] (http world_500))
  /\ dict_keys dated_insights = Some five_keys.
Proof.
  assert (C : call_status summary_sample analyzer dated_rows world_500 = Some 500)
    by (vm_compute; reflexivity).
  assert (M : fst (_generate_mock_insights dated_rows world_500) = Ok dated_insights)
    by (vm_compute; reflexivity).
  split; [exact C | ].
  destruct (non_200_gives_mock_insights loads_sample summary_sample analyzer dated_rows
              world_500 500 C ltac:(discriminate)) as (_ & H & _).
  destruct (H dated_insights M) as [K ->].
  split; [reflexivity | exact K].
Defined.

(** A completion whose content is the JSON number 42: the caller
    receives the number, which is no dict at all. *)
Lemma content_42_run :
  analyze_flight_trends loads_sample summary_sample analyzer [] world_200
    = (Ok (JInt 42), world_200)
  /\ dict_keys (JInt 42) <> Some five_keys.
Proof.
  split; [ | discriminate].
  apply (parsed_content_returned_verbatim loads_sample summary_sample analyzer
           [] world_200 "No flight data available" completion_text "42"
           completion_json (JInt 42));
    reflexivity.
Defined.

(** The assessment of [sample_rows]. *)
Lemma sample_rows_quality :
  (forall q, _assess_data_quality (Ok NaN) sample_rows = Ok q ->
             0 <= quality_score q <= 100)
  /\ (columns sample_rows <> [] \/ sample_rows = [] ->
      exists q, _assess_data_quality (Ok NaN) sample_rows = Ok q).
Proof. apply (quality_score_in_range (Ok NaN) sample_rows). Defined.

End ApiProps.

(** ** Further properties of [OpenAIAnalyzer] and [MarketDataAggregator] *)

Module ApiMore.
Import Api Spec SpecMore FloatFacts ListFacts MonadFacts ApiFacts.

Section Libraries.
Variable json_loads : string -> result json.
Variable pandas_summary : list row -> result string.
Variable ratio_without_columns : result pyfloat.

Local Abbreviation analyze := (analyze_flight_trends json_loads pandas_summary).

(** With a key and a summary, what [analyze_flight_trends] does is
    decided by the answer of the network. *)
Lemma analyze_by_answer self flight_data w summary :
  truthy (api_key self) = true ->
  _prepare_data_summary pandas_summary flight_data = Ok summary ->
  analyze self flight_data w
  = match http w (chat_request self (prompt_head ++ summary ++ prompt_tail)) with
    | Response code body =>
        if code =? 200 then
          match reply_outcome json_loads body with
          | Raise e =>
              _generate_mock_insights flight_data
                (printed w ("Error calling OpenAI API: " ++ exn_msg e))
          | other => (other, w)
          end
        else
          match fst (_generate_mock_insights flight_data w) with
          | Raise e =>
              (Raise e,
               printed (printed w ("OpenAI API error: " ++ str_of_Z code))
                       ("Error calling OpenAI API: " ++ exn_msg e))
          | other => (other, printed w ("OpenAI API error: " ++ str_of_Z code))
          end
    | Fails e =>
        _generate_mock_insights flight_data
          (printed w ("Error calling OpenAI API: " ++ exn_msg e))
    end.
Proof.
  intros Hkey Hsum. destruct (pure_mock flight_data) as [r Hr].
  unfold analyze_flight_trends. rewrite Hkey. cbn [negb].
  unfold bind at 1. unfold lift at 1. rewrite Hsum.
  unfold try_except, bind, post, print, printed.
  destruct (http w _) as [code body | e]; cbn [fst snd].
  - destruct (code =? 200).
    + unfold reply_outcome, lift.
      destruct (json_loads body) as [parsed | e | ]; cbn [rbind]; try reflexivity.
      destruct (message_content parsed) as [content | e | ]; cbn [rbind];
        reflexivity.
    + rewrite !Hr. cbn [fst]. destruct r; cbn [stdout http]; rewrite ?Hr; reflexivity.
  - reflexivity.
Qed.



(** X2.  When the HTTP call itself fails, the exception is absorbed: one
    line naming it is printed and the outcome is that of the mock path on
    the same records. *)
Theorem transport_failure_gives_mock (self : OpenAIAnalyzer) (flight_data : list row)
    (w : World) (summary : string) (e : exn) :
  truthy (api_key self) = true ->
  _prepare_data_summary pandas_summary flight_data = Ok summary ->
  http w (chat_request self (prompt_head ++ summary ++ prompt_tail)) = Fails e ->
  analyze self flight_data w
  = (fst (_generate_mock_insights flight_data w),
     printed w ("Error calling OpenAI API: " ++ exn_msg e)).
Proof.
  intros Hkey Hsum Hhttp.
  rewrite (analyze_by_answer _ _ _ _ Hkey Hsum), Hhttp.
  destruct (pure_mock flight_data) as [r Hr]. now rewrite !Hr.
Qed.

(** X3.  A 200 response whose message content is a string that is not
    JSON is not an error: the text comes back as the only entry of
    [demand_insights] in a bundle with the five keys, and nothing is
    printed. *)
Theorem text_reply_is_wrapped (self : OpenAIAnalyzer) (flight_data : list row)
    (w : World) (summary body content msg : string) (parsed : json) :
  truthy (api_key self) = true ->
  _prepare_data_summary pandas_summary flight_data = Ok summary ->
  http w (chat_request self (prompt_head ++ summary ++ prompt_tail))
    = Response 200 body ->
  json_loads body = Ok parsed ->
  message_content parsed = Ok (JStr content) ->
  json_loads content = Raise (Exn JSONDecodeError msg) ->
  analyze self flight_data w
    = (Ok (bundle [content] [] [] [] "AI analysis completed"), w)
  /\ dict_keys (bundle [content] [] [] [] "AI analysis completed") = Some five_keys.
Proof.
  intros Hkey Hsum Hhttp Hbody Hcontent Hbad.
  rewrite (analyze_by_answer _ _ _ _ Hkey Hsum), Hhttp. cbn [Z.eqb Pos.eqb].
  unfold reply_outcome. rewrite Hbody. cbn [rbind]. rewrite Hcontent. cbn [rbind].
  unfold parse_insights. rewrite Hbad. split; reflexivity.
Qed.

(** X4.  A 200 response that cannot be used (a body that is not JSON, an
    envelope without [choices], [message] or [content], a content that
    is not a string) is absorbed like a failed call: one line is printed
    and the outcome is that of the mock path. *)
Theorem unusable_reply_gives_mock (self : OpenAIAnalyzer) (flight_data : list row)
    (w : World) (summary body : string) (e : exn) :
  truthy (api_key self) = true ->
  _prepare_data_summary pandas_summary flight_data = Ok summary ->
  http w (chat_request self (prompt_head ++ summary ++ prompt_tail))
    = Response 200 body ->
  reply_outcome json_loads body = Raise e ->
  analyze self flight_data w
  = (fst (_generate_mock_insights flight_data w),
     printed w ("Error calling OpenAI API: " ++ exn_msg e)).
Proof.
  intros Hkey Hsum Hhttp Hreply.
  rewrite (analyze_by_answer _ _ _ _ Hkey Hsum), Hhttp. cbn [Z.eqb Pos.eqb].
  rewrite Hreply.
  destruct (pure_mock flight_data) as [r Hr]. now rewrite !Hr.
Qed.


Lemma reply_outcome_fuel body :
  (forall s, json_loads s <> OutOfFuel) -> reply_outcome json_loads body <> OutOfFuel.
Proof.
  intros H. unfold reply_outcome.
  pose proof (H body). destruct (json_loads body) as [parsed | e | ]; cbn [rbind];
    [ | discriminate | congruence].
  unfold message_content.
  destruct (getitem parsed "choices") as [a | | ] eqn:Ea; cbn [rbind];
    [ | discriminate | ].
  2: { unfold getitem in Ea. destruct parsed; try discriminate.
       destruct (field _ _); discriminate. }
  destruct (getfirst a) as [b | | ] eqn:Eb; cbn [rbind]; [ | discriminate | ].
  2: { unfold getfirst in Eb. destruct a as [ | | | | s | l | ]; try discriminate.
       - destruct s; discriminate.
       - destruct l; discriminate. }
  destruct (getitem b "message") as [c | | ] eqn:Ec; cbn [rbind]; [ | discriminate | ].
  2: { unfold getitem in Ec. destruct b; try discriminate.
       destruct (field _ _); discriminate. }
  destruct (getitem c "content") as [content | | ] eqn:Ed; cbn [rbind];
    [ | discriminate | ].
  2: { unfold getitem in Ed. destruct c; try discriminate.
       destruct (field _ _); discriminate. }
  unfold parse_insights. destruct content; try discriminate.
  pose proof (H s). destruct (json_loads s) as [v | [[] m] | ];
    try discriminate; assumption.
Qed.

(** X6.  Once the summary is prepared and the prices are numeric,
    [analyze_flight_trends] returns a value and raises nothing, whatever
    the network does: any status, any body, any transport error. *)
Theorem analysis_always_answers (self : OpenAIAnalyzer) (flight_data : list row)
    (w : World) (summary : string) :
  truthy (api_key self) = true ->
  _prepare_data_summary pandas_summary flight_data = Ok summary ->
  numeric_prices flight_data ->
  (forall s, json_loads s <> OutOfFuel) ->
  exists v w', analyze self flight_data w = (Ok v, w').
Proof.
  intros Hkey Hsum Hnum Hfuel.
  rewrite (analyze_by_answer _ _ _ _ Hkey Hsum).
  assert (M : forall w0, exists b, _generate_mock_insights flight_data w0 = (Ok b, w0))
    by (intros w0; apply mock_returns, Hnum).
  destruct (http w _) as [code body | e].
  - destruct (code =? 200).
    + pose proof (reply_outcome_fuel body Hfuel).
      destruct (reply_outcome json_loads body) as [v | e | ]; [eauto | | congruence].
      destruct (M (printed w ("Error calling OpenAI API: " ++ exn_msg e))) as [b ->].
      eauto.
    + destruct (M w) as [b ->]. cbn [fst]. eauto.
  - destruct (M (printed w ("Error calling OpenAI API: " ++ exn_msg e))) as [b ->].
    eauto.
Qed.


(** The completeness of a frame with at least one cell is a float
    between 0 and 100, and 100.0 itself when no cell is missing. *)
Lemma completeness_of_bounds rows :
  rows <> [] -> columns rows <> [] ->
  exists x,
    completeness_of ratio_without_columns rows = Ok (Finite x)
    /\ ge_int x 0 /\ le_int x 100
    /\ (total_nulls rows = 0 -> (value x == inject_Z 100)%Q).
Proof.
  intros Hr Hc. unfold completeness_of.
  pose proof (total_nulls_bounds rows) as B.
  assert (0 < Zlen rows).
  { destruct rows; [congruence | ]. rewrite Zlen_cons.
    pose proof (Zlen_nonneg rows). lia. }
  assert (0 < Zlen (columns rows)).
  { destruct (columns rows); [congruence | ]. rewrite Zlen_cons.
    pose proof (Zlen_nonneg l). lia. }
  set (cells := Zlen rows * Zlen (columns rows)) in *.
  destruct (Z.eqb_spec cells 0); [nia | ].
  destruct (Z.eq_dec (total_nulls rows) 0) as [Z0 | Z0].
  - rewrite Z0. unfold true_divide.
    destruct (Z.eqb_spec cells 0); [lia | ].
    destruct (Z.ltb_spec 0 cells); [ | lia].
    change (fround 0 cells) with (Some zero). cbn [rbind].
    eexists. split; [vm_compute; reflexivity | ].
    repeat split; intros; vm_compute; congruence.
  - destruct (true_divide_bounds (total_nulls rows) cells 0 1) as (x & -> & G & L);
      try lia.
    cbn [rbind]. unfold ge_int, le_int in G, L. pose proof (den_pos x).
    destruct (fround_some (den x - num x) (den x)) as [rest E]; [lia | nia | ].
    rewrite E.
    assert (Gr : ge_int rest 0) by (eapply fround_ge; [ | | | exact E]; lia).
    assert (Lr : le_int rest 1) by (eapply fround_le; [ | | | exact E]; lia).
    unfold ge_int, le_int in Gr, Lr. pose proof (den_pos rest).
    unfold fmul. change (num (mkFloat 100 0)) with 100.
    change (den (mkFloat 100 0)) with 1.
    destruct (fround_some (num rest * 100) (den rest * 1)) as [pct Ep]; [lia | nia | ].
    rewrite Ep. exists pct. split; [reflexivity | ].
    split; [ | split].
    + eapply fround_ge; [ | | | exact Ep]; lia.
    + eapply fround_le; [ | | | exact Ep]; lia.
    + intros; contradiction.
Qed.

(** X7.  In the report of the data-quality assessor the issue list is
    never empty; it is the single entry 'No major issues detected'
    exactly when the score is 100; and a required field that no record
    carries costs at least 25 points and is named in a 'Missing required
    fields' entry. *)
Theorem quality_issues_match_score (flight_data : list row) (q : DataQuality) :
  _assess_data_quality ratio_without_columns flight_data = Ok q ->
  issues q <> []
  /\ (quality_score q = 100 <-> issues q = [NoMajorIssues])
  /\ (forall f, flight_data <> [] -> In f required_fields ->
                has_column flight_data f = false ->
                quality_score q <= 75
                /\ exists fs, In (MissingRequiredFields fs) (issues q) /\ In f fs).
Proof.
  unfold _assess_data_quality. destruct flight_data as [ | r data].
  { intros E. apply Ok_inj in E. subst q. cbn.
    split; [discriminate | ]. split; [split; discriminate | ].
    intros f Hne. congruence. }
  set (rows := r :: data). cbv zeta.
  pose proof (Zlen_nonneg (missing_fields rows)) as Hm.
  pose proof (total_nulls_bounds rows) as [Hn _].
  destruct (completeness_of ratio_without_columns rows) as [pct | | ];
    [ | destruct (0 <? total_nulls rows); discriminate
      | destruct (0 <? total_nulls rows); discriminate].
  assert (Hmiss : forall f, In f required_fields -> has_column rows f = false ->
                            In f (missing_fields rows) /\ 1 <= Zlen (missing_fields rows)).
  { intros f Hf Hc.
    assert (I : In f (missing_fields rows))
      by (apply filter_In; split; [exact Hf | now rewrite Hc]).
    split; [exact I | ]. destruct (missing_fields rows); [destruct I | ].
    rewrite Zlen_cons. pose proof (Zlen_nonneg l). lia. }
  destruct (Z.ltb_spec 0 (total_nulls rows)) as [Hpos | Hzero]; cbn [rbind];
    intros E; apply Ok_inj in E; subst q; cbn [quality_score issues].
  - split; [destruct (missing_fields rows); discriminate | ].
    split.
    + split; [lia | ]. destruct (missing_fields rows); discriminate.
    + intros f _ Hf Hc. destruct (Hmiss f Hf Hc) as [I L]. split; [lia | ].
      exists (missing_fields rows). split; [ | exact I].
      destruct (missing_fields rows); [destruct I | ]. left. reflexivity.
  - split; [destruct (missing_fields rows); discriminate | ].
    split.
    + destruct (missing_fields rows) as [ | m ms] eqn:Em.
      * split; [reflexivity | ]. cbn. lia.
      * rewrite Zlen_cons in *. pose proof (Zlen_nonneg ms).
        split; [lia | discriminate].
    + intros f _ Hf Hc. destruct (Hmiss f Hf Hc) as [I L]. split; [lia | ].
      exists (missing_fields rows). split; [ | exact I].
      destruct (missing_fields rows); [destruct I | ]. left. reflexivity.
Qed.

(** X8.  For records with at least one key the assessor reports a
    [completeness] that is a finite float between 0 and 100, and exactly
    100.0 when no cell is missing. *)
Theorem completeness_is_percentage (flight_data : list row) (q : DataQuality) :
  _assess_data_quality ratio_without_columns flight_data = Ok q ->
  columns flight_data <> [] ->
  exists x,
    completeness q = Some (Finite x)
    /\ (inject_Z 0 <= value x)%Q /\ (value x <= inject_Z 100)%Q
    /\ (total_nulls flight_data = 0 -> (value x == inject_Z 100)%Q).
Proof.
  unfold _assess_data_quality. destruct flight_data as [ | r data].
  { intros _ Hc. exfalso. apply Hc. reflexivity. }
  set (rows := r :: data). cbv zeta. intros E Hc.
  destruct (completeness_of_bounds rows ltac:(discriminate) Hc) as (x & Ex & G & L & H100).
  rewrite Ex in E.
  destruct (0 <? total_nulls rows); cbn [rbind] in E; apply Ok_inj in E; subst q;
    cbn [completeness]; exists x;
    (split; [reflexivity | ]);
    (split; [apply ge_int_value, G | ]);
    (split; [apply le_int_value, L | exact H100]).
Qed.

End Libraries.


(** A refused connection on the empty record list. *)
Lemma offline_run :
  analyze_flight_trends loads_sample summary_sample analyzer [] world_offline
  = (fst (_generate_mock_insights [] world_offline),
     printed world_offline "Error calling OpenAI API: Connection refused").
Proof.
  apply (transport_failure_gives_mock loads_sample summary_sample analyzer []
           world_offline "No flight data available"
           (Exn RequestException "Connection refused"));
    reflexivity.
Defined.

(** A completion in plain English. *)
Lemma text_reply_run :
  analyze_flight_trends loads_text summary_sample analyzer [] world_text
    = (Ok (bundle ["Demand is strong"] [] [] [] "AI analysis completed"), world_text)
  /\ dict_keys (bundle ["Demand is strong"] [] [] [] "AI analysis completed")
     = Some five_keys.
Proof.
  apply (text_reply_is_wrapped loads_text summary_sample analyzer [] world_text
           "No flight data available" text_completion "Demand is strong"
           "Expecting value: line 1 column 1 (char 0)" text_completion_json);
    reflexivity.
Defined.

(** A 200 response without [choices] on [dated_rows]: the [KeyError]
    is printed as the [repr] of the key, and the mock path answers. *)
Lemma refusal_reply_run :
  analyze_flight_trends loads_sample summary_sample analyzer dated_rows world_refusal
  = (fst (_generate_mock_insights dated_rows world_refusal),
     printed world_refusal "Error calling OpenAI API: 'choices'")
  /\ fst (_generate_mock_insights dated_rows world_refusal) = Ok dated_insights.
Proof.
  split; [ | vm_compute; reflexivity].
  apply (unusable_reply_gives_mock loads_sample summary_sample analyzer dated_rows
           world_refusal dated_summary refusal_text (Exn KeyError "'choices'"));
    vm_compute; reflexivity.
Defined.


Lemma loads_sample_fuel s : loads_sample s <> OutOfFuel.
Proof.
  unfold loads_sample.
  destruct (String.eqb s completion_text); [discriminate | ].
  destruct (String.eqb s refusal_text); [discriminate | ].
  destruct (String.eqb s "42"); [discriminate | ].
  destruct (String.eqb s "[]"); discriminate.
Qed.

Lemma dated_rows_numeric : numeric_prices dated_rows.
Proof. repeat constructor; cbn; unfold fits_double; lia. Qed.

(** [dated_rows] with a key, behind a proxy that serves an HTML page
    with status 200: a value comes back. *)
Lemma always_answers_run :
  _prepare_data_summary summary_sample dated_rows = Ok dated_summary
  /\ exists v w',
       analyze_flight_trends loads_sample summary_sample analyzer dated_rows world_garbled
       = (Ok v, w').
Proof.
  split; [vm_compute; reflexivity | ].
  apply (analysis_always_answers loads_sample summary_sample analyzer dated_rows
           world_garbled dated_summary);
    [reflexivity | vm_compute; reflexivity | exact dated_rows_numeric
     | exact loads_sample_fuel].
Defined.

(** Rows that carry no price: score 74, two issues. *)
Lemma unpriced_rows_quality :
  exists q,
    _assess_data_quality (Ok NaN) unpriced_rows = Ok q
    /\ quality_score q = 74
    /\ issues q <> []
    /\ (quality_score q = 100 <-> issues q = [NoMajorIssues])
    /\ (forall f, unpriced_rows <> [] -> In f required_fields ->
                  has_column unpriced_rows f = false ->
                  quality_score q <= 75
                  /\ exists fs, In (MissingRequiredFields fs) (issues q) /\ In f fs).
Proof.
  eexists. split; [vm_compute; reflexivity | ]. split; [reflexivity | ].
  apply (quality_issues_match_score (Ok NaN) unpriced_rows).
  vm_compute. reflexivity.
Defined.

Lemma sample_rows_completeness :
  exists q x,
    _assess_data_quality (Ok NaN) sample_rows = Ok q
    /\ completeness q = Some (Finite x)
    /\ (inject_Z 0 <= value x)%Q /\ (value x <= inject_Z 100)%Q
    /\ (total_nulls sample_rows = 0 -> (value x == inject_Z 100)%Q).
Proof.
  eexists.
  destruct (completeness_is_percentage (Ok NaN) sample_rows _
              ltac:(vm_compute; reflexivity) ltac:(discriminate)) as (x & H).
  exists x. split; [vm_compute; reflexivity | exact H].
Defined.

End ApiMore.

(** ** Further properties of [AirlineDataProcessor] *)

Module AppMore.
Import App Spec SpecMore FloatFacts ListFacts MonadFacts SortFacts GenFacts AppFacts.

(** *** The generator *)

Lemma randbelow_range n w z w' :
  0 < n -> randbelow n w = (Ok z, w') -> 0 <= z < n.
Proof.
  intros Hn H. unfold randbelow in H. injection H as <- _.
  apply Z.mod_pos_bound, Hn.
Qed.

Lemma choice_in seq w s w' : choice seq w = (Ok s, w') -> In s seq.
Proof.
  unfold choice. destruct seq as [ | x seq]; [discriminate | ].
  intros H. apply bind_ok in H as (i & w1 & Hi & H).
  apply ret_ok in H as [-> _].
  apply randbelow_range in Hi.
  - apply nth_In. unfold Zlen in Hi. lia.
  - unfold Zlen. cbn [List.length]. lia.
Qed.

Lemma redraw_spec fuel org dst w d w' :
  In dst cities -> redraw fuel org dst w = (Ok d, w') -> In d cities /\ d <> org.
Proof.
  revert dst w. induction fuel as [ | fuel IH]; intros dst w Hin; cbn [redraw];
    destruct (String.eqb_spec dst org) as [E | E].
  - discriminate.
  - intros H. apply ret_ok in H as [-> _]. auto.
  - intros H. apply bind_ok in H as (d1 & w1 & Hd1 & H).
    apply choice_in in Hd1. eapply IH; eassumption.
  - intros H. apply ret_ok in H as [-> _]. auto.
Qed.

Lemma for_range_length {W A} (body : M W A) n w l w' :
  for_range n body w = (Ok l, w') -> List.length l = n.
Proof.
  revert w l w'. induction n as [ | n IH]; intros w l w' H; cbn [for_range] in H.
  - apply ret_ok in H as [-> _]. reflexivity.
  - apply bind_ok in H as (x & w1 & Hx & H).
    apply bind_ok in H as (xs & w2 & Hxs & H).
    apply ret_ok in H as [-> _]. cbn. f_equal. eapply IH. eassumption.
Qed.

Lemma gen_flight_well_formed fuel base_date w f w' :
  gen_flight fuel base_date w = (Ok f, w') -> well_formed_flight f.
Proof.
  intros H. pose proof (gen_flight_price _ _ _ _ _ H) as Hprice.
  unfold gen_flight in H.
  apply bind_ok in H as (org & w1 & Horg & H).
  apply bind_ok in H as (dst0 & w2 & Hdst0 & H).
  apply bind_ok in H as (dst & w3 & Hdst & H). cbv zeta in H.
  apply bind_ok in H as (bp & w4 & _ & H).
  apply bind_ok in H as (off & w5 & _ & H).
  apply bind_ok in H as (fd & w6 & _ & H).
  apply bind_ok in H as (p & w7 & _ & H).
  apply bind_ok in H as (dem & w8 & Hdem & H).
  apply bind_ok in H as (av & w9 & Hav & H).
  apply bind_ok in H as (al & w10 & Hal & H).
  apply ret_ok in H as [-> _].
  apply choice_in in Horg, Hdst0, Hal.
  destruct (redraw_spec _ _ _ _ _ _ Hdst0 Hdst) as [Hin Hne].
  apply randint_range in Hdem; [ | lia]. apply randint_range in Hav; [ | lia].
  destruct Hprice as (b & o & _ & _ & Hband & Hp). cbn [is_domestic price] in Hband, Hp.
  unfold well_formed_flight.
  cbn [origin destination is_domestic price demand_score availability airline].
  repeat split; try assumption; try lia.
  unfold in_band in Hband.
  destruct (str_in dst (firstn 10 cities));
    destruct (5 <=? weekday (base_date + o)); subst p;
    try lia; split; try (apply Z.div_le_lower_bound; lia);
    try (apply Z.div_le_upper_bound; lia).
Qed.

(** X9.  [generate_sample_data] returns exactly 100 records, and each
    has an origin among the ten Australian cities, a destination among
    the twenty cities that differs from the origin, [is_domestic] true
    exactly when the destination is Australian, a price in [150, 480]
    (domestic) or [800, 3000] (international), a demand score in
    [30, 100], an availability in [10, 200] and one of the five
    airlines. *)
Theorem generated_records_well_formed
    (fuel : nat) (w : World) (routes : list flight) (w' : World) :
  generate_sample_data fuel w = (Ok routes, w') ->
  List.length routes = 100%nat /\ Forall well_formed_flight routes.
Proof.
  unfold generate_sample_data. intros H.
  apply bind_ok in H as (base_date & w1 & _ & H).
  split; [eapply for_range_length; exact H | ].
  eapply for_range_Forall; [ | exact H].
  intros w2 f w3. apply gen_flight_well_formed.
Qed.

(** The hundred records generated in [sample_world]. *)
Lemma sample_records_well_formed :
  let routes := match fst (generate_sample_data 1 sample_world) with
                | Ok routes => routes
                | _ => []
                end in
  routes <> [] /\ List.length routes = 100%nat /\ Forall well_formed_flight routes.
Proof.
  cbv zeta. split; [vm_compute; discriminate | ].
  apply (generated_records_well_formed 1 sample_world _
           (snd (generate_sample_data 1 sample_world))).
  vm_compute. reflexivity.
Defined.


(** *** Grouping into a dict of lists *)

Lemma Zsum_app l1 l2 : Zsum (l1 ++ l2) = Zsum l1 + Zsum l2.
Proof.
  induction l1 as [ | x l1 IH]; [reflexivity | ].
  cbn [app]. rewrite !Zsum_cons, IH. lia.
Qed.

Lemma Zsum_perm l1 l2 : Permutation l1 l2 -> Zsum l1 = Zsum l2.
Proof.
  induction 1; rewrite ?Zsum_cons in *; lia.
Qed.

Lemma Zlen_app {A} (l1 l2 : list A) : Zlen (l1 ++ l2) = Zlen l1 + Zlen l2.
Proof. unfold Zlen. rewrite length_app. lia. Qed.

(** A property of every group that appending to a group keeps. *)
Lemma dict_append_Forall {V} (P : string -> list V -> Prop) k (v : V) d :
  Forall (fun kv => P (fst kv) (snd kv)) d ->
  (forall vs, P k vs -> P k (vs ++ [v])) -> P k [v] ->
  Forall (fun kv => P (fst kv) (snd kv)) (dict_append k v d).
Proof.
  intros Hd Hext Hnew. induction Hd as [ | [k' vs] d Hkv Hd IH]; cbn [dict_append].
  - repeat constructor. exact Hnew.
  - destruct (String.eqb_spec k k') as [-> | _].
    + constructor; [cbn in *; auto | exact Hd].
    + constructor; assumption.
Qed.

Lemma dict_append_count {V} k (v : V) d :
  Zsum (map (fun kv => Zlen (snd kv)) (dict_append k v d))
  = Zsum (map (fun kv => Zlen (snd kv)) d) + 1.
Proof.
  induction d as [ | [k' vs] d IH]; cbn [dict_append map snd].
  - reflexivity.
  - destruct (String.eqb k k'); cbn [map snd]; rewrite !Zsum_cons.
    + rewrite Zlen_app. cbn. lia.
    + rewrite IH. lia.
Qed.

Section Groups.
Context {A V : Type} (key : A -> string) (val : A -> V).

Lemma group_by_ok_acc data seen d :
  Forall (fun kv => group_ok key val seen (fst kv) (snd kv)) d ->
  Forall (fun kv => group_ok key val (seen ++ data) (fst kv) (snd kv))
         (fold_left (fun d x => dict_append (key x) (val x) d) data d).
Proof.
  revert seen d. induction data as [ | x data IH]; intros seen d Hd; cbn [fold_left].
  - now rewrite app_nil_r.
  - replace (seen ++ x :: data) with ((seen ++ [x]) ++ data)
      by (rewrite <- app_assoc; reflexivity).
    apply IH.
    assert (Hx : exists y, In y (seen ++ [x]) /\ key y = key x /\ val y = val x).
    { exists x. split; [apply in_or_app; right; left; reflexivity | auto]. }
    apply (dict_append_Forall (group_ok key val (seen ++ [x]))).
    + eapply Forall_impl; [ | exact Hd]. intros [k vs] [Hne Hall]. split; [exact Hne | ].
      eapply Forall_impl; [ | exact Hall]. intros v (y & Hy & E).
      exists y. split; [apply in_or_app; left; exact Hy | exact E].
    + intros vs [_ Hall]. split; [destruct vs; discriminate | ].
      apply Forall_app. split; [exact Hall | repeat constructor; exact Hx].
    + split; [discriminate | repeat constructor; exact Hx].
Qed.

Lemma group_by_ok data :
  Forall (fun kv => group_ok key val data (fst kv) (snd kv)) (group_by key val data).
Proof. apply (group_by_ok_acc data [] []). constructor. Qed.

(** Every element lands in exactly one group. *)
Lemma group_by_count data :
  Zsum (map (fun kv => Zlen (snd kv)) (group_by key val data)) = Zlen data.
Proof.
  unfold group_by.
  assert (G : forall d,
             Zsum (map (fun kv => Zlen (snd kv))
                       (fold_left (fun d x => dict_append (key x) (val x) d) data d))
             = Zsum (map (fun kv : string * list V => Zlen (snd kv)) d) + Zlen data).
  { induction data as [ | x data IH]; intros d; cbn [fold_left].
    - cbn. lia.
    - rewrite IH, dict_append_count, Zlen_cons. lia. }
  rewrite G. cbn. lia.
Qed.

Lemma group_by_nonempty data : data <> [] -> group_by key val data <> [].
Proof.
  intros Hne E. pose proof (group_by_count data) as C. rewrite E in C.
  destruct data; [congruence | ]. rewrite Zlen_cons in C.
  pose proof (Zlen_nonneg data). cbn [map] in C. unfold Zsum in C.
  cbn [fold_left] in C. lia.
Qed.

End Groups.

(** The mean of a group of bounded ints is a float within the bounds. *)
Lemma mean_within lo hi (vs : list Z) :
  vs <> [] -> - 2 ^ 53 <= lo -> hi <= 2 ^ 53 ->
  Forall (fun v => lo <= v <= hi) vs ->
  exists x, mean vs = Ok x /\ ge_int x lo /\ le_int x hi.
Proof.
  intros Hne Hlo Hhi Hall. unfold mean.
  apply true_divide_bounds; try assumption.
  - destruct vs; [congruence | ]. rewrite Zlen_cons.
    pose proof (Zlen_nonneg vs). lia.
  - split; [apply Zsum_lower | apply Zsum_upper];
      (eapply Forall_impl; [ | exact Hall]); cbv beta; intros; lia.
Qed.

Lemma rmap_Forall2 {A B} (f : A -> result B) l l' :
  rmap f l = Ok l' -> Forall2 (fun a b => f a = Ok b) l l'.
Proof.
  revert l'. induction l as [ | x l IH]; intros l'; cbn [rmap].
  - intros E. apply Ok_inj in E. subst. constructor.
  - destruct (f x) as [y | | ] eqn:Ey; cbn [rbind]; try discriminate.
    destruct (rmap f l) as [ys | | ]; cbn [rbind]; try discriminate.
    intros E. apply Ok_inj in E. subst. constructor; auto.
Qed.

Lemma rmap_ok {A B} (f : A -> result B) l :
  Forall (fun a => exists b, f a = Ok b) l -> exists l', rmap f l = Ok l'.
Proof.
  induction 1 as [ | x l [y Hy] _ [ys Hys]]; cbn [rmap].
  - eauto.
  - rewrite Hy, Hys. cbn [rbind]. eauto.
Qed.


(** *** analyze_popular_routes *)

Lemma route_stats_inv kv e :
  route_stats kv = Ok e ->
  route e = fst kv /\ flight_count e = Zlen (snd kv)
  /\ exists m, mean (snd kv) = Ok m /\ avg_demand e = round_digits m 1.
Proof.
  destruct kv as [k ds]. unfold route_stats, mean. cbn [fst snd].
  destruct (true_divide (Zsum ds) (Zlen ds)) as [m | | ]; cbn [rbind]; try discriminate.
  intros E. apply Ok_inj in E. subst e. cbn. eauto.
Qed.

Lemma route_entries_counts data entries :
  route_entries data = Ok entries ->
  Zsum (map flight_count entries) = Zlen data
  /\ Forall (fun e => 1 <= flight_count e) entries.
Proof.
  unfold route_entries. intros E. apply rmap_Forall2 in E.
  rewrite <- (group_by_count route_key demand_score data).
  pose proof (group_by_ok route_key demand_score data) as Hok.
  induction E as [ | kv e g entries Hkv _ IH]; [split; [reflexivity | constructor] | ].
  inversion Hok as [ | ? ? [Hne _] Hok']; subst.
  apply route_stats_inv in Hkv as (_ & Hc & _).
  destruct (IH Hok') as [IH1 IH2]. cbn [map]. rewrite !Zsum_cons, IH1, Hc.
  split; [reflexivity | ]. constructor; [ | exact IH2].
  rewrite Hc. destruct (snd kv); [congruence | ].
  rewrite Zlen_cons. pose proof (Zlen_nonneg l). lia.
Qed.

Lemma Zsum_nonneg l : Forall (fun z => 0 <= z) l -> 0 <= Zsum l.
Proof.
  intros H. pose proof (Zsum_lower 0 l H). lia.
Qed.

(** X10.  [analyze_popular_routes] counts every flight at most once:
    each returned route has a [flight_count] of at least 1, the counts
    add up to at most the number of records, and to exactly that number
    when there are no more than ten distinct routes. *)
Theorem popular_routes_count_flights
    (data : list flight) (w : World) (out : list route_entry) :
  fst (analyze_popular_routes data w) = Ok out ->
  Forall (fun e => 1 <= flight_count e) out
  /\ Zsum (map flight_count out) <= Zlen data
  /\ ((List.length (uniq (map route_key data)) <= 10)%nat ->
      Zsum (map flight_count out) = Zlen data).
Proof.
  unfold analyze_popular_routes, bind, lift, ret.
  destruct (route_entries data) as [entries | e | ] eqn:E; cbn [fst];
    try discriminate.
  intros H.
  assert (Hout : out = firstn 10 (sorted_reverse avg_demand entries)) by congruence.
  clear H. subst out.
  destruct (route_entries_counts data entries E) as [Hsum Hpos].
  pose proof (sorted_reverse_perm avg_demand entries) as Hperm.
  set (sorted := sorted_reverse avg_demand entries) in *.
  assert (Hpos' : Forall (fun e => 1 <= flight_count e) sorted).
  { rewrite Forall_forall in *. intros x Hx. apply Hpos.
    eapply Permutation_in; [apply Permutation_sym, Hperm | exact Hx]. }
  assert (Hsum' : Zsum (map flight_count sorted) = Zlen data).
  { rewrite <- Hsum. apply Zsum_perm, Permutation_map, Permutation_sym, Hperm. }
  rewrite <- (firstn_skipn 10 sorted) in Hsum', Hpos'.
  rewrite map_app, Zsum_app in Hsum'. apply Forall_app in Hpos' as [Hf Hs].
  split; [exact Hf | ]. split.
  - assert (0 <= Zsum (map flight_count (skipn 10 sorted))); [ | lia].
    apply Zsum_nonneg. apply Forall_forall. intros z Hz.
    apply in_map_iff in Hz as (x & <- & Hx). rewrite Forall_forall in Hs.
    specialize (Hs x Hx). lia.
  - intros Hlen.
    assert (L : (List.length sorted <= 10)%nat).
    { rewrite <- (Permutation_length Hperm), <- (length_map route).
      rewrite (route_entries_routes data entries E). exact Hlen. }
    rewrite <- Hsum'. rewrite (skipn_all2 sorted L). cbn [map]. cbn. lia.
Qed.

(** The ranking of [sample_flights]: five flights on four routes. *)
Lemma sample_routes_counted :
  let out := match fst (analyze_popular_routes sample_flights sample_world) with
             | Ok l => l
             | _ => []
             end in
  map flight_count out = [2; 1; 1; 1]
  /\ Forall (fun e => 1 <= flight_count e) out
  /\ Zsum (map flight_count out) <= Zlen sample_flights
  /\ ((List.length (uniq (map route_key sample_flights)) <= 10)%nat ->
      Zsum (map flight_count out) = Zlen sample_flights).
Proof.
  cbv zeta. split; [vm_compute; reflexivity | ].
  apply (popular_routes_count_flights sample_flights sample_world).
  vm_compute. reflexivity.
Defined.

Lemma route_stats_within lo hi data kv :
  - 2 ^ 53 <= lo -> lo <= hi -> hi <= 2 ^ 53 ->
  Forall (fun f => lo <= demand_score f <= hi) data ->
  group_ok route_key demand_score data (fst kv) (snd kv) ->
  exists e, route_stats kv = Ok e
            /\ ge_int (avg_demand e) lo /\ le_int (avg_demand e) hi.
Proof.
  intros Hlo Hle Hhi Hdata [Hne Hall].
  destruct (mean_within lo hi (snd kv) Hne Hlo Hhi) as (m & Em & G & L).
  { rewrite Forall_forall in *. intros v Hv.
    destruct (Hall v Hv) as (f & Hf & _ & <-). auto. }
  destruct kv as [k ds]. unfold route_stats. unfold mean in Em. cbn [snd] in *.
  rewrite Em. cbn [rbind]. eexists. split; [reflexivity | ]. cbn [avg_demand].
  split; [apply round_digits_ge | apply round_digits_le]; try assumption; lia.
Qed.

Lemma route_entries_bounded (data : list flight) (lo hi : Z) :
  - 2 ^ 53 <= lo -> lo <= hi -> hi <= 2 ^ 53 ->
  Forall (fun f => lo <= demand_score f <= hi) data ->
  exists entries,
    route_entries data = Ok entries
    /\ Forall (fun e => ge_int (avg_demand e) lo /\ le_int (avg_demand e) hi) entries.
Proof.
  intros Hlo Hle Hhi Hdata.
  pose proof (group_by_ok route_key demand_score data) as Hok.
  unfold route_entries.
  induction Hok as [ | kv g Hkv _ (entries & E & F)]; cbn [rmap].
  - exists []. split; [reflexivity | constructor].
  - destruct (route_stats_within lo hi data kv Hlo Hle Hhi Hdata Hkv)
      as (e & -> & Ge). cbn [rbind]. rewrite E. cbn [rbind].
    exists (e :: entries). split; [reflexivity | constructor; assumption].
Qed.

(** What holds of every entry holds of the top of the ranking. *)
Lemma top_Forall (P : route_entry -> Prop) n entries :
  Forall P entries -> Forall P (firstn n (sorted_reverse avg_demand entries)).
Proof.
  intros F. apply Forall_forall. intros e He. apply (in_firstn avg_demand) in He.
  apply (Permutation_in _ (Permutation_sym (sorted_reverse_perm avg_demand entries)))
    in He.
  rewrite Forall_forall in F. auto.
Qed.

(** X11.  When every demand score lies between two bounds of at most 53
    bits, [analyze_popular_routes] returns (no division overflows) and
    every [avg_demand] it reports lies between the same bounds. *)
Theorem popular_routes_means_bounded
    (data : list flight) (w : World) (lo hi : Z) :
  - 2 ^ 53 <= lo -> lo <= hi -> hi <= 2 ^ 53 ->
  Forall (fun f => lo <= demand_score f <= hi) data ->
  exists out,
    fst (analyze_popular_routes data w) = Ok out
    /\ Forall (fun e => (inject_Z lo <= value (avg_demand e))%Q
                        /\ (value (avg_demand e) <= inject_Z hi)%Q) out.
Proof.
  intros Hlo Hle Hhi Hdata.
  destruct (route_entries_bounded data lo hi Hlo Hle Hhi Hdata) as (entries & E & F).
  unfold analyze_popular_routes, bind, lift, ret. rewrite E. cbn [fst].
  eexists. split; [reflexivity | ].
  eapply Forall_impl; [ | apply top_Forall; exact F]. cbv beta.
  intros e [G L]. split; [apply ge_int_value, G | apply le_int_value, L].
Qed.

Lemma sample_routes_bounded :
  exists out,
    fst (analyze_popular_routes sample_flights sample_world) = Ok out
    /\ Forall (fun e => (inject_Z 30 <= value (avg_demand e))%Q
                        /\ (value (avg_demand e) <= inject_Z 100)%Q) out.
Proof.
  apply (popular_routes_means_bounded sample_flights sample_world 30 100);
    try lia.
  repeat constructor; cbn; lia.
Defined.


(** *** get_demand_insights *)

Lemma argmax_spec best l :
  In (argmax best l) (best :: l)
  /\ forall kv, In kv (best :: l) -> (value (snd kv) <= value (snd (argmax best l)))%Q.
Proof.
  revert best. induction l as [ | x l IH]; intros best; cbn [argmax].
  - split; [left; reflexivity | ]. intros kv [<- | []]. apply Qle_refl.
  - destruct (IH (if flt_bool (snd best) (snd x) then x else best)) as [Hin Hmax].
    split.
    + destruct Hin as [E | Hin]; [ | right; right; exact Hin].
      rewrite <- E. destruct (flt_bool (snd best) (snd x)); [right | ]; left; reflexivity.
    + assert (Hc : (value (snd best)
                    <= value (snd (if flt_bool (snd best) (snd x) then x else best)))%Q
                   /\ (value (snd x)
                       <= value (snd (if flt_bool (snd best) (snd x) then x else best)))%Q).
      { unfold flt_bool.
        destruct (Qle_bool (value (snd x)) (value (snd best))) eqn:E; cbn [negb].
        - apply Qle_bool_iff in E. split; [apply Qle_refl | exact E].
        - split; [ | apply Qle_refl].
          destruct (Qlt_le_dec (value (snd best)) (value (snd x))) as [L | L].
          + apply Qlt_le_weak, L.
          + apply Qle_bool_iff in L. congruence. }
      destruct Hc as [Hb Hx].
      intros kv [<- | [<- | Hkv]].
      * eapply Qle_trans; [exact Hb | apply Hmax; left; reflexivity].
      * eapply Qle_trans; [exact Hx | apply Hmax; left; reflexivity].
      * apply Hmax. right. exact Hkv.
Qed.

Lemma max_by_value_spec d peak :
  max_by_value d = Ok peak ->
  In peak d /\ forall kv, In kv d -> (value (snd kv) <= value (snd peak))%Q.
Proof.
  destruct d as [ | kv d]; cbn [max_by_value]; [discriminate | ].
  intros E. apply Ok_inj in E. subst peak. apply argmax_spec.
Qed.

(** What [get_demand_insights] has computed when it returns. *)
Lemma insights_inv (data : list flight) (w : World) (l : list string) :
  fst (get_demand_insights data w) = Ok l ->
  exists means peak,
    weekday_means data = Ok means
    /\ max_by_value means = Ok peak
    /\ nth 0 l "" = peak_sentence peak
    /\ List.length l = if both_kinds data then 2%nat else 1%nat.
Proof.
  destruct (get_demand_insights data w) as [r w'] eqn:H. cbn [fst]. intros ->.
  unfold get_demand_insights in H.
  apply bind_ok in H as (days & w1 & Hdays & H). apply lift_ok in Hdays as [Hdays _].
  cbv zeta in H.
  apply bind_ok in H as (means & w2 & Hmeans & H). apply lift_ok in Hmeans as [Hmeans _].
  apply bind_ok in H as (peak & w3 & Hpeak & H). apply lift_ok in Hpeak as [Hpeak _].
  exists means, peak.
  split; [unfold weekday_means; rewrite Hdays; exact Hmeans | ].
  split; [exact Hpeak | ].
  unfold both_kinds, peak_sentence.
  destruct (filter is_domestic data) as [ | fd ds].
  { apply ret_ok in H as [-> _]. split; reflexivity. }
  destruct (filter (fun f => negb (is_domestic f)) data) as [ | fi fis].
  { apply ret_ok in H as [-> _]. split; reflexivity. }
  apply bind_ok in H as (a & w4 & _ & H).
  apply bind_ok in H as (b & w5 & _ & H).
  destruct (flt_bool b a); apply ret_ok in H as [-> _]; split; reflexivity.
Qed.

(** X12.  When [get_demand_insights] returns, its first sentence names
    a weekday of the table of weekday means whose mean is the highest of
    the table, formatted to one decimal; and it returns two sentences
    when both domestic and international records are present, otherwise
    one. *)
Theorem insights_name_the_peak_day
    (data : list flight) (w : World) (l : list string) :
  fst (get_demand_insights data w) = Ok l ->
  exists means peak,
    weekday_means data = Ok means
    /\ In peak means
    /\ (forall kv, In kv means -> (value (snd kv) <= value (snd peak))%Q)
    /\ nth 0 l "" = peak_sentence peak
    /\ List.length l = if both_kinds data then 2%nat else 1%nat.
Proof.
  intros H.
  destruct (insights_inv data w l H) as (means & peak & Hmeans & Hpeak & Hfirst & Hlen).
  destruct (max_by_value_spec _ _ Hpeak) as [Hin Hmax].
  exists means, peak. auto.
Qed.

(** The insights of [sample_flights]: Sunday, with mean 91.0. *)
Lemma sample_peak_day :
  let l := match fst (get_demand_insights sample_flights sample_world) with
           | Ok l => l
           | _ => []
           end in
  exists means peak,
    weekday_means sample_flights = Ok means
    /\ In peak means
    /\ (forall kv, In kv means -> (value (snd kv) <= value (snd peak))%Q)
    /\ nth 0 l "" = peak_sentence peak
    /\ List.length l = if both_kinds sample_flights then 2%nat else 1%nat.
Proof.
  cbv zeta. apply (insights_name_the_peak_day sample_flights sample_world).
  vm_compute. reflexivity.
Defined.

Lemma weekday_of_inv f p :
  weekday_of f = Ok p -> snd p = demand_score f.
Proof.
  unfold weekday_of. destruct (strptime_ymd (date f)); cbn [rbind]; try discriminate.
  intros E. apply Ok_inj in E. now subst p.
Qed.

Lemma Forall2_nonempty {A B} (R : A -> B -> Prop) l l' :
  Forall2 R l l' -> l <> [] -> l' <> [].
Proof. destruct 1; [congruence | discriminate]. Qed.

Lemma partition_mean_ok (keep : flight -> bool) data f fs :
  Forall readable data -> filter keep data = f :: fs ->
  exists m, mean (map demand_score (f :: fs)) = Ok m.
Proof.
  intros Hr E.
  destruct (mean_within (- 2 ^ 53) (2 ^ 53) (map demand_score (f :: fs)))
    as (m & Em & _); try lia; [discriminate | | eauto].
  rewrite <- E. apply Forall_forall. intros z Hz.
  apply in_map_iff in Hz as (g & <- & Hg). apply filter_In in Hg as [Hg _].
  rewrite Forall_forall in Hr. destruct (Hr g Hg) as [_ F]. exact F.
Qed.

(** The table of weekday means exists and is not empty. *)
Lemma weekday_means_ok (data : list flight) :
  data <> [] -> Forall readable data ->
  exists means, weekday_means data = Ok means /\ means <> [].
Proof.
  intros Hne Hr.
  destruct (rmap_ok weekday_of data) as [days Hdays].
  { eapply Forall_impl; [ | exact Hr]. intros f [[d Hd] _].
    unfold weekday_of. rewrite Hd. cbn [rbind]. eauto. }
  pose proof (rmap_Forall2 _ _ _ Hdays) as F2.
  assert (Hfit : Forall (fun p : string * Z => fits_double (snd p)) days).
  { clear Hdays Hne. induction F2 as [ | f p data days Hp _ IH]; [constructor | ].
    inversion Hr as [ | ? ? [_ Hf] Hr']; subst.
    constructor; [rewrite (weekday_of_inv _ _ Hp); exact Hf | auto]. }
  pose proof (Forall2_nonempty _ _ _ F2 Hne) as Hdne.
  pose proof (group_by_ok fst snd days) as Hok.
  pose proof (group_by_nonempty fst snd days Hdne) as Hgne.
  destruct (rmap_ok (fun kv : string * list Z =>
                       let? a := mean (snd kv) in Ok (fst kv, a))
                    (group_by fst snd days)) as [means Hmeans].
  { eapply Forall_impl; [ | exact Hok]. intros [k vs] [Hvne Hall]. cbn [fst snd] in *.
    destruct (mean_within (- 2 ^ 53) (2 ^ 53) vs Hvne) as (m & -> & _); try lia.
    - rewrite Forall_forall in *. intros v Hv.
      destruct (Hall v Hv) as (x & Hx & _ & <-). apply (Hfit x Hx).
    - cbn [rbind]. eauto. }
  pose proof (Forall2_nonempty _ _ _ (rmap_Forall2 _ _ _ Hmeans) Hgne) as Hmne.
  exists means. split; [ | exact Hmne].
  unfold weekday_means. rewrite Hdays. exact Hmeans.
Qed.

(** With the table at hand, the sentences are built without failure. *)
Lemma insights_from_means (data : list flight) (w : World) means :
  weekday_means data = Ok means -> means <> [] -> Forall readable data ->
  exists l, get_demand_insights data w = (Ok l, w).
Proof.
  intros Hmeans Hmne Hr. unfold weekday_means in Hmeans.
  destruct (rmap weekday_of data) as [days | | ] eqn:Hdays;
    cbn [rbind] in Hmeans; try discriminate.
  unfold get_demand_insights, bind, lift, ret. rewrite Hdays. cbv zeta.
  rewrite Hmeans. destruct means as [ | kv means]; [congruence | ].
  cbn [max_by_value].
  destruct (filter is_domestic data) as [ | fd ds] eqn:Ed; [eexists; reflexivity | ].
  destruct (filter (fun f => negb (is_domestic f)) data) as [ | fi fis] eqn:Ei;
    [eexists; reflexivity | ].
  destruct (partition_mean_ok _ data fd ds Hr Ed) as [a ->].
  destruct (partition_mean_ok _ data fi fis Hr Ei) as [b ->].
  destruct (flt_bool b a); eexists; reflexivity.
Qed.

(** X13.  [get_demand_insights] returns (it raises nothing) on every
    non-empty record list whose dates can be read and whose demand
    scores are ints of at most 53 bits. *)
Theorem insights_returned_for_readable_records (data : list flight) (w : World) :
  data <> [] -> Forall readable data ->
  exists l, fst (get_demand_insights data w) = Ok l.
Proof.
  intros Hne Hr.
  destruct (weekday_means_ok data Hne Hr) as (means & Hmeans & Hmne).
  destruct (insights_from_means data w means Hmeans Hmne Hr) as (l & Hl).
  exists l. rewrite Hl. reflexivity.
Qed.

Lemma sample_flights_readable : Forall readable sample_flights.
Proof.
  repeat constructor; try (eexists; vm_compute; reflexivity);
    cbn; unfold fits_double; lia.
Qed.

Lemma sample_insights_returned :
  exists l, fst (get_demand_insights sample_flights sample_world) = Ok l.
Proof.
  apply (insights_returned_for_readable_records sample_flights sample_world);
    [discriminate | exact sample_flights_readable].
Defined.

Lemma rmap_raise {A B} (f : A -> result B) good bad rest e :
  Forall (fun a => exists b, f a = Ok b) good -> f bad = Raise e ->
  rmap f (good ++ bad :: rest) = Raise e.
Proof.
  intros Hg Hb. induction Hg as [ | x good [y Hy] _ IH]; cbn [app rmap].
  - now rewrite Hb.
  - rewrite Hy, IH. reflexivity.
Qed.

(** X14.  A date in ASCII text that [strptime] cannot read makes the
    whole call fail: [get_demand_insights] raises the [ValueError] of
    the first such record, whatever the records behind it are. *)
Theorem insights_fail_on_unreadable_date
    (good : list flight) (bad : flight) (rest : list flight) (w : World) (e : exn) :
  Forall (fun f => exists d, strptime_ymd (date f) = Ok d) good ->
  ascii_text (date bad) = true ->
  strptime_ymd (date bad) = Raise e ->
  fst (get_demand_insights (good ++ bad :: rest) w) = Raise e
  /\ exn_class e = ValueError.
Proof.
  intros Hg _ Hb.
  assert (E : rmap weekday_of (good ++ bad :: rest) = Raise e).
  { apply rmap_raise.
    - eapply Forall_impl; [ | exact Hg]. intros f [d Hd].
      unfold weekday_of. rewrite Hd. cbn [rbind]. eauto.
    - unfold weekday_of. now rewrite Hb. }
  split.
  - unfold get_demand_insights, bind, lift. now rewrite E.
  - unfold strptime_ymd in Hb.
    destruct (match_ymd (date bad)) as [[[[y m] d] [ | c left_over]] | ].
    + destruct (y =? 0); [injection Hb as <-; reflexivity | ].
      destruct (days_in_month y m <? d); [injection Hb as <-; reflexivity | discriminate].
    + injection Hb as <-. reflexivity.
    + injection Hb as <-. reflexivity.
Qed.

(** A day written with three digits in the second record of five. *)
Lemma misdated_record_fails :
  fst (get_demand_insights (firstn 1 sample_flights ++ misdated_flight
                              :: skipn 1 sample_flights) sample_world)
  = Raise (Exn ValueError "unconverted data remains: 5")
  /\ exn_class (Exn ValueError "unconverted data remains: 5") = ValueError.
Proof.
  apply (insights_fail_on_unreadable_date (firstn 1 sample_flights) misdated_flight
           (skipn 1 sample_flights) sample_world
           (Exn ValueError "unconverted data remains: 5")).
  - repeat constructor. eexists. vm_compute. reflexivity.
  - vm_compute. reflexivity.
  - vm_compute. reflexivity.
Defined.


(** *** analyze_price_trends *)

Lemma filter_perm {A} (keep : A -> bool) l l' :
  Permutation l l' -> Permutation (filter keep l) (filter keep l').
Proof.
  induction 1 as [ | x l l' _ IH | x y l | l l' l'' _ IH1 _ IH2]; cbn [filter].
  - constructor.
  - destruct (keep x); [constructor | ]; exact IH.
  - destruct (keep x), (keep y); try reflexivity. apply perm_swap.
  - etransitivity; eassumption.
Qed.

Lemma Zmin_list_perm p ps q qs :
  Permutation (p :: ps) (q :: qs) -> Zmin_list p ps = Zmin_list q qs.
Proof.
  intros H.
  assert (L : forall a l b m, Permutation (a :: l) (b :: m) ->
                              Zmin_list a l <= Zmin_list b m).
  { intros a l b m Hp.
    assert (I : In (Zmin_list b m) (a :: l)).
    { apply (Permutation_in _ (Permutation_sym Hp)).
      apply (Zmin_list_pick (fun z => In z (b :: m)));
        [left; reflexivity | ].
      apply Forall_forall. intros z Hz. right. exact Hz. }
    destruct (Zmin_list_le a l) as [Ha Hl]. rewrite Forall_forall in Hl.
    destruct I as [<- | I]; auto. }
  pose proof (L _ _ _ _ H). pose proof (L _ _ _ _ (Permutation_sym H)). lia.
Qed.

Lemma Zmax_list_perm p ps q qs :
  Permutation (p :: ps) (q :: qs) -> Zmax_list p ps = Zmax_list q qs.
Proof.
  intros H.
  assert (L : forall a l b m, Permutation (a :: l) (b :: m) ->
                              Zmax_list b m <= Zmax_list a l).
  { intros a l b m Hp.
    assert (I : In (Zmax_list b m) (a :: l)).
    { apply (Permutation_in _ (Permutation_sym Hp)).
      apply (Zmax_list_pick (fun z => In z (b :: m)));
        [left; reflexivity | ].
      apply Forall_forall. intros z Hz. right. exact Hz. }
    destruct (Zmax_list_ge a l) as [Ha Hl]. rewrite Forall_forall in Hl.
    destruct I as [<- | I]; auto. }
  pose proof (L _ _ _ _ H). pose proof (L _ _ _ _ (Permutation_sym H)). lia.
Qed.

Lemma rounded_mean_perm ps qs :
  Permutation ps qs -> rounded_mean ps = rounded_mean qs.
Proof.
  intros H. destruct ps as [ | p ps], qs as [ | q qs]; try reflexivity.
  - apply Permutation_nil in H. discriminate.
  - apply Permutation_sym, Permutation_nil in H. discriminate.
  - unfold rounded_mean, Zlen.
    now rewrite (Zsum_perm _ _ H), (Permutation_length H).
Qed.

Lemma range_str_perm ps qs :
  Permutation ps qs -> range_str ps = range_str qs.
Proof.
  intros H. destruct ps as [ | p ps], qs as [ | q qs]; try reflexivity.
  - apply Permutation_nil in H. discriminate.
  - apply Permutation_sym, Permutation_nil in H. discriminate.
  - unfold range_str. now rewrite (Zmin_list_perm _ _ _ _ H), (Zmax_list_perm _ _ _ _ H).
Qed.

(** X15.  [analyze_price_trends] does not depend on the order of the
    records: two lists that are permutations of each other give the same
    averages and the same range strings (or the same exception). *)
Theorem price_trends_ignore_order (data data' : list flight) (w w' : World) :
  Permutation data data' ->
  fst (analyze_price_trends data w) = fst (analyze_price_trends data' w').
Proof.
  intros H.
  assert (Hd : Permutation (domestic_prices data) (domestic_prices data'))
    by (apply Permutation_map, filter_perm, H).
  assert (Hi : Permutation (international_prices data) (international_prices data'))
    by (apply Permutation_map, filter_perm, H).
  unfold analyze_price_trends, bind, lift, ret. cbv zeta.
  rewrite (rounded_mean_perm _ _ Hd), (rounded_mean_perm _ _ Hi).
  rewrite (range_str_perm _ _ Hd), (range_str_perm _ _ Hi).
  destruct (rounded_mean (domestic_prices data')); try reflexivity.
  destruct (rounded_mean (international_prices data')); reflexivity.
Qed.

(** [sample_flights] read backwards. *)
Lemma sample_trends_reversed :
  fst (analyze_price_trends sample_flights sample_world)
  = fst (analyze_price_trends (rev sample_flights) sample_world).
Proof.
  apply (price_trends_ignore_order sample_flights (rev sample_flights)
           sample_world sample_world).
  apply Permutation_rev.
Defined.

End AppMore.

(** ** Dates: printing and reading back *)

Module CalendarFacts.
Import Spec SpecMore GenFacts MonadFacts.

Lemma month_day_spec leapyear n :
  0 <= n < 365 -> month_day_ok leapyear n = true.
Proof.
  intros H. destruct leapyear.
  - apply (forall_range (month_day_ok true) 0 365); [vm_compute; reflexivity | lia].
  - apply (forall_range (month_day_ok false) 0 365); [vm_compute; reflexivity | lia].
Qed.

Lemma days_before_month_leap y m :
  days_before_month y m
  = days_before_month 1 m + (if (2 <? m) && is_leap y then 1 else 0).
Proof.
  unfold days_before_month. change (is_leap 1) with false.
  rewrite andb_false_r. lia.
Qed.

Lemma days_in_month_leap y m :
  days_in_month y m = days_in_month 1 m + (if (m =? 2) && is_leap y then 1 else 0).
Proof.
  unfold days_in_month. change (is_leap 1) with false.
  destruct (m =? 2); cbn [andb]; [destruct (is_leap y); reflexivity | ].
  destruct ((m =? 4) || (m =? 6) || (m =? 9) || (m =? 11)); lia.
Qed.

Lemma leap_by_parts a b c e :
  0 <= a -> 0 <= b <= 3 -> 0 <= c <= 24 -> 0 <= e <= 3 ->
  is_leap (a * 400 + 1 + b * 100 + c * 4 + e) = (e =? 3) && (negb (c =? 24) || (b =? 3)).
Proof.
  intros. unfold is_leap.
  destruct (Z.eqb_spec e 3), (Z.eqb_spec c 24), (Z.eqb_spec b 3);
    repeat match goal with
           | |- context [?x =? 0] => destruct (Z.eqb_spec x 0)
           end;
    cbn; try reflexivity; exfalso; Z.div_mod_to_equations; lia.
Qed.

Lemma year_by_parts a b c e :
  0 <= a -> 0 <= b <= 3 -> 0 <= c <= 24 -> 0 <= e <= 3 ->
  days_before_year (a * 400 + 1 + b * 100 + c * 4 + e)
  = 146097 * a + 36524 * b + 1461 * c + 365 * e.
Proof.
  intros. unfold days_before_year. cbv zeta. Z.div_mod_to_equations. lia.
Qed.

(** [ord2ymd] is a date of the calendar, and [ymd2ord] leads back. *)
Lemma ord2ymd_spec n :
  1 <= n ->
  exists y m d,
    ord2ymd n = (y, m, d)
    /\ ymd2ord y m d = n
    /\ 1 <= y /\ 1 <= m <= 12 /\ 1 <= d <= days_in_month y m
    /\ days_before_year y < n <= days_before_year (y + 1).
Proof.
  intros Hn. unfold ord2ymd. cbv zeta.
  set (n0 := n - 1).
  set (a := n0 / 146097). set (r400 := n0 mod 146097).
  set (b := r400 / 36524). set (r100 := r400 mod 36524).
  set (c := r100 / 1461). set (r4 := r100 mod 1461).
  set (e := r4 / 365). set (r := r4 mod 365).
  assert (Ha : 0 <= a /\ n0 = 146097 * a + r400 /\ 0 <= r400 < 146097)
    by (subst a r400 n0; Z.div_mod_to_equations; lia).
  assert (Hb : 0 <= b <= 4 /\ r400 = 36524 * b + r100 /\ 0 <= r100 < 36524)
    by (subst b r100; Z.div_mod_to_equations; lia).
  assert (Hc : 0 <= c <= 24 /\ r100 = 1461 * c + r4 /\ 0 <= r4 < 1461)
    by (subst c r4; Z.div_mod_to_equations; lia).
  assert (He : 0 <= e <= 4 /\ r4 = 365 * e + r /\ 0 <= r < 365)
    by (subst e r; Z.div_mod_to_equations; lia).
  clearbody a r400 b r100 c r4 e r. subst n0.
  destruct (Z.eqb_spec e 4) as [E4 | E4]; cbn [orb].
  { (* the last day of a leap year *)
    assert (c <= 23) by lia. assert (b <= 3) by lia.
    exists (a * 400 + 1 + b * 100 + c * 4 + e - 1), 12, 31.
    split; [reflexivity | ].
    assert (L : is_leap (a * 400 + 1 + b * 100 + c * 4 + e - 1) = true).
    { subst e. unfold is_leap.
      repeat match goal with
             | |- context [?x =? 0] => destruct (Z.eqb_spec x 0)
             end;
        cbn; try reflexivity; exfalso; Z.div_mod_to_equations; lia. }
    assert (D : days_before_year (a * 400 + 1 + b * 100 + c * 4 + e - 1)
                = 146097 * a + 36524 * b + 1461 * c + 1095).
    { subst e. unfold days_before_year. cbv zeta. Z.div_mod_to_equations. lia. }
    assert (D' : days_before_year (a * 400 + 1 + b * 100 + c * 4 + e - 1 + 1)
                 = 146097 * a + 36524 * b + 1461 * c + 1461).
    { subst e. unfold days_before_year. cbv zeta. Z.div_mod_to_equations. lia. }
    unfold ymd2ord. rewrite days_before_month_leap, days_in_month_leap, L, D, D'.
    change (days_before_month 1 12) with 334. change (days_in_month 1 12) with 31.
    change ((2 <? 12) && true) with true. change ((12 =? 2) && true) with false.
    cbv iota. lia. }
  destruct (Z.eqb_spec b 4) as [B4 | B4].
  { (* the last day of a 400-year cycle *)
    assert (c = 0 /\ e = 0 /\ r = 0) as (-> & -> & ->) by lia.
    exists (a * 400 + 1 + b * 100 + 0 * 4 + 0 - 1), 12, 31.
    split; [reflexivity | ].
    assert (L : is_leap (a * 400 + 1 + b * 100 + 0 * 4 + 0 - 1) = true).
    { subst b. unfold is_leap.
      repeat match goal with
             | |- context [?x =? 0] => destruct (Z.eqb_spec x 0)
             end;
        cbn; try reflexivity; exfalso; Z.div_mod_to_equations; lia. }
    assert (D : days_before_year (a * 400 + 1 + b * 100 + 0 * 4 + 0 - 1)
                = 146097 * a + 145731).
    { subst b. unfold days_before_year. cbv zeta. Z.div_mod_to_equations. lia. }
    assert (D' : days_before_year (a * 400 + 1 + b * 100 + 0 * 4 + 0 - 1 + 1)
                 = 146097 * a + 146097).
    { subst b. unfold days_before_year. cbv zeta. Z.div_mod_to_equations. lia. }
    unfold ymd2ord. rewrite days_before_month_leap, days_in_month_leap, L, D, D'.
    change (days_before_month 1 12) with 334. change (days_in_month 1 12) with 31.
    change ((2 <? 12) && true) with true. change ((12 =? 2) && true) with false.
    cbv iota. lia. }
  (* any other day *)
  set (year := a * 400 + 1 + b * 100 + c * 4 + e).
  set (leapyear := (e =? 3) && (negb (c =? 24) || (b =? 3))).
  assert (L : is_leap year = leapyear) by (apply leap_by_parts; lia).
  assert (D : days_before_year year = 146097 * a + 36524 * b + 1461 * c + 365 * e)
    by (apply year_by_parts; lia).
  assert (D' : days_before_year year + 365 <= days_before_year (year + 1))
    by (unfold days_before_year; cbv zeta; Z.div_mod_to_equations; lia).
  pose proof (month_day_spec leapyear r ltac:(lia)) as Hmd.
  unfold month_day_ok in Hmd.
  exists year, (fst (month_day leapyear r)), (snd (month_day leapyear r)).
  split.
  { unfold month_day. cbv zeta.
    destruct (r <? _); reflexivity. }
  destruct (month_day leapyear r) as [m d]. cbn [fst snd].
  repeat (apply andb_prop in Hmd as [Hmd ?]).
  unfold ymd2ord. rewrite days_before_month_leap, days_in_month_leap, L.
  rewrite D in *. repeat split; try lia.
Qed.

(** A date of the calendar with a four-digit year, printed as
    year-month-day, is read back as itself. *)
Lemma print_then_parse y m d :
  1000 <= y <= 9999 -> 1 <= m <= 12 -> 1 <= d <= days_in_month y m ->
  strptime_ymd (zero_pad 4 y ++ "-" ++ zero_pad 2 m ++ "-" ++ zero_pad 2 d)
  = Ok (ymd2ord y m d).
Proof.
  intros Hy Hm Hd.
  assert (Hd31 : d <= 31).
  { unfold days_in_month in Hd.
    destruct (m =? 2); [destruct (is_leap y); lia | ].
    destruct ((m =? 4) || (m =? 6) || (m =? 9) || (m =? 11)); lia. }
  pose proof (forall_range year_ok 1000 (Z.to_nat 9000) ltac:(vm_compute; reflexivity) y
                ltac:(lia)) as Yk.
  pose proof (forall_range month_ok 1 12 ltac:(vm_compute; reflexivity) m
                ltac:(lia)) as Mk.
  pose proof (forall_range (month_day_read m) 1 31 Mk d ltac:(lia)) as Dk.
  unfold year_ok in Yk. unfold month_day_read in Dk.
  destruct (zero_pad 4 y) as [ | c1 [ | c2 [ | c3 [ | c4 [ | ? ?]]]]];
    try discriminate.
  destruct (digit c1) as [v1 | ] eqn:E1; [ | discriminate].
  destruct (digit c2) as [v2 | ] eqn:E2; [ | discriminate].
  destruct (digit c3) as [v3 | ] eqn:E3; [ | discriminate].
  destruct (digit c4) as [v4 | ] eqn:E4; [ | discriminate].
  apply Z.eqb_eq in Yk.
  cbn [append] in Dk |- *. unfold strptime_ymd, match_ymd, four_digit_year.
  rewrite E1, E2, E3, E4, Yk.
  destruct (month_and_day _) as [[[m' d'] [ | ? ?]] | ]; try discriminate.
  apply andb_prop in Dk as [Em Ed]. apply Z.eqb_eq in Em, Ed. subst m' d'.
  destruct (Z.eqb_spec y 0); [lia | ].
  destruct (Z.ltb_spec (days_in_month y m) d); [lia | reflexivity].
Qed.

(** Every day from 1000-01-01 to 9999-12-31 survives
    [strftime('%Y-%m-%d')] followed by [strptime]. *)
Lemma date_round_trip n :
  first_ordinal <= n <= max_ordinal -> strptime_ymd (strftime_ymd n) = Ok n.
Proof.
  intros Hn. unfold first_ordinal, max_ordinal in Hn.
  destruct (ord2ymd_spec n ltac:(lia)) as (y & m & d & E & Hord & Hy & Hm & Hd & Hr).
  unfold strftime_ymd. rewrite E. rewrite <- Hord.
  apply print_then_parse; try assumption.
  unfold days_before_year in Hr. cbv zeta in Hr.
  split; Z.div_mod_to_equations; lia.
Qed.

(** *** ISO dates compare as the days they name *)

Lemma days_in_month_le y m : days_in_month y m <= 31.
Proof.
  unfold days_in_month.
  destruct (m =? 2); [destruct (is_leap y); lia | ].
  destruct ((m =? 4) || (m =? 6) || (m =? 9) || (m =? 11)); lia.
Qed.

Lemma digit_order i j :
  0 <= i <= 9 -> 0 <= j <= 9 ->
  Ascii.compare (digit_char i) (digit_char j) = (i ?= j).
Proof.
  intros Hi Hj.
  pose proof (forall_range digit_order_ok 0 10 ltac:(vm_compute; reflexivity) i
                ltac:(lia)) as H.
  unfold digit_order_ok in H. rewrite forallb_forall in H.
  specialize (H j). unfold same_comparison in H.
  destruct (Ascii.compare (digit_char i) (digit_char j)), (i ?= j);
    try reflexivity; exfalso;
    (assert (false = true); [ | discriminate]); apply H;
    apply in_map_iff; exists (Z.to_nat j); (split; [lia | apply in_seq; lia]).
Qed.

Lemma compare_digit_cons i j s t :
  0 <= i <= 9 -> 0 <= j <= 9 ->
  String.compare (String (digit_char i) s) (String (digit_char j) t)
  = match i ?= j with
    | Eq => String.compare s t
    | c => c
    end.
Proof.
  intros Hi Hj. cbn [String.compare]. rewrite (digit_order i j Hi Hj).
  destruct (i ?= j); reflexivity.
Qed.

Lemma compare_dash_cons s t :
  String.compare (String "-" s) (String "-" t) = String.compare s t.
Proof. reflexivity. Qed.

Lemma four_digits_parts y :
  1000 <= y <= 9999 ->
  exists a b c e,
    0 <= a <= 9 /\ 0 <= b <= 9 /\ 0 <= c <= 9 /\ 0 <= e <= 9
    /\ y = 1000 * a + 100 * b + 10 * c + e
    /\ zero_pad 4 y
       = String (digit_char a)
           (String (digit_char b) (String (digit_char c) (String (digit_char e) ""))).
Proof.
  intros Hy.
  pose proof (forall_range four_digits_ok 1000 (Z.to_nat 9000)
                ltac:(vm_compute; reflexivity) y ltac:(lia)) as H.
  apply String.eqb_eq in H.
  exists (y / 1000), (y / 100 mod 10), (y / 10 mod 10), (y mod 10).
  repeat split; try exact H; Z.div_mod_to_equations; lia.
Qed.

Lemma two_digits_parts m :
  1 <= m <= 31 ->
  exists a b,
    0 <= a <= 9 /\ 0 <= b <= 9 /\ m = 10 * a + b
    /\ zero_pad 2 m = String (digit_char a) (String (digit_char b) "").
Proof.
  intros Hm.
  pose proof (forall_range two_digits_ok 1 31 ltac:(vm_compute; reflexivity) m
                ltac:(lia)) as H.
  apply String.eqb_eq in H.
  exists (m / 10), (m mod 10).
  repeat split; try exact H; Z.div_mod_to_equations; lia.
Qed.

Ltac lex_step :=
  first [ rewrite compare_digit_cons by assumption | rewrite compare_dash_cons ];
  try match goal with
      | |- match ?a ?= ?b with _ => _ end = _ =>
          destruct (Z.compare_spec a b) as [? | ? | ?];
          [ | symmetry; apply Z.compare_lt_iff; lia
            | symmetry; apply Z.compare_gt_iff; lia]
      end.

(** Two dates printed as year-month-day compare, as strings, the way
    their years, months and days compare. *)
Lemma iso_compare y m d y' m' d' :
  1000 <= y <= 9999 -> 1 <= m <= 31 -> 1 <= d <= 31 ->
  1000 <= y' <= 9999 -> 1 <= m' <= 31 -> 1 <= d' <= 31 ->
  String.compare (zero_pad 4 y ++ "-" ++ zero_pad 2 m ++ "-" ++ zero_pad 2 d)
                 (zero_pad 4 y' ++ "-" ++ zero_pad 2 m' ++ "-" ++ zero_pad 2 d')
  = (date_key y m d ?= date_key y' m' d').
Proof.
  intros Hy Hm Hd Hy' Hm' Hd'.
  destruct (four_digits_parts y Hy) as (a1 & a2 & a3 & a4 & ? & ? & ? & ? & Ey & ->).
  destruct (four_digits_parts y' Hy') as (b1 & b2 & b3 & b4 & ? & ? & ? & ? & Ey' & ->).
  destruct (two_digits_parts m Hm) as (a5 & a6 & ? & ? & Em & ->).
  destruct (two_digits_parts m' Hm') as (b5 & b6 & ? & ? & Em' & ->).
  destruct (two_digits_parts d Hd) as (a7 & a8 & ? & ? & Ed & ->).
  destruct (two_digits_parts d' Hd') as (b7 & b8 & ? & ? & Ed' & ->).
  unfold date_key. cbn [append].
  do 10 lex_step.
  cbn [String.compare]. symmetry. apply Z.compare_eq_iff. lia.
Qed.

Lemma days_before_year_mono y y' :
  y <= y' -> days_before_year y <= days_before_year y'.
Proof.
  intros H. unfold days_before_year. cbv zeta. Z.div_mod_to_equations. lia.
Qed.

Lemma month_order y m m' :
  1 <= m -> m < m' -> m' <= 12 ->
  days_before_month y m + days_in_month y m <= days_before_month y m'.
Proof.
  intros H1 H2 H3.
  rewrite (days_before_month_leap y m), (days_before_month_leap y m'),
    (days_in_month_leap y m).
  assert (H : month_order_ok (is_leap y) m = true).
  { destruct (is_leap y).
    - apply (forall_range (month_order_ok true) 1 12); [vm_compute; reflexivity | lia].
    - apply (forall_range (month_order_ok false) 1 12); [vm_compute; reflexivity | lia]. }
  unfold month_order_ok in H. rewrite forallb_forall in H.
  specialize (H m'). 
  assert (In m' (map Z.of_nat (seq 1 12))) as Hin.
  { apply in_map_iff. exists (Z.to_nat m'). split; [lia | apply in_seq; lia]. }
  apply H in Hin. apply orb_prop in Hin as [Hin | Hin].
  - apply Z.leb_le in Hin. lia.
  - apply Z.leb_le in Hin. lia.
Qed.

Lemma ordinal_lt y m d y' m' d' :
  1 <= m <= 12 -> 1 <= d <= days_in_month y m ->
  ymd2ord y m d <= days_before_year (y + 1) ->
  1 <= m' <= 12 -> 1 <= d' <= days_in_month y' m' ->
  days_before_year y' < ymd2ord y' m' d' ->
  date_key y m d < date_key y' m' d' ->
  ymd2ord y m d < ymd2ord y' m' d'.
Proof.
  intros Hm Hd Hn Hm' Hd' Hn' HK.
  pose proof (days_in_month_le y m). pose proof (days_in_month_le y' m').
  unfold date_key in HK.
  assert (C : y < y' \/ (y = y' /\ m < m') \/ (y = y' /\ m = m' /\ d < d')) by lia.
  destruct C as [C | [[-> C] | (-> & -> & C)]].
  - pose proof (days_before_year_mono (y + 1) y' ltac:(lia)). lia.
  - pose proof (month_order y' m m' ltac:(lia) C ltac:(lia)).
    unfold ymd2ord. lia.
  - unfold ymd2ord. lia.
Qed.

Lemma date_parts n :
  first_ordinal <= n <= max_ordinal ->
  exists y m d,
    ord2ymd n = (y, m, d)
    /\ ymd2ord y m d = n
    /\ 1000 <= y <= 9999 /\ 1 <= m <= 12 /\ 1 <= d <= days_in_month y m
    /\ days_before_year y < n <= days_before_year (y + 1).
Proof.
  intros Hn. unfold first_ordinal, max_ordinal in Hn.
  destruct (ord2ymd_spec n ltac:(lia)) as (y & m & d & E & Hord & Hy & Hm & Hd & Hr).
  exists y, m, d. repeat split; try assumption; try lia;
    unfold days_before_year in Hr; cbv zeta in Hr; Z.div_mod_to_equations; lia.
Qed.

(** From 1000-01-01 to 9999-12-31, the strings that
    [strftime('%Y-%m-%d')] prints are ordered as the days. *)
Lemma date_order a b :
  first_ordinal <= a <= max_ordinal -> first_ordinal <= b <= max_ordinal ->
  String.compare (strftime_ymd a) (strftime_ymd b) = (a ?= b).
Proof.
  intros Ha Hb.
  destruct (date_parts a Ha) as (y & m & d & E & Hord & Hy & Hm & Hd & Hr).
  destruct (date_parts b Hb) as (y' & m' & d' & E' & Hord' & Hy' & Hm' & Hd' & Hr').
  pose proof (days_in_month_le y m). pose proof (days_in_month_le y' m').
  unfold strftime_ymd. rewrite E, E'.
  rewrite iso_compare by lia.
  destruct (Z.compare_spec (date_key y m d) (date_key y' m' d')) as [K | K | K].
  - unfold date_key in K.
    assert (y = y' /\ m = m' /\ d = d') as (-> & -> & ->) by lia.
    symmetry. apply Z.compare_eq_iff. lia.
  - symmetry. apply Z.compare_lt_iff. rewrite <- Hord, <- Hord'.
    apply ordinal_lt; try assumption; lia.
  - symmetry. apply Z.compare_gt_iff. rewrite <- Hord, <- Hord'.
    apply ordinal_lt; try assumption; lia.
Qed.

Lemma date_leb a b :
  first_ordinal <= a <= max_ordinal -> first_ordinal <= b <= max_ordinal ->
  String.leb (strftime_ymd a) (strftime_ymd b) = (a <=? b).
Proof.
  intros Ha Hb. unfold String.leb, Z.leb. now rewrite date_order.
Qed.

Lemma date_nonempty a :
  first_ordinal <= a <= max_ordinal -> Routes.nonempty (strftime_ymd a) = true.
Proof.
  intros Ha.
  destruct (date_parts a Ha) as (y & m & d & E & _ & Hy & _).
  unfold strftime_ymd. rewrite E.
  destruct (four_digits_parts y Hy) as (a1 & a2 & a3 & a4 & _ & _ & _ & _ & _ & ->).
  reflexivity.
Qed.

End CalendarFacts.

(** ** Rounding keeps the order of doubles *)

Module FloatOrder.
Import Spec SpecMore FloatFacts.

Lemma pow2_pos k : 0 <= k -> 0 < 2 ^ k.
Proof. intros. apply Z.pow_pos_nonneg; lia. Qed.

(** [2^max(0,k) * 2^1074 = 2^(k+1074) * 2^max(0,-k)] *)
Lemma pow2_shift k :
  -1074 <= k -> 2 ^ Z.max 0 k * 2 ^ 1074 = 2 ^ (k + 1074) * 2 ^ Z.max 0 (- k).
Proof.
  intros H. rewrite <- !Z.pow_add_r by lia. f_equal. lia.
Qed.

Lemma scaled_num x : -1074 <= expo x -> num x * 2 ^ 1074 = scaled x * den x.
Proof.
  intros H. unfold num, den, scaled.
  pose proof (pow2_shift (expo x) H) as E.
  set (a := 2 ^ Z.max 0 (expo x)) in *. set (b := 2 ^ (expo x + 1074)) in *.
  set (c := 2 ^ Z.max 0 (- expo x)) in *. set (P := 2 ^ 1074) in *.
  clearbody a b c P.
  transitivity (mant x * (a * P)); [ring | rewrite E; ring].
Qed.

Lemma fleq_scaled x y :
  -1074 <= expo x -> -1074 <= expo y -> (fleq x y <-> scaled x <= scaled y).
Proof.
  intros Hx Hy. unfold fleq.
  pose proof (scaled_num x Hx) as Ex. pose proof (scaled_num y Hy) as Ey.
  pose proof (den_pos x). pose proof (den_pos y).
  assert (0 < 2 ^ 1074) by (apply pow2_pos; lia).
  set (P := 2 ^ 1074) in *. clearbody P.
  split; intros L.
  - apply (Z.mul_le_mono_pos_r _ _ (den x * den y)); [nia | ].
    replace (scaled x * (den x * den y)) with (num x * den y * P)
      by (transitivity (num x * P * den y); [ring | rewrite Ex; ring]).
    replace (scaled y * (den x * den y)) with (num y * den x * P)
      by (transitivity (num y * P * den x); [ring | rewrite Ey; ring]).
    apply Z.mul_le_mono_nonneg_r; lia.
  - apply (Z.mul_le_mono_pos_r _ _ P); [lia | ].
    replace (num x * den y * P) with (scaled x * (den x * den y))
      by (transitivity (num x * P * den y); [rewrite Ex; ring | ring]).
    replace (num y * den x * P) with (scaled y * (den x * den y))
      by (transitivity (num y * P * den x); [rewrite Ey; ring | ring]).
    apply Z.mul_le_mono_nonneg_r; nia.
Qed.

Lemma ulp_expo_min n d : -1074 <= ulp_expo n d.
Proof. unfold ulp_expo. cbv zeta. lia. Qed.

(** A fraction whose unit in the last place is above that of the
    subnormals is at least [2^52] such units. *)
Lemma ulp_normal_scaled n d :
  0 < n -> 0 < d -> -1074 < ulp_expo n d ->
  d * (2 ^ 52 * 2 ^ (ulp_expo n d + 1074)) <= n * 2 ^ 1074.
Proof.
  intros Hn Hd. unfold ulp_expo.
  set (l := Z.log2 n - Z.log2 d).
  pose proof (Z.log2_spec n Hn) as [Ln _].
  pose proof (Z.log2_spec d Hd) as [_ Ld].
  pose proof (Z.log2_nonneg d) as Nd. pose proof (Z.log2_nonneg n) as Nn.
  destruct (Z.ltb_spec (n * 2 ^ Z.max 0 (- l)) (d * 2 ^ Z.max 0 l)) as [T | T];
    intros He.
  - replace (Z.max (l - 1 - 52) (-1074)) with (l - 1 - 52) by lia.
    rewrite <- Z.pow_add_r by lia.
    replace (52 + (l - 1 - 52 + 1074)) with (l + 1073) by lia.
    assert (E : 2 ^ (Z.log2 d + 1) * 2 ^ (l + 1073) = 2 ^ Z.log2 n * 2 ^ 1074).
    { rewrite <- !Z.pow_add_r by lia. f_equal. lia. }
    assert (0 < 2 ^ (l + 1073)) by (apply pow2_pos; lia).
    assert (0 < 2 ^ 1074) by (apply pow2_pos; lia).
    set (P := 2 ^ 1074) in *. set (Q := 2 ^ (l + 1073)) in *.
    unfold Z.succ in Ld.
    set (A := 2 ^ Z.log2 n) in *. set (B := 2 ^ (Z.log2 d + 1)) in *.
    clearbody P Q A B.
    assert (d * Q <= B * Q) by (apply Z.mul_le_mono_nonneg_r; lia).
    assert (A * P <= n * P) by (apply Z.mul_le_mono_nonneg_r; lia).
    lia.
  - replace (Z.max (l - 52) (-1074)) with (l - 52) by lia.
    rewrite <- Z.pow_add_r by lia.
    replace (52 + (l - 52 + 1074)) with (l + 1074) by lia.
    pose proof (pow2_shift l ltac:(lia)) as E.
    pose proof (pow2_max_pos (- l)).
    assert (0 < 2 ^ 1074) by (apply pow2_pos; lia).
    set (P := 2 ^ 1074) in *. set (Q := 2 ^ (l + 1074)) in *.
    set (A := 2 ^ Z.max 0 l) in *. set (B := 2 ^ Z.max 0 (- l)) in *.
    clearbody P Q A B.
    apply (Z.mul_le_mono_pos_r _ _ B); [lia | ].
    replace (d * Q * B) with (d * (A * P)) by (rewrite E; ring).
    replace (n * P * B) with (n * B * P) by ring.
    replace (d * (A * P)) with (d * A * P) by ring.
    apply Z.mul_le_mono_nonneg_r; lia.
Qed.

Section Mantissa.
Variables n d : Z.
Hypothesis Hn : 0 < n.
Hypothesis Hd : 0 < d.

Local Abbreviation ulp := (ulp_expo n d).
Local Abbreviation mantissa :=
  (round_half_even (n * 2 ^ Z.max 0 (- ulp)) (d * 2 ^ Z.max 0 ulp)).

Lemma mantissa_lower c :
  c * d * 2 ^ (ulp + 1074) <= n * 2 ^ 1074 -> c <= mantissa.
Proof.
  intros H. pose proof (ulp_expo_min n d) as M.
  pose proof (pow2_shift ulp M) as E.
  pose proof (pow2_max_pos ulp). pose proof (pow2_max_pos (- ulp)).
  assert (0 < 2 ^ 1074) by (apply pow2_pos; lia).
  apply rhe_lower; [nia | ].
  set (P := 2 ^ 1074) in *. set (Q := 2 ^ (ulp + 1074)) in *.
  set (A := 2 ^ Z.max 0 ulp) in *. set (B := 2 ^ Z.max 0 (- ulp)) in *.
  clearbody P Q A B.
  apply (Z.mul_le_mono_pos_r _ _ P); [lia | ].
  replace (c * (d * A) * P) with (c * d * Q * B)
    by (transitivity (c * d * (A * P)); [rewrite E; ring | ring]).
  replace (n * B * P) with (n * P * B) by ring.
  apply Z.mul_le_mono_nonneg_r; lia.
Qed.

Lemma mantissa_upper c :
  n * 2 ^ 1074 <= c * d * 2 ^ (ulp + 1074) -> mantissa <= c.
Proof.
  intros H. pose proof (ulp_expo_min n d) as M.
  pose proof (pow2_shift ulp M) as E.
  pose proof (pow2_max_pos ulp). pose proof (pow2_max_pos (- ulp)).
  assert (0 < 2 ^ 1074) by (apply pow2_pos; lia).
  apply rhe_upper; [nia | ].
  set (P := 2 ^ 1074) in *. set (Q := 2 ^ (ulp + 1074)) in *.
  set (A := 2 ^ Z.max 0 ulp) in *. set (B := 2 ^ Z.max 0 (- ulp)) in *.
  clearbody P Q A B.
  apply (Z.mul_le_mono_pos_r _ _ P); [lia | ].
  replace (c * (d * A) * P) with (c * d * Q * B)
    by (transitivity (c * d * (A * P)); [rewrite E; ring | ring]).
  replace (n * B * P) with (n * P * B) by ring.
  apply Z.mul_le_mono_nonneg_r; lia.
Qed.

Lemma scaled_normalize m e : scaled (normalize m e) = m * 2 ^ (e + 1074) \/ e + 1074 < 0.
Proof.
  destruct (Z_lt_le_dec (e + 1074) 0) as [L | L]; [right; exact L | left].
  unfold normalize, scaled.
  destruct (Z.eqb_spec m (2 ^ 53)) as [-> | ]; cbn [mant expo]; [ | reflexivity].
  replace (e + 1 + 1074) with (e + 1074 + 1) by lia.
  rewrite pow2_succ by lia. change (2 ^ 53) with (2 * 2 ^ 52). lia.
Qed.

Lemma expo_normalize m e : e <= expo (normalize m e).
Proof.
  unfold normalize. destruct (m =? 2 ^ 53); cbn [expo]; lia.
Qed.

(** The double nearest to [n/d] is not below a double below [n/d], nor
    above a double above it. *)
Lemma fround_pos_between y :
  fround_pos n d = Some y ->
  -1074 <= expo y
  /\ (forall x, nonneg_double x -> num x * d <= n * den x -> scaled x <= scaled y)
  /\ (forall x, nonneg_double x -> n * den x <= num x * d -> scaled y <= scaled x).
Proof.
  intros E. apply fround_pos_value in E. subst y.
  pose proof (ulp_expo_min n d) as M.
  set (e := ulp_expo n d) in *.
  set (m := round_half_even (n * 2 ^ Z.max 0 (- e)) (d * 2 ^ Z.max 0 e)) in *.
  split; [pose proof (expo_normalize m e); lia | ].
  destruct (scaled_normalize m e) as [-> | ]; [ | lia].
  assert (P0 : 0 < 2 ^ 1074) by (apply pow2_pos; lia).
  assert (Q0 : 0 < 2 ^ (e + 1074)) by (apply pow2_pos; lia).
  split; intros [mx ex] [[Hm0 Hm] Hex] H; cbn [mant expo] in *;
    pose proof (scaled_num (mkFloat mx ex) Hex) as Sx;
    pose proof (den_pos (mkFloat mx ex)) as Dx;
    unfold scaled in *; cbn [mant expo] in *;
    assert (X0 : 0 < 2 ^ (ex + 1074)) by (apply pow2_pos; lia).
  - destruct (Z_le_gt_dec e ex) as [C | C].
    + (* the bound is a whole number of units in the last place *)
      assert (S : 2 ^ (ex + 1074) = 2 ^ (ex - e) * 2 ^ (e + 1074)).
      { rewrite <- Z.pow_add_r by lia. f_equal. lia. }
      assert (L : mx * 2 ^ (ex - e) <= m).
      { apply mantissa_lower. fold e.
        set (P := 2 ^ 1074) in *. set (Q := 2 ^ (e + 1074)) in *.
        set (R := 2 ^ (ex - e)) in *. set (X := 2 ^ (ex + 1074)) in *.
        set (N := num (mkFloat mx ex)) in *. set (D := den (mkFloat mx ex)) in *.
        clearbody P Q R X N D.
        assert (N * P * d <= n * D * P) by nia.
        assert (mx * X * D * d <= n * P * D) by nia.
        assert (mx * X * d <= n * P) by nia. nia. }
      rewrite S. nia.
    + (* the bound lies below the smallest double of this binade *)
      assert (L : 2 ^ 52 <= m).
      { apply mantissa_lower. fold e.
        pose proof (ulp_normal_scaled n d Hn Hd ltac:(fold e; lia)) as F.
        fold e in F. nia. }
      assert (S : 2 ^ (e + 1074) = 2 ^ (e - ex) * 2 ^ (ex + 1074)).
      { rewrite <- Z.pow_add_r by lia. f_equal. lia. }
      assert (2 ^ 1 <= 2 ^ (e - ex)) by (apply Z.pow_le_mono_r; lia).
      change (2 ^ 1) with 2 in *. change (2 ^ 53) with (2 * 2 ^ 52) in *.
      rewrite S. nia.
  - destruct (Z_le_gt_dec e ex) as [C | C].
    + assert (S : 2 ^ (ex + 1074) = 2 ^ (ex - e) * 2 ^ (e + 1074)).
      { rewrite <- Z.pow_add_r by lia. f_equal. lia. }
      assert (L : m <= mx * 2 ^ (ex - e)).
      { apply mantissa_upper. fold e.
        set (P := 2 ^ 1074) in *. set (Q := 2 ^ (e + 1074)) in *.
        set (R := 2 ^ (ex - e)) in *. set (X := 2 ^ (ex + 1074)) in *.
        set (N := num (mkFloat mx ex)) in *. set (D := den (mkFloat mx ex)) in *.
        clearbody P Q R X N D.
        assert (n * D * P <= N * P * d) by nia.
        assert (n * P * D <= mx * X * D * d) by nia.
        assert (n * P <= mx * X * d) by nia. nia. }
      rewrite S. nia.
    + exfalso.
      pose proof (ulp_normal_scaled n d Hn Hd ltac:(fold e; lia)) as F.
      fold e in F.
      assert (S : 2 ^ (e + 1074) = 2 ^ (e - ex) * 2 ^ (ex + 1074)).
      { rewrite <- Z.pow_add_r by lia. f_equal. lia. }
      assert (2 ^ 1 <= 2 ^ (e - ex)) by (apply Z.pow_le_mono_r; lia).
      change (2 ^ 1) with 2 in *. change (2 ^ 53) with (2 * 2 ^ 52) in *.
      set (P := 2 ^ 1074) in *. set (Q := 2 ^ (e + 1074)) in *.
      set (R := 2 ^ (e - ex)) in *. set (X := 2 ^ (ex + 1074)) in *.
      set (N := num (mkFloat mx ex)) in *. set (D := den (mkFloat mx ex)) in *.
      set (T := 2 ^ 52) in *.
      assert (0 < T) by (subst T; apply pow2_pos; lia).
      clearbody P Q R X N D T.
      assert (n * D * P <= N * P * d) by nia.
      assert (n * P * D <= mx * X * D * d) by nia.
      assert (n * P <= mx * X * d) by nia.
      assert (d * (T * Q) <= mx * X * d) by nia.
      assert (T * Q <= mx * X) by nia.
      nia.
Qed.

End Mantissa.

(** Rounding a fraction that is not negative. *)
Lemma fround_expo n d y :
  0 <= n -> 0 < d -> fround n d = Some y -> -1074 <= expo y.
Proof.
  intros Hn Hd. unfold fround.
  destruct (Z.eqb_spec n 0); [intros E; injection E as <-; cbn; lia | ].
  destruct (Z.ltb_spec 0 n); [ | lia].
  intros E. apply (fround_pos_between n d ltac:(lia) Hd y E).
Qed.

Lemma fround_ge_float n d x y :
  0 <= n -> 0 < d -> fround n d = Some y ->
  nonneg_double x -> num x * d <= n * den x -> fleq x y.
Proof.
  intros Hn Hd E Hx H.
  pose proof (fround_expo n d y Hn Hd E) as Ey.
  apply fleq_scaled; [apply Hx | exact Ey | ].
  unfold fround in E.
  destruct (Z.eqb_spec n 0) as [-> | N0].
  - injection E as <-. unfold scaled, zero. cbn [mant expo].
    destruct Hx as [[Hm _] _]. pose proof (den_pos x).
    assert (num x <= 0) by nia.
    unfold num in *. pose proof (pow2_max_pos (expo x)).
    assert (mant x = 0) by nia. nia.
  - destruct (Z.ltb_spec 0 n); [ | lia].
    apply (fround_pos_between n d ltac:(lia) Hd y E); assumption.
Qed.

Lemma fround_le_float n d x y :
  0 <= n -> 0 < d -> fround n d = Some y ->
  nonneg_double x -> n * den x <= num x * d -> fleq y x.
Proof.
  intros Hn Hd E Hx H.
  pose proof (fround_expo n d y Hn Hd E) as Ey.
  apply fleq_scaled; [exact Ey | apply Hx | ].
  unfold fround in E.
  destruct (Z.eqb_spec n 0) as [-> | N0].
  - injection E as <-. unfold scaled, zero. cbn [mant expo].
    destruct Hx as [[Hm _] Hex].
    assert (0 < 2 ^ (expo x + 1074)) by (apply pow2_pos; lia). nia.
  - destruct (Z.ltb_spec 0 n); [ | lia].
    apply (fround_pos_between n d ltac:(lia) Hd y E); assumption.
Qed.

Lemma fround_nonneg n d y :
  0 <= n -> 0 < d -> fround n d = Some y -> 0 <= num y.
Proof.
  intros Hn Hd E.
  assert (G : ge_int y 0) by (eapply fround_ge; [exact Hd | | | exact E]; lia).
  unfold ge_int in G. lia.
Qed.

End FloatOrder.

(** ** The JSON endpoints *)

Module RoutesFacts.
Import App Routes Spec SpecMore MonadFacts GenFacts AppFacts.

Lemma bind_run {W A B} (c : M W A) (k : A -> M W B) w a w1 :
  c w = (Ok a, w1) -> bind c k w = k a w1.
Proof. unfold bind. intros ->. reflexivity. Qed.

Lemma bind_raise {W A B} (c : M W A) (k : A -> M W B) w e w1 :
  c w = (Raise e, w1) -> bind c k w = (Raise e, w1).
Proof. unfold bind. intros ->. reflexivity. Qed.

Lemma pure_run {W A} (c : M W A) w a : pure c -> fst (c w) = Ok a -> c w = (Ok a, w).
Proof. intros [r H] E. rewrite H in *. cbn [fst] in E. now subst. Qed.

Lemma Forall_filter_keep {A} (P : A -> Prop) (keep : A -> bool) l :
  Forall P l -> Forall P (filter keep l).
Proof.
  rewrite !Forall_forall. intros H x Hx. apply filter_In in Hx as [Hx _]. auto.
Qed.

(** *** What [generate_sample_data] hands to the endpoints *)

Lemma gen_flight_date fuel base_date w f w' :
  gen_flight fuel base_date w = (Ok f, w') ->
  exists off, 1 <= off <= 90 /\ base_date + off <= max_ordinal
              /\ date f = strftime_ymd (base_date + off).
Proof.
  unfold gen_flight. intros H.
  apply bind_ok in H as (org & w1 & _ & H).
  apply bind_ok in H as (dst0 & w2 & _ & H).
  apply bind_ok in H as (dst & w3 & _ & H). cbv zeta in H.
  apply bind_ok in H as (bp & w4 & _ & H).
  apply bind_ok in H as (off & w5 & Hoff & H).
  apply bind_ok in H as (fd & w6 & Hfd & H).
  apply bind_ok in H as (p & w7 & _ & H).
  apply bind_ok in H as (dem & w8 & _ & H).
  apply bind_ok in H as (av & w9 & _ & H).
  apply bind_ok in H as (al & w10 & _ & H).
  apply ret_ok in H as [-> _].
  apply randint_range in Hoff; [ | lia].
  apply lift_ok in Hfd as [Hfd _]. unfold add_days in Hfd.
  destruct (Z.ltb_spec max_ordinal (base_date + off)) as [L | L]; [discriminate | ].
  apply Ok_inj in Hfd. subst fd.
  exists off. cbn [date]. auto.
Qed.

Lemma generated_facts fuel w routes w' :
  generate_sample_data fuel w = (Ok routes, w') ->
  List.length routes = 100%nat
  /\ Forall well_formed_flight routes
  /\ Forall (fun f => exists off, 1 <= off <= 90 /\ clock w + off <= max_ordinal
                                  /\ date f = strftime_ymd (clock w + off)) routes.
Proof.
  unfold generate_sample_data. intros H.
  apply bind_ok in H as (base_date & w1 & Hnow & H).
  unfold now in Hnow. injection Hnow as <- <-.
  split; [eapply AppMore.for_range_length; exact H | ].
  split; (eapply for_range_Forall; [ | exact H]); intros w2 f w3.
  - apply AppMore.gen_flight_well_formed.
  - apply gen_flight_date.
Qed.

(** X16.  Every date that [generate_sample_data] writes is between 1
    and 90 days after today, and [datetime.strptime] with ['%Y-%m-%d']
    reads it back as that same day, when today is 31 December 999 or
    later (so that the year is printed with four digits). *)
Theorem generated_dates_read_back
    (fuel : nat) (w : World) (routes : list flight) (w' : World) :
  first_ordinal - 1 <= clock w ->
  generate_sample_data fuel w = (Ok routes, w') ->
  Forall (fun f => exists off,
            1 <= off <= 90
            /\ date f = strftime_ymd (clock w + off)
            /\ strptime_ymd (date f) = Ok (clock w + off)) routes.
Proof.
  intros Hc H. apply generated_facts in H as (_ & _ & H).
  eapply Forall_impl; [ | exact H]. cbv beta.
  intros f (off & Hoff & Hmax & ->). exists off.
  split; [exact Hoff | ]. split; [reflexivity | ].
  apply CalendarFacts.date_round_trip. lia.
Qed.

(** The hundred records generated in [sample_world], all dated
    2024-03-16. *)
Lemma sample_dates_read_back :
  let routes := match fst (generate_sample_data 1 sample_world) with
                | Ok routes => routes
                | _ => []
                end in
  routes <> []
  /\ Forall (fun f => exists off,
               1 <= off <= 90
               /\ date f = strftime_ymd (clock sample_world + off)
               /\ strptime_ymd (date f) = Ok (clock sample_world + off)) routes.
Proof.
  cbv zeta. split; [vm_compute; discriminate | ].
  apply (generated_dates_read_back 1 sample_world _
           (snd (generate_sample_data 1 sample_world))).
  - vm_compute. discriminate.
  - vm_compute. reflexivity.
Defined.

(** *** The filters of [/filter] *)

Lemma filter_if {A} (b : bool) (p : A -> bool) l :
  (if b then filter p l else l) = filter (fun x => negb b || p x) l.
Proof.
  destruct b; cbn [negb orb]; [reflexivity | ].
  induction l as [ | x l IH]; cbn [filter]; [reflexivity | now rewrite <- IH].
Qed.

Lemma filter_filter {A} (p q : A -> bool) l :
  filter q (filter p l) = filter (fun x => p x && q x) l.
Proof.
  induction l as [ | x l IH]; cbn [filter]; [reflexivity | ].
  destruct (p x); cbn [filter andb]; [destruct (q x) | ]; now rewrite IH.
Qed.

Lemma apply_filters_filter lower q raw :
  apply_filters lower q raw = filter (matches lower q) raw.
Proof.
  unfold apply_filters. cbv zeta.
  rewrite !filter_if, !filter_filter. apply filter_ext.
  intros f. unfold matches. rewrite !andb_assoc. reflexivity.
Qed.

Lemma filter_all {A} (l : list A) : filter (fun _ => true) l = l.
Proof. induction l as [ | x l IH]; cbn [filter]; [reflexivity | now rewrite IH]. Qed.

(** X17.  The up to four successive list comprehensions of
    [filter_data] keep, in their original order, exactly the records
    that pass every filter whose parameter is given; with no parameter
    given every record is kept. *)
Theorem filters_select_matching_records
    (lower : string -> string) (q : filters) (raw_data : list flight) :
  apply_filters lower q raw_data = filter (matches lower q) raw_data
  /\ apply_filters lower (mkFilters "" "" "" "") raw_data = raw_data.
Proof.
  split; [apply apply_filters_filter | ].
  rewrite apply_filters_filter. apply filter_all.
Qed.

(** X21.  On generated records, the two date comparisons of
    [filter_data], which compare strings, select by day: with
    [date_from] and [date_to] given as ['%Y-%m-%d'] dates between
    1000-01-01 and 9999-12-31 and no other filter, exactly the records
    whose flight day lies between the two days are kept. *)
Theorem date_filters_are_chronological
    (lower : string -> string) (fuel : nat) (w : World)
    (routes : list flight) (w' : World) (a b : Z) :
  first_ordinal - 1 <= clock w ->
  first_ordinal <= a <= max_ordinal -> first_ordinal <= b <= max_ordinal ->
  generate_sample_data fuel w = (Ok routes, w') ->
  apply_filters lower (mkFilters "" "" (strftime_ymd a) (strftime_ymd b)) routes
  = filter (flies_between a b) routes.
Proof.
  intros Hc Ha Hb H. rewrite apply_filters_filter. apply filter_ext_in.
  intros f Hf. apply generated_facts in H as (_ & _ & H).
  rewrite Forall_forall in H. destruct (H f Hf) as (off & Hoff & Hmax & Hdate).
  assert (Hday : first_ordinal <= clock w + off <= max_ordinal) by lia.
  unfold matches, flies_between.
  cbn [by_origin by_destination date_from date_to nonempty negb orb andb].
  rewrite !CalendarFacts.date_nonempty by assumption. cbn [negb orb].
  rewrite Hdate, (CalendarFacts.date_round_trip _ Hday).
  rewrite !CalendarFacts.date_leb by assumption. reflexivity.
Qed.

(** The records of [sample_world], all flying on 2024-03-16, selected
    from 2024-03-16 to 2024-03-31. *)
Lemma sample_date_selection :
  let routes := match fst (generate_sample_data 1 sample_world) with
                | Ok routes => routes
                | _ => []
                end in
  routes <> []
  /\ apply_filters ascii_lower
                   (mkFilters "" "" (strftime_ymd 738961) (strftime_ymd 738976)) routes
     = filter (flies_between 738961 738976) routes.
Proof.
  cbv zeta. split; [vm_compute; discriminate | ].
  apply (date_filters_are_chronological ascii_lower 1 sample_world _
           (snd (generate_sample_data 1 sample_world)) 738961 738976).
  - vm_compute. discriminate.
  - split; vm_compute; discriminate.
  - split; vm_compute; discriminate.
  - vm_compute. reflexivity.
Defined.

(** *** The handlers *)

Lemma price_trends_ok data w :
  Forall (fun f => fits_double (price f)) data ->
  exists t, analyze_price_trends data w = (Ok t, w).
Proof.
  intros H. unfold analyze_price_trends. cbv zeta.
  destruct (rounded_mean_ok _ (prices_fit data is_domestic H)) as (a & Ea).
  destruct (rounded_mean_ok _ (prices_fit data (fun f => negb (is_domestic f)) H))
    as (b & Eb).
  unfold domestic_prices, international_prices, bind, lift, ret.
  rewrite Ea, Eb. eauto.
Qed.

Lemma popular_routes_run data w :
  Forall (fun f => 30 <= demand_score f <= 100) data ->
  exists out,
    analyze_popular_routes data w = (Ok out, w)
    /\ (List.length out <= 10)%nat
    /\ (data <> [] -> out <> [])
    /\ Forall (fun e => (inject_Z 30 <= value (avg_demand e))%Q
                        /\ (value (avg_demand e) <= inject_Z 100)%Q) out.
Proof.
  intros H.
  destruct (AppMore.route_entries_bounded data 30 100) as (entries & R & B);
    try lia; try assumption.
  exists (firstn 10 (sorted_reverse avg_demand entries)).
  split; [unfold analyze_popular_routes, bind, lift, ret; rewrite R; reflexivity | ].
  split; [apply firstn_le_length | ].
  split.
  - intros Hne Hnil. unfold route_entries in R.
    apply AppMore.rmap_Forall2 in R.
    pose proof (AppMore.group_by_nonempty route_key demand_score data Hne) as G.
    pose proof (Permutation_length (SortFacts.sorted_reverse_perm avg_demand entries))
      as L.
    apply (f_equal (@List.length _)) in Hnil. rewrite length_firstn in Hnil.
    cbn [List.length] in Hnil.
    apply Forall2_length in R.
    destruct (group_by route_key demand_score data); [congruence | ].
    cbn [List.length] in R. lia.
  - eapply Forall_impl; [ | apply AppMore.top_Forall; exact B]. cbv beta.
    intros e [G L].
    split; [apply FloatFacts.ge_int_value, G | apply FloatFacts.le_int_value, L].
Qed.

Lemma well_formed_demand l :
  Forall well_formed_flight l -> Forall (fun f => 30 <= demand_score f <= 100) l.
Proof.
  apply Forall_impl. intros f (_ & _ & _ & _ & _ & H & _). exact H.
Qed.

Lemma well_formed_price l :
  Forall well_formed_flight l -> Forall (fun f => fits_double (price f)) l.
Proof.
  apply Forall_impl. intros f (_ & _ & _ & _ & H & _). unfold fits_double.
  destruct (is_domestic f); lia.
Qed.

Lemma generated_readable fuel w routes w' :
  first_ordinal - 1 <= clock w ->
  generate_sample_data fuel w = (Ok routes, w') ->
  List.length routes = 100%nat
  /\ Forall well_formed_flight routes
  /\ Forall readable routes.
Proof.
  intros Hc H. destruct (generated_facts _ _ _ _ H) as (Hlen & Hwf & Hdates).
  split; [exact Hlen | ]. split; [exact Hwf | ].
  rewrite Forall_forall in *. intros f Hf.
  destruct (Hdates f Hf) as (off & Hoff & Hmax & E).
  destruct (Hwf f Hf) as (_ & _ & _ & _ & _ & D & _).
  split; [ | unfold fits_double; lia].
  exists (clock w + off). rewrite E. apply CalendarFacts.date_round_trip. lia.
Qed.

(** The two aggregations that [filter_data] runs, on well-formed
    records. *)
Lemma selection_parts data w :
  Forall well_formed_flight data ->
  exists out t,
    analyze_popular_routes data w = (Ok out, w)
    /\ analyze_price_trends data w = (Ok t, w)
    /\ (List.length out <= 10)%nat
    /\ (data <> [] -> out <> [])
    /\ Forall (fun e => (inject_Z 30 <= value (avg_demand e))%Q
                        /\ (value (avg_demand e) <= inject_Z 100)%Q) out.
Proof.
  intros Hwf.
  destruct (popular_routes_run data w (well_formed_demand _ Hwf))
    as (out & Hout & Hout10 & Hout1 & Hbounds).
  destruct (price_trends_ok data w (well_formed_price _ Hwf)) as (t & Ht).
  exists out, t. auto.
Qed.

(** The third aggregation of [get_data], on readable records. *)
Lemma insights_run data w :
  data <> [] -> Forall readable data ->
  exists l, get_demand_insights data w = (Ok l, w)
            /\ (1 <= List.length l <= 2)%nat.
Proof.
  intros Hne Hr.
  destruct (AppMore.weekday_means_ok data Hne Hr) as (means & Hmeans & Hmne).
  destruct (AppMore.insights_from_means data w means Hmeans Hmne Hr) as (l & Hl).
  exists l. split; [exact Hl | ].
  destruct (AppMore.insights_inv data w l) as (m & peak & _ & _ & _ & Hlen);
    [rewrite Hl; reflexivity | ].
  rewrite Hlen. destruct (both_kinds data); lia.
Qed.

Lemma get_data_unfold (time_of_day : World -> string) fuel w routes w' out t l :
  generate_sample_data fuel w = (Ok routes, w') ->
  analyze_popular_routes routes w' = (Ok out, w') ->
  analyze_price_trends routes w' = (Ok t, w') ->
  get_demand_insights routes w' = (Ok l, w') ->
  get_data time_of_day fuel w
  = (Ok (Success (mkDashboard out t l (Zlen routes)
                    (strftime_ymd (clock w') ++ " " ++ time_of_day w')%string)), w').
Proof.
  intros H Hout Ht Hl. unfold get_data, try_except.
  rewrite (bind_run _ _ _ _ _ H). cbv beta.
  rewrite (bind_run _ _ _ _ _ Hout). cbv beta.
  rewrite (bind_run _ _ _ _ _ Ht). cbv beta.
  rewrite (bind_run _ _ _ _ _ Hl). cbv beta.
  unfold bind, now_text, ret. reflexivity.
Qed.

(** X18.  Whenever [generate_sample_data] returns and today is
    1 January 1000 or later, [get_data] answers with success: 100
    flights in total, between one and ten popular routes whose average
    demand lies in [30, 100], one or two insight sentences, and the
    time stamp of the moment after generation. *)
Theorem get_data_succeeds
    (time_of_day : World -> string) (fuel : nat) (w : World)
    (routes : list flight) (w' : World) :
  first_ordinal <= clock w ->
  generate_sample_data fuel w = (Ok routes, w') ->
  exists d,
    get_data time_of_day fuel w = (Ok (Success d), w')
    /\ total_flights d = 100
    /\ (1 <= List.length (popular_routes d) <= 10)%nat
    /\ Forall (fun e => (inject_Z 30 <= value (avg_demand e))%Q
                        /\ (value (avg_demand e) <= inject_Z 100)%Q)
              (popular_routes d)
    /\ (1 <= List.length (demand_insights d) <= 2)%nat
    /\ last_updated d = (strftime_ymd (clock w') ++ " " ++ time_of_day w')%string.
Proof.
  intros Hc H.
  assert (Hc' : first_ordinal - 1 <= clock w) by lia.
  destruct (generated_readable _ _ _ _ Hc' H) as (Hlen & Hwf & Hread).
  assert (Hne : routes <> []) by (intros ->; discriminate).
  destruct (selection_parts routes w' Hwf)
    as (out & t & Hout & Ht & Hout10 & Hout1 & Hbounds).
  destruct (insights_run routes w' Hne Hread) as (l & Hl & Hl2).
  eexists. split; [apply (get_data_unfold _ _ _ _ _ _ _ _ H Hout Ht Hl) | ].
  cbn [total_flights popular_routes demand_insights last_updated].
  split; [unfold Zlen; rewrite Hlen; reflexivity | ].
  split.
  { split; [ | exact Hout10]. specialize (Hout1 Hne).
    destruct out; [congruence | cbn [List.length]; lia]. }
  auto.
Qed.

(** [/api/data] in [sample_world] at half past two. *)
Lemma sample_dashboard :
  exists d,
    get_data afternoon 1 sample_world
    = (Ok (Success d), snd (generate_sample_data 1 sample_world))
    /\ total_flights d = 100
    /\ (1 <= List.length (popular_routes d) <= 10)%nat
    /\ Forall (fun e => (inject_Z 30 <= value (avg_demand e))%Q
                        /\ (value (avg_demand e) <= inject_Z 100)%Q)
              (popular_routes d)
    /\ (1 <= List.length (demand_insights d) <= 2)%nat
    /\ last_updated d = "2024-03-15 14:30:00".
Proof.
  apply (get_data_succeeds afternoon 1 sample_world
           (match fst (generate_sample_data 1 sample_world) with
            | Ok routes => routes
            | _ => []
            end)
           (snd (generate_sample_data 1 sample_world))).
  - vm_compute. discriminate.
  - vm_compute. reflexivity.
Defined.

Lemma try_except_raise {W A} (c : M W A) (h : exn -> M W A) w e w1 :
  c w = (Raise e, w1) -> try_except c h w = h e w1.
Proof. unfold try_except. intros ->. reflexivity. Qed.

Lemma try_except_never_raises {W A} (c : M W A) (h : exn -> M W A) w :
  (forall e w1, exists a, h e w1 = (Ok a, w1)) ->
  forall e, fst (try_except c h w) <> Raise e.
Proof.
  intros Hh e. unfold try_except.
  destruct (c w) as [[a | e' | ] w1] eqn:E; cbn [fst]; try discriminate.
  destruct (Hh e' w1) as (a & ->). discriminate.
Qed.

(** X19.  No exception leaves [get_data] or [filter_data]; and when
    [generate_sample_data] raises, both answer
    [{'success': False, 'error': str(e)}] with status 500, in the world
    the failed generation left. *)
Theorem endpoints_absorb_exceptions
    (lower : string -> string) (time_of_day : World -> string)
    (fuel : nat) (q : filters) (w : World) :
  (forall e, fst (get_data time_of_day fuel w) <> Raise e)
  /\ (forall e, fst (filter_data lower fuel q w) <> Raise e)
  /\ (forall e w',
        generate_sample_data fuel w = (Raise e, w') ->
        get_data time_of_day fuel w = (Ok (Failure (exn_msg e)), w')
        /\ filter_data lower fuel q w = (Ok (Failure (exn_msg e)), w')
        /\ status (@Failure dashboard (exn_msg e)) = 500).
Proof.
  split; [ | split].
  - apply try_except_never_raises. intros e w1. eexists. reflexivity.
  - apply try_except_never_raises. intros e w1. eexists. reflexivity.
  - intros e w' H. split; [ | split; [ | reflexivity]].
    + unfold get_data. erewrite try_except_raise; [reflexivity | ].
      apply bind_raise. exact H.
    + unfold filter_data. erewrite try_except_raise; [reflexivity | ].
      apply bind_raise. exact H.
Qed.

(** Thirty days before 9999-12-31 the first record drawn is dated 90
    days ahead, past the last day of the calendar. *)
Lemma late_world_fails :
  let e := Exn OverflowError "date value out of range" in
  let w' := snd (generate_sample_data 1 late_world) in
  generate_sample_data 1 late_world = (Raise e, w')
  /\ get_data afternoon 1 late_world = (Ok (Failure "date value out of range"), w')
  /\ filter_data ascii_lower 1 sydney_query late_world
     = (Ok (Failure "date value out of range"), w')
  /\ status (@Failure dashboard "date value out of range") = 500.
Proof.
  cbv zeta.
  assert (H : generate_sample_data 1 late_world
              = (Raise (Exn OverflowError "date value out of range"),
                 snd (generate_sample_data 1 late_world)))
    by (vm_compute; reflexivity).
  split; [exact H | ].
  exact (proj2 (proj2 (endpoints_absorb_exceptions
                         ascii_lower afternoon 1 sydney_query late_world)) _ _ H).
Defined.

Lemma Zlen_zero_nil {A} (l : list A) : Zlen l = 0 -> l = [].
Proof. destruct l; [reflexivity | unfold Zlen; cbn [List.length]; lia]. Qed.

Lemma filter_data_unfold (lower : string -> string) fuel q w routes w' out t :
  generate_sample_data fuel w = (Ok routes, w') ->
  analyze_popular_routes (filter (matches lower q) routes) w' = (Ok out, w') ->
  analyze_price_trends (filter (matches lower q) routes) w' = (Ok t, w') ->
  filter_data lower fuel q w
  = (Ok (Success (mkSelection out t (Zlen (filter (matches lower q) routes)) q)), w').
Proof.
  intros H Hout Ht. unfold filter_data, try_except.
  rewrite (bind_run _ _ _ _ _ H). cbv beta zeta.
  rewrite apply_filters_filter.
  rewrite (bind_run _ _ _ _ _ Hout). cbv beta.
  rewrite (bind_run _ _ _ _ _ Ht). cbv beta.
  unfold ret. reflexivity.
Qed.

(** X20.  Whenever [generate_sample_data] returns, [filter_data]
    answers with success whatever the filters: the total is the number
    of generated records that pass them (at most 100), the filters are
    echoed, at most ten routes are listed with average demand in
    [30, 100], and a selection without records gives no route and the
    averages 0 with the ranges ["N/A"]. *)
Theorem filter_data_succeeds
    (lower : string -> string) (fuel : nat) (q : filters) (w : World)
    (routes : list flight) (w' : World) :
  generate_sample_data fuel w = (Ok routes, w') ->
  exists s,
    filter_data lower fuel q w = (Ok (Success s), w')
    /\ sel_total_flights s = Zlen (filter (matches lower q) routes)
    /\ 0 <= sel_total_flights s <= 100
    /\ filters_applied s = q
    /\ (List.length (sel_popular_routes s) <= 10)%nat
    /\ Forall (fun e => (inject_Z 30 <= value (avg_demand e))%Q
                        /\ (value (avg_demand e) <= inject_Z 100)%Q)
              (sel_popular_routes s)
    /\ (sel_total_flights s = 0 ->
        sel_popular_routes s = []
        /\ sel_price_trends s = mkTrends (Int 0) (Int 0) "N/A" "N/A").
Proof.
  intros H.
  pose proof (generated_facts _ _ _ _ H) as (Hlen & Hwf & _).
  pose proof (Forall_filter_keep _ (matches lower q) _ Hwf) as Hwf'.
  destruct (selection_parts _ w' Hwf') as (out & t & Hout & Ht & Hout10 & _ & Hbounds).
  eexists. split; [apply (filter_data_unfold _ _ _ _ _ _ _ _ H Hout Ht) | ].
  cbn [sel_total_flights sel_popular_routes sel_price_trends filters_applied].
  split; [reflexivity | ].
  split.
  { pose proof (ApiFacts.filter_Zlen (matches lower q) routes) as L.
    pose proof (ListFacts.Zlen_nonneg (filter (matches lower q) routes)).
    unfold Zlen in L at 2. rewrite Hlen in L. lia. }
  split; [reflexivity | ]. split; [exact Hout10 | ]. split; [exact Hbounds | ].
  intros Z0. apply Zlen_zero_nil in Z0. rewrite Z0 in Hout, Ht.
  cbv in Hout. cbv in Ht. split; congruence.
Qed.

(** [/filter?origin=SYDNEY&date_from=2024-03-16&date_to=2024-03-31] in
    [sample_world]: all hundred records leave Sydney on 16 March. *)
Lemma sample_selection :
  let routes := match fst (generate_sample_data 1 sample_world) with
                | Ok routes => routes
                | _ => []
                end in
  Zlen (filter (matches ascii_lower sydney_query) routes) = 100
  /\ exists s,
       filter_data ascii_lower 1 sydney_query sample_world
       = (Ok (Success s), snd (generate_sample_data 1 sample_world))
       /\ sel_total_flights s = Zlen (filter (matches ascii_lower sydney_query) routes)
       /\ 0 <= sel_total_flights s <= 100
       /\ filters_applied s = sydney_query
       /\ (List.length (sel_popular_routes s) <= 10)%nat
       /\ Forall (fun e => (inject_Z 30 <= value (avg_demand e))%Q
                           /\ (value (avg_demand e) <= inject_Z 100)%Q)
                 (sel_popular_routes s)
       /\ (sel_total_flights s = 0 ->
           sel_popular_routes s = []
           /\ sel_price_trends s = mkTrends (Int 0) (Int 0) "N/A" "N/A").
Proof.
  cbv zeta. split; [vm_compute; reflexivity | ].
  apply (filter_data_succeeds ascii_lower 1 sydney_query sample_world).
  vm_compute. reflexivity.
Defined.

(** *** Generation does not raise *)

Lemma bind_no_raise {W A B} (c : M W A) (k : A -> M W B) w :
  (forall e, fst (c w) <> Raise e) ->
  (forall a w1, c w = (Ok a, w1) -> forall e, fst (k a w1) <> Raise e) ->
  forall e, fst (bind c k w) <> Raise e.
Proof.
  intros Hc Hk e. unfold bind. destruct (c w) as [[a | e' | ] w1] eqn:E; cbn [fst].
  - apply (Hk a w1 eq_refl).
  - exfalso. apply (Hc e'). reflexivity.
  - discriminate.
Qed.

Lemma choice_no_raise seq w e : seq <> [] -> fst (choice seq w) <> Raise e.
Proof.
  destruct seq; [congruence | ]. intros _.
  unfold choice, bind, randbelow, ret. cbn [fst]. discriminate.
Qed.

Lemma randint_no_raise a b w e : fst (randint a b w) <> Raise e.
Proof. unfold randint, bind, randbelow, ret. cbn [fst]. discriminate. Qed.

Lemma redraw_no_raise fuel org dst w e : fst (redraw fuel org dst w) <> Raise e.
Proof.
  revert dst w e. induction fuel as [ | fuel IH]; intros dst w; cbn [redraw];
    destruct (String.eqb dst org); try (intros e; cbn; discriminate).
  apply bind_no_raise.
  - intros e. apply choice_no_raise. discriminate.
  - intros d w1 _ e. apply IH.
Qed.

Lemma gen_flight_no_raise fuel base_date w e :
  base_date + 90 <= max_ordinal -> fst (gen_flight fuel base_date w) <> Raise e.
Proof.
  intros Hb. revert e. unfold gen_flight.
  apply bind_no_raise; [intros e; apply choice_no_raise; discriminate | ].
  intros org w1 _.
  apply bind_no_raise; [intros e; apply choice_no_raise; discriminate | ].
  intros dst0 w2 _.
  apply bind_no_raise; [intros e; apply redraw_no_raise | ].
  intros dst w3 _. cbv zeta.
  apply bind_no_raise.
  { intros e. destruct (str_in dst (firstn 10 cities)); apply randint_no_raise. }
  intros bp w4 Hbp.
  assert (Hband : in_band (str_in dst (firstn 10 cities)) bp).
  { unfold in_band. destruct (str_in dst (firstn 10 cities));
      eapply randint_range; try eassumption; lia. }
  apply bind_no_raise; [intros e; apply randint_no_raise | ].
  intros off w5 Hoff. apply randint_range in Hoff; [ | lia].
  apply bind_no_raise.
  { intros e. unfold lift, add_days. cbn [fst].
    destruct (Z.ltb_spec max_ordinal (base_date + off)); [lia | discriminate]. }
  intros fd w6 _.
  apply bind_no_raise.
  { intros e. unfold lift, weekend_multiplier. cbn [fst].
    destruct (5 <=? weekday fd).
    - rewrite (priced_weekend _ _ Hband). discriminate.
    - rewrite (priced_weekday _ _ Hband). discriminate. }
  intros p w7 _.
  apply bind_no_raise; [intros e; apply randint_no_raise | ].
  intros dem w8 _.
  apply bind_no_raise; [intros e; apply randint_no_raise | ].
  intros av w9 _.
  apply bind_no_raise; [intros e; apply choice_no_raise; discriminate | ].
  intros al w10 _ e. cbn. discriminate.
Qed.

Lemma for_range_no_raise {W A} (body : M W A) n :
  (forall w e, fst (body w) <> Raise e) ->
  forall w e, fst (for_range n body w) <> Raise e.
Proof.
  intros Hb. induction n as [ | n IH]; intros w; cbn [for_range].
  - intros e. cbn. discriminate.
  - apply bind_no_raise; [apply Hb | ]. intros x w1 _.
    apply bind_no_raise; [apply IH | ]. intros xs w2 _ e. cbn. discriminate.
Qed.

Lemma generate_no_raise fuel w e :
  clock w + 90 <= max_ordinal -> fst (generate_sample_data fuel w) <> Raise e.
Proof.
  intros Hc. unfold generate_sample_data, bind, now.
  apply for_range_no_raise. intros w1 e1. apply gen_flight_no_raise. exact Hc.
Qed.

(** X25.  From 0999-12-31 until 90 days before 9999-12-31,
    [generate_sample_data] raises no exception, and neither [get_data]
    nor [filter_data] ever answers with [success: False]. *)
Theorem no_failure_reply
    (lower : string -> string) (time_of_day : World -> string)
    (fuel : nat) (q : filters) (w : World) :
  first_ordinal - 1 <= clock w -> clock w + 90 <= max_ordinal ->
  (forall e, fst (generate_sample_data fuel w) <> Raise e)
  /\ (forall msg, fst (get_data time_of_day fuel w) <> Ok (Failure msg))
  /\ (forall msg, fst (filter_data lower fuel q w) <> Ok (Failure msg)).
Proof.
  intros Hlo Hhi.
  split; [intros e; apply generate_no_raise; exact Hhi | ].
  destruct (generate_sample_data fuel w) as [[routes | e | ] w'] eqn:G.
  - destruct (generated_readable _ _ _ _ Hlo G) as (Hlen & Hwf & Hread).
    assert (Hne : routes <> []) by (intros ->; discriminate).
    destruct (selection_parts routes w' Hwf) as (out & t & Hout & Ht & _).
    destruct (insights_run routes w' Hne Hread) as (l & Hl & _).
    destruct (selection_parts _ w' (Forall_filter_keep _ (matches lower q) _ Hwf))
      as (out' & t' & Hout' & Ht' & _).
    rewrite (get_data_unfold time_of_day _ _ _ _ _ _ _ G Hout Ht Hl).
    rewrite (filter_data_unfold lower _ q _ _ _ _ _ G Hout' Ht').
    split; intros msg; cbn [fst]; discriminate.
  - exfalso. apply (generate_no_raise fuel w e Hhi). rewrite G. reflexivity.
  - unfold get_data, filter_data, try_except, bind. rewrite G.
    split; intros msg; cbn [fst]; discriminate.
Qed.

(** In [sample_world] the two endpoints answer with success. *)
Lemma sample_world_no_failure :
  (forall e, fst (generate_sample_data 1 sample_world) <> Raise e)
  /\ (forall msg, fst (get_data afternoon 1 sample_world) <> Ok (Failure msg))
  /\ (forall msg,
        fst (filter_data ascii_lower 1 sydney_query sample_world) <> Ok (Failure msg)).
Proof.
  apply (no_failure_reply ascii_lower afternoon 1 sydney_query sample_world).
  - vm_compute. discriminate.
  - vm_compute. discriminate.
Defined.

End RoutesFacts.

(** ** The chart endpoints *)

Module ChartFacts.
Import App Routes Spec SpecMore MonadFacts GenFacts AppFacts FloatFacts.

(** *** Reading a group back *)

Lemma dict_get_append {V} k k' (v : V) d :
  dict_get k (dict_append k' v d)
  = if String.eqb k k' then dict_get k d ++ [v] else dict_get k d.
Proof.
  induction d as [ | [k1 vs] d IH]; cbn [dict_append dict_get].
  - destruct (String.eqb k k'); reflexivity.
  - destruct (String.eqb_spec k' k1) as [-> | N1]; cbn [dict_get].
    + destruct (String.eqb k k1); reflexivity.
    + rewrite IH. destruct (String.eqb_spec k k1) as [-> | N2]; [ | reflexivity].
      destruct (String.eqb_spec k1 k') as [E | _]; [congruence | reflexivity].
Qed.

(** The list filed under a key holds the values of the records with
    that key, in their order. *)
Lemma dict_get_group {A V} (key : A -> string) (val : A -> V) data k :
  dict_get k (group_by key val data) = map val (keyed key k data).
Proof.
  unfold group_by, keyed.
  assert (G : forall d,
             dict_get k (fold_left (fun d x => dict_append (key x) (val x) d) data d)
             = dict_get k d ++ map val (filter (fun x => String.eqb (key x) k) data)).
  { induction data as [ | x data IH]; intros d; cbn [fold_left filter map].
    - now rewrite app_nil_r.
    - rewrite IH, dict_get_append. rewrite (String.eqb_sym k (key x)).
      destruct (String.eqb (key x) k); cbn [map]; [rewrite <- app_assoc | ];
        reflexivity. }
  apply (G []).
Qed.

Lemma dict_get_in {V} k (vs : list V) d :
  NoDup (map fst d) -> In (k, vs) d -> dict_get k d = vs.
Proof.
  induction d as [ | [k1 vs1] d IH]; cbn [map fst dict_get]; intros N H;
    [destruct H | ].
  inversion N as [ | ? ? Hn N']; subst.
  destruct H as [E | H].
  - injection E as -> ->. now rewrite String.eqb_refl.
  - destruct (String.eqb_spec k k1) as [-> | _]; [ | auto].
    exfalso. apply Hn. apply in_map_iff. exists (k1, vs). auto.
Qed.

Lemma uniq_spec l : NoDup (uniq l) /\ forall x, In x (uniq l) <-> In x l.
Proof.
  destruct (SortFacts.fold_add_new l [] (NoDup_nil _)) as [N I].
  split; [exact N | ]. intros x. rewrite I. cbn. tauto.
Qed.

Lemma group_members {A V} (key : A -> string) (val : A -> V) data k vs :
  In (k, vs) (group_by key val data) ->
  vs = map val (keyed key k data) /\ In k (map key data).
Proof.
  intros H. pose proof (SortFacts.group_by_keys key val data) as K.
  destruct (uniq_spec (map key data)) as [N I].
  split.
  - rewrite <- dict_get_group. symmetry.
    apply dict_get_in; [rewrite K; exact N | exact H].
  - apply I. rewrite <- K. apply in_map_iff. exists (k, vs). auto.
Qed.

Lemma keyed_mean {A} (key : A -> string) (val : A -> Z) data lo hi k :
  - 2 ^ 53 <= lo -> hi <= 2 ^ 53 ->
  Forall (fun x => lo <= val x <= hi) data -> In k (map key data) ->
  exists y, mean (map val (keyed key k data)) = Ok y
            /\ (inject_Z lo <= value y)%Q /\ (value y <= inject_Z hi)%Q.
Proof.
  intros Hlo Hhi Hall Hk.
  destruct (AppMore.mean_within lo hi (map val (keyed key k data)))
    as (y & E & G & L); try assumption.
  - apply in_map_iff in Hk as (x & Ex & Hx).
    assert (In x (keyed key k data)) as Hin.
    { unfold keyed. apply filter_In. split; [exact Hx | ].
      rewrite Ex. apply String.eqb_refl. }
    intros E. destruct (keyed key k data); [destruct Hin | discriminate].
  - apply Forall_forall. intros v Hv. apply in_map_iff in Hv as (x & <- & Hx).
    unfold keyed in Hx. apply filter_In in Hx as [Hx _].
    rewrite Forall_forall in Hall. auto.
  - exists y. split; [exact E | ]. split; [apply ge_int_value, G | apply le_int_value, L].
Qed.

Lemma rmap_Forall2_ok {A B} (f : A -> result B) (P : A -> B -> Prop) l :
  Forall (fun a => exists b, f a = Ok b /\ P a b) l ->
  exists l', rmap f l = Ok l' /\ Forall2 P l l'.
Proof.
  induction 1 as [ | x l (y & Hy & Py) _ (ys & Hys & Pys)]; cbn [rmap].
  - exists []. split; [reflexivity | constructor].
  - rewrite Hy, Hys. cbn [rbind]. exists (y :: ys). split; [reflexivity | ].
    constructor; assumption.
Qed.

(** *** Lists *)

Lemma NoDup_firstn {A} n (l : list A) : NoDup l -> NoDup (firstn n l).
Proof.
  intros H. rewrite <- (firstn_skipn n l) in H. eapply NoDup_app_remove_r. exact H.
Qed.

Lemma sorted_map {A B} (f : A -> B) (R : B -> B -> Prop) l :
  StronglySorted (fun a b => R (f a) (f b)) l -> StronglySorted R (map f l).
Proof.
  induction 1 as [ | x l _ IH Hx]; cbn [map]; constructor; [exact IH | ].
  rewrite Forall_forall in *. intros y Hy.
  apply in_map_iff in Hy as (z & <- & Hz). auto.
Qed.

Lemma Forall2_fst_snd {A B} (P : A -> B -> Prop) (l : list (A * B)) :
  Forall (fun p => P (fst p) (snd p)) l -> Forall2 P (map fst l) (map snd l).
Proof. induction 1; cbn [map]; constructor; assumption. Qed.

(** *** The series of [demand_chart] *)

Lemma demand_pairs data :
  Forall (fun f => 30 <= demand_score f <= 100) data ->
  exists pairs,
    rmap (fun kv : string * list Z => let? a := mean (snd kv) in Ok (fst kv, a))
         (group_by destination demand_score data) = Ok pairs
    /\ map fst pairs = uniq (map destination data)
    /\ Forall (fun p => mean (map demand_score (keyed destination (fst p) data))
                        = Ok (snd p)
                        /\ (inject_Z 30 <= value (snd p))%Q
                        /\ (value (snd p) <= inject_Z 100)%Q) pairs.
Proof.
  intros Hall.
  rewrite <- (SortFacts.group_by_keys destination demand_score data).
  assert (S : Forall (fun kv => In kv (group_by destination demand_score data))
                     (group_by destination demand_score data))
    by (apply Forall_forall; auto).
  revert S. generalize (group_by destination demand_score data) at 2 3 4.
  intros g S. induction S as [ | [k vs] g Hkv _ (pairs & E & K & F)]; cbn [rmap].
  - exists []. repeat split; constructor.
  - apply group_members in Hkv as [-> Hk].
    destruct (keyed_mean destination demand_score data 30 100 k) as (y & Ey & B);
      try assumption; try lia.
    cbn [fst snd]. rewrite Ey. cbn [rbind]. rewrite E. cbn [rbind].
    exists ((k, y) :: pairs). split; [reflexivity | ].
    split; [cbn [map fst]; now rewrite K | ].
    constructor; [cbn [fst snd]; auto | exact F].
Qed.

Lemma demand_series data :
  data <> [] ->
  Forall (fun f => 30 <= demand_score f <= 100) data ->
  exists xs ys,
    demand_figure data = Ok (bar_figure xs ys)
    /\ (1 <= List.length xs <= 15)%nat
    /\ NoDup xs
    /\ incl xs (map destination data)
    /\ series_of_means destination demand_score data 30 100 xs ys
    /\ descending ys.
Proof.
  intros Hne Hall.
  destruct (demand_pairs data Hall) as (pairs & E & K & F).
  destruct (uniq_spec (map destination data)) as [N I].
  pose proof (SortFacts.sorted_reverse_perm snd pairs) as P.
  pose proof (SortFacts.sorted_reverse_sorted snd pairs) as S.
  set (sorted_data := firstn 15 (sorted_reverse snd pairs)).
  assert (Hin : forall p, In p sorted_data -> In p pairs).
  { intros p Hp. apply (SortFacts.in_firstn snd) in Hp.
    apply (Permutation_in _ (Permutation_sym P)) in Hp. exact Hp. }
  assert (L : (1 <= List.length sorted_data <= 15)%nat).
  { subst sorted_data. rewrite length_firstn.
    rewrite <- (Permutation_length P).
    rewrite <- (length_map fst pairs), K.
    rewrite <- (SortFacts.group_by_keys destination demand_score data), length_map.
    pose proof (AppMore.group_by_nonempty destination demand_score data Hne) as G.
    destruct (group_by destination demand_score data); [congruence | ].
    cbn [List.length]. lia. }
  exists (map fst sorted_data), (map snd sorted_data).
  split.
  { unfold demand_figure. cbv zeta. rewrite E. cbn [rbind].
    fold sorted_data. unfold unzip_pairs.
    destruct sorted_data; [cbn [List.length] in L; lia | reflexivity]. }
  split; [rewrite length_map; exact L | ].
  split.
  { subst sorted_data. rewrite <- firstn_map. apply NoDup_firstn.
    apply (Permutation_NoDup (Permutation_map fst P)). rewrite K. exact N. }
  split.
  { intros x Hx. apply in_map_iff in Hx as (p & <- & Hp).
    apply I. rewrite <- K. apply in_map. auto. }
  split.
  { apply Forall2_fst_snd. apply Forall_forall. intros p Hp.
    rewrite Forall_forall in F. apply F. auto. }
  apply sorted_map. subst sorted_data. apply SortFacts.firstn_sorted. exact S.
Qed.

(** X22.  Whenever [generate_sample_data] returns, the figure of
    [demand_chart] has between 1 and 15 bars, no destination twice and
    only cities of the generator; the height of a bar is the mean
    demand score of the generated flights to that destination, between
    30 and 100; the bars stand from the highest down; and the endpoint
    answers with the JSON text of that figure, or with the message of
    the exception that rendering it raised. *)
Theorem demand_chart_bars
    (plotly_dumps : figure -> result string) (fuel : nat) (w : World)
    (routes : list flight) (w' : World) :
  generate_sample_data fuel w = (Ok routes, w') ->
  exists xs ys,
    demand_figure routes = Ok (bar_figure xs ys)
    /\ (1 <= List.length xs <= 15)%nat
    /\ NoDup xs
    /\ incl xs cities
    /\ series_of_means destination demand_score routes 30 100 xs ys
    /\ descending ys
    /\ (forall s, plotly_dumps (bar_figure xs ys) = Ok s ->
                  demand_chart plotly_dumps fuel w = (Ok (Chart s), w'))
    /\ (forall e, plotly_dumps (bar_figure xs ys) = Raise e ->
                  demand_chart plotly_dumps fuel w = (Ok (ChartError (exn_msg e)), w')).
Proof.
  intros H.
  pose proof (RoutesFacts.generated_facts _ _ _ _ H) as (Hlen & Hwf & _).
  assert (Hne : routes <> []) by (intros ->; discriminate).
  destruct (demand_series routes Hne (RoutesFacts.well_formed_demand _ Hwf))
    as (xs & ys & E & L & N & I & M & D).
  exists xs, ys. repeat (split; [assumption | ]).
  split.
  { intros x Hx. apply I in Hx. apply in_map_iff in Hx as (f & <- & Hf).
    rewrite Forall_forall in Hwf. destruct (Hwf f Hf) as (_ & Hd & _). exact Hd. }
  split; [exact M | ]. split; [exact D | ].
  split.
  - intros s Hs. unfold demand_chart, try_except.
    rewrite (RoutesFacts.bind_run _ _ _ _ _ H). cbv beta.
    unfold bind, lift, ret. rewrite E, Hs. reflexivity.
  - intros e He. unfold demand_chart, try_except.
    rewrite (RoutesFacts.bind_run _ _ _ _ _ H). cbv beta.
    unfold bind, lift, ret. rewrite E, He. reflexivity.
Qed.

(** The chart of the demand in [sample_world]: one bar, Melbourne. *)
Lemma sample_demand_chart :
  exists xs ys,
    demand_figure (match fst (generate_sample_data 1 sample_world) with
                   | Ok routes => routes
                   | _ => []
                   end) = Ok (bar_figure xs ys)
    /\ (1 <= List.length xs <= 15)%nat
    /\ NoDup xs
    /\ incl xs cities
    /\ series_of_means destination demand_score
         (match fst (generate_sample_data 1 sample_world) with
          | Ok routes => routes
          | _ => []
          end) 30 100 xs ys
    /\ descending ys
    /\ (forall s, dumps_sample (bar_figure xs ys) = Ok s ->
                  demand_chart dumps_sample 1 sample_world
                  = (Ok (Chart s), snd (generate_sample_data 1 sample_world)))
    /\ (forall e, dumps_sample (bar_figure xs ys) = Raise e ->
                  demand_chart dumps_sample 1 sample_world
                  = (Ok (ChartError (exn_msg e)),
                     snd (generate_sample_data 1 sample_world))).
Proof.
  apply (demand_chart_bars dumps_sample 1 sample_world).
  vm_compute. reflexivity.
Defined.

(** *** The order of strings *)

Lemma ascii_compare_trans a b c :
  Ascii.compare a b <> Gt -> Ascii.compare b c <> Gt -> Ascii.compare a c <> Gt.
Proof.
  unfold Ascii.compare. rewrite !N.compare_le_iff. intros. lia.
Qed.

Lemma string_compare_trans s1 s2 s3 :
  String.compare s1 s2 <> Gt -> String.compare s2 s3 <> Gt ->
  String.compare s1 s3 <> Gt.
Proof.
  revert s2 s3. induction s1 as [ | c1 s1 IH]; intros [ | c2 s2] [ | c3 s3];
    cbn [String.compare]; try congruence.
  unfold Ascii.compare.
  destruct (N.compare_spec (N_of_ascii c1) (N_of_ascii c2)) as [E12 | L12 | G12];
    destruct (N.compare_spec (N_of_ascii c2) (N_of_ascii c3)) as [E23 | L23 | G23];
    destruct (N.compare_spec (N_of_ascii c1) (N_of_ascii c3)) as [E13 | L13 | G13];
    try congruence; try lia.
  apply IH.
Qed.

Lemma leb_trans s1 s2 s3 :
  String.leb s1 s2 = true -> String.leb s2 s3 = true -> String.leb s1 s3 = true.
Proof.
  unfold String.leb. intros H12 H23.
  pose proof (string_compare_trans s1 s2 s3) as T.
  destruct (String.compare s1 s2); try discriminate;
    destruct (String.compare s2 s3); try discriminate;
    destruct (String.compare s1 s3); try reflexivity;
    exfalso; apply T; congruence.
Qed.

Lemma insert_asc_perm x l : Permutation (x :: l) (insert_asc x l).
Proof.
  induction l as [ | y l IH]; cbn [insert_asc]; [reflexivity | ].
  destruct (String.leb x y); [reflexivity | ].
  rewrite perm_swap. now constructor.
Qed.

Lemma sorted_strings_perm l : Permutation l (sorted_strings l).
Proof.
  induction l as [ | x l IH]; cbn; [constructor | ].
  rewrite <- insert_asc_perm. now constructor.
Qed.

Lemma insert_asc_sorted x l :
  StronglySorted (fun s t => String.leb s t = true) l ->
  StronglySorted (fun s t => String.leb s t = true) (insert_asc x l).
Proof.
  induction 1 as [ | y l Hs IH Hy]; cbn [insert_asc].
  - repeat constructor.
  - destruct (String.leb x y) eqn:E.
    + constructor; [constructor; assumption | ].
      constructor; [exact E | ].
      rewrite Forall_forall in *. intros z Hz.
      eapply leb_trans; [exact E | auto].
    + constructor; [exact IH | ].
      assert (Hyx : String.leb y x = true).
      { destruct (String.leb_total x y) as [T | T]; congruence. }
      rewrite Forall_forall in *. intros z Hz.
      apply (Permutation_in _ (Permutation_sym (insert_asc_perm x l))) in Hz.
      destruct Hz as [<- | Hz]; auto.
Qed.

Lemma sorted_strings_sorted l :
  StronglySorted (fun s t => String.leb s t = true) (sorted_strings l).
Proof.
  induction l as [ | x l IH]; cbn; [constructor | ].
  now apply insert_asc_sorted.
Qed.

Lemma sorted_dates_chronological l :
  Forall (fun s => exists n, first_ordinal <= n <= max_ordinal /\ s = strftime_ymd n) l ->
  NoDup l ->
  StronglySorted (fun s t => String.leb s t = true) l ->
  chronological l.
Proof.
  intros F N S. unfold chronological.
  induction S as [ | s l S IH Hs]; [constructor | ].
  inversion F as [ | ? ? (a & Ha & Ea) F']; subst.
  inversion N as [ | ? ? Hn N']; subst.
  constructor; [auto | ].
  rewrite Forall_forall in *. intros t Ht.
  destruct (F' t Ht) as (b & Hb & ->).
  exists a, b. rewrite !CalendarFacts.date_round_trip by assumption.
  repeat split; try reflexivity.
  specialize (Hs _ Ht). rewrite CalendarFacts.date_leb in Hs by assumption.
  apply Z.leb_le in Hs.
  assert (a <> b) by (intros ->; auto). lia.
Qed.

(** *** The series of [price_chart] *)

Lemma price_series base data :
  first_ordinal - 1 <= base ->
  data <> [] ->
  Forall (fun f => 150 <= price f <= 3000) data ->
  Forall (fun f => exists off, 1 <= off <= 90 /\ base + off <= max_ordinal
                               /\ date f = strftime_ymd (base + off)) data ->
  exists xs ys,
    price_figure data = Ok (scatter_figure xs ys)
    /\ (1 <= List.length xs <= 90)%nat
    /\ Forall (fun s => exists off, 1 <= off <= 90 /\ s = strftime_ymd (base + off)) xs
    /\ chronological xs
    /\ series_of_means date price data 150 3000 xs ys.
Proof.
  intros Hb Hne Hprice Hdate.
  destruct (uniq_spec (map date data)) as [N I].
  pose proof (SortFacts.group_by_keys date price data) as K.
  set (dates := sorted_strings (map fst (group_by date price data))).
  assert (P : Permutation (uniq (map date data)) dates).
  { subst dates. rewrite K. apply sorted_strings_perm. }
  assert (Hin : forall s, In s dates -> In s (map date data)).
  { intros s Hs. apply I. apply (Permutation_in _ (Permutation_sym P)). exact Hs. }
  assert (Hoff : Forall (fun s => exists off, 1 <= off <= 90 /\ base + off <= max_ordinal
                                              /\ s = strftime_ymd (base + off)) dates).
  { apply Forall_forall. intros s Hs. apply Hin in Hs.
    apply in_map_iff in Hs as (f & <- & Hf).
    rewrite Forall_forall in Hdate. auto. }
  assert (Nd : NoDup dates) by (apply (Permutation_NoDup P), N).
  destruct (rmap_Forall2_ok
              (fun s => mean (dict_get s (group_by date price data)))
              (fun s y => mean (map price (keyed date s data)) = Ok y
                          /\ (inject_Z 150 <= value y)%Q
                          /\ (value y <= inject_Z 3000)%Q) dates)
    as (ys & E & M).
  { apply Forall_forall. intros s Hs. apply Hin in Hs.
    destruct (keyed_mean date price data 150 3000 s) as (y & Ey & B);
      try assumption; try lia.
    exists y. rewrite dict_get_group. auto. }
  exists dates, ys.
  split; [unfold price_figure; cbv zeta; fold dates; rewrite E; reflexivity | ].
  split.
  { split.
    - rewrite <- (Permutation_length P), <- K, length_map.
      pose proof (AppMore.group_by_nonempty date price data Hne) as G.
      destruct (group_by date price data); [congruence | cbn [List.length]; lia].
    - change 90%nat
        with (List.length (map (fun i => strftime_ymd (base + Z.of_nat i)) (seq 1 90))).
      apply NoDup_incl_length; [exact Nd | ].
      intros s Hs. rewrite Forall_forall in Hoff.
      destruct (Hoff s Hs) as (off & Ho & _ & ->).
      apply in_map_iff. exists (Z.to_nat off).
      split; [f_equal; lia | apply in_seq; lia]. }
  split.
  { eapply Forall_impl; [ | exact Hoff]. cbv beta.
    intros s (off & Ho & _ & Es). eauto. }
  split; [ | exact M].
  apply sorted_dates_chronological; [ | exact Nd | apply sorted_strings_sorted].
  eapply Forall_impl; [ | exact Hoff]. cbv beta.
  intros s (off & Ho & Hm & Es). exists (base + off). split; [lia | exact Es].
Qed.

(** X23.  Whenever [generate_sample_data] returns and today is
    31 December 999 or later, the figure of [price_chart] has between 1
    and 90 points; its dates are days 1 to 90 after today in
    chronological order, none twice, although they are sorted as
    strings; the value at a date is the mean price of the generated
    flights of that date, between 150 and 3000; and the endpoint
    answers with the JSON text of that figure, or with the message of
    the exception that rendering it raised. *)
Theorem price_chart_series
    (plotly_dumps : figure -> result string) (fuel : nat) (w : World)
    (routes : list flight) (w' : World) :
  first_ordinal - 1 <= clock w ->
  generate_sample_data fuel w = (Ok routes, w') ->
  exists xs ys,
    price_figure routes = Ok (scatter_figure xs ys)
    /\ (1 <= List.length xs <= 90)%nat
    /\ Forall (fun s => exists off, 1 <= off <= 90 /\ s = strftime_ymd (clock w + off)) xs
    /\ chronological xs
    /\ series_of_means date price routes 150 3000 xs ys
    /\ (forall s, plotly_dumps (scatter_figure xs ys) = Ok s ->
                  price_chart plotly_dumps fuel w = (Ok (Chart s), w'))
    /\ (forall e, plotly_dumps (scatter_figure xs ys) = Raise e ->
                  price_chart plotly_dumps fuel w = (Ok (ChartError (exn_msg e)), w')).
Proof.
  intros Hc H.
  pose proof (RoutesFacts.generated_facts _ _ _ _ H) as (Hlen & Hwf & Hdates).
  assert (Hne : routes <> []) by (intros ->; discriminate).
  assert (Hprice : Forall (fun f => 150 <= price f <= 3000) routes).
  { eapply Forall_impl; [ | exact Hwf]. intros f (_ & _ & _ & _ & Hp & _).
    destruct (is_domestic f); lia. }
  destruct (price_series (clock w) routes Hc Hne Hprice Hdates)
    as (xs & ys & E & L & F & C & M).
  exists xs, ys. repeat (split; [assumption | ]).
  split.
  - intros s Hs. unfold price_chart, try_except.
    rewrite (RoutesFacts.bind_run _ _ _ _ _ H). cbv beta.
    unfold bind, lift, ret. rewrite E, Hs. reflexivity.
  - intros e He. unfold price_chart, try_except.
    rewrite (RoutesFacts.bind_run _ _ _ _ _ H). cbv beta.
    unfold bind, lift, ret. rewrite E, He. reflexivity.
Qed.

(** The chart of the prices in [sample_world]: one point, 2024-03-16. *)
Lemma sample_price_chart :
  exists xs ys,
    price_figure (match fst (generate_sample_data 1 sample_world) with
                  | Ok routes => routes
                  | _ => []
                  end) = Ok (scatter_figure xs ys)
    /\ (1 <= List.length xs <= 90)%nat
    /\ Forall (fun s => exists off,
                 1 <= off <= 90 /\ s = strftime_ymd (clock sample_world + off)) xs
    /\ chronological xs
    /\ series_of_means date price
         (match fst (generate_sample_data 1 sample_world) with
          | Ok routes => routes
          | _ => []
          end) 150 3000 xs ys
    /\ (forall s, dumps_sample (scatter_figure xs ys) = Ok s ->
                  price_chart dumps_sample 1 sample_world
                  = (Ok (Chart s), snd (generate_sample_data 1 sample_world)))
    /\ (forall e, dumps_sample (scatter_figure xs ys) = Raise e ->
                  price_chart dumps_sample 1 sample_world
                  = (Ok (ChartError (exn_msg e)),
                     snd (generate_sample_data 1 sample_world))).
Proof.
  apply (price_chart_series dumps_sample 1 sample_world).
  - vm_compute. discriminate.
  - vm_compute. reflexivity.
Defined.

End ChartFacts.

(** ** [FlightAPIIntegrator] *)

Module IntegratorFacts.
Import Integrator Spec SpecMore MonadFacts GenFacts.

Lemma rounded_price_mod i : rounded_price i = rounded_price (i mod 7).
Proof.
  unfold rounded_price, price_variation. now rewrite Z.mod_mod by lia.
Qed.

Lemma float_eqb_eq x y : float_eqb x y = true -> x = y.
Proof.
  destruct x as [m e], y as [m' e']. unfold float_eqb. cbn [mant expo].
  intros H. apply andb_prop in H as [Hm He].
  apply Z.eqb_eq in Hm, He. now subst.
Qed.

Lemma weekly_spec k :
  0 <= k < 7 ->
  rounded_price k = Ok (Some (nth (Z.to_nat k) weekly_prices zero)).
Proof.
  intros Hk.
  pose proof (forall_range weekly_ok 0 7 ltac:(vm_compute; reflexivity) k ltac:(lia))
    as H.
  unfold weekly_ok in H.
  destruct (rounded_price k) as [[x | ] | | ]; try discriminate.
  apply float_eqb_eq in H. now subst.
Qed.

Lemma rmap_map {A B} (f : A -> result B) (g : A -> B) l :
  (forall x, In x l -> f x = Ok (g x)) -> rmap f l = Ok (map g l).
Proof.
  induction l as [ | x l IH]; intros H; cbn [rmap map]; [reflexivity | ].
  rewrite (H x (or_introl eq_refl)). cbn [rbind].
  rewrite IH by (intros y Hy; apply H; right; exact Hy). reflexivity.
Qed.

Lemma range_spec n i : In i (range n) <-> 0 <= i < n.
Proof.
  unfold range. rewrite in_map_iff. split.
  - intros (k & <- & Hk). apply in_seq in Hk. lia.
  - intros H. exists (Z.to_nat i). split; [lia | apply in_seq; lia].
Qed.

Lemma range_length n : 0 <= n -> Zlen (range n) = n.
Proof.
  intros H. unfold Zlen, range. rewrite length_map, length_seq. lia.
Qed.

(** X24.  For a number of days that does not reach back before
    1000-01-01, [get_price_history] returns one record per day, from
    [days] days ago to yesterday in order; each carries the route
    asked for and the currency AUD; and the prices, computed in
    floating point, are exactly 320.0, 342.86, 365.71, 388.57, 411.43,
    434.29 and 457.14, repeating every seven records. *)
Theorem price_history_weekly_pattern (today : Z) (route : string) (days : Z) :
  0 <= days -> first_ordinal <= today - days -> today <= max_ordinal ->
  exists history,
    get_price_history today route days = Ok history
    /\ Zlen history = days
    /\ history = map (history_point today route days) (range days).
Proof.
  intros Hd Hlo Hhi. unfold first_ordinal in Hlo. unfold max_ordinal in Hhi.
  exists (map (history_point today route days) (range days)).
  split; [ | split; [ | reflexivity]].
  - unfold get_price_history, timedelta.
    destruct (Z.ltb_spec 999999999 (Z.abs days)) as [L | _]; [lia | ].
    cbn [rbind]. unfold shift_date. cbv zeta.
    destruct (Z.ltb_spec (today + - days) 1) as [L | _]; [lia | ].
    destruct (Z.ltb_spec max_ordinal (today + - days)) as [L | _];
      [unfold max_ordinal in L; lia | ].
    cbn [orb rbind]. apply rmap_map. intros i Hi. apply range_spec in Hi.
    destruct (Z.ltb_spec 999999999 (Z.abs i)) as [L | _]; [lia | ].
    cbn [rbind].
    destruct (Z.ltb_spec (today + - days + i) 1) as [L | _]; [lia | ].
    destruct (Z.ltb_spec max_ordinal (today + - days + i)) as [L | _];
      [unfold max_ordinal in L; lia | ].
    cbn [orb rbind].
    rewrite rounded_price_mod, weekly_spec by (apply Z.mod_pos_bound; lia).
    cbn [rbind]. unfold history_point. reflexivity.
  - unfold Zlen. rewrite length_map. apply range_length, Hd.
Qed.

(** Thirty days of history on Friday 2024-03-15. *)
Lemma sample_price_history :
  exists history,
    get_price_history 738960 "SYD-MEL" 30 = Ok history
    /\ Zlen history = 30
    /\ history = map (history_point 738960 "SYD-MEL" 30) (range 30).
Proof.
  apply (price_history_weekly_pattern 738960 "SYD-MEL" 30).
  - lia.
  - vm_compute. discriminate.
  - vm_compute. discriminate.
Defined.

End IntegratorFacts.

(** ** The scraper *)

Module ScraperFacts.
Import Integrator Scraper Spec SpecMore MonadFacts FloatFacts FloatOrder.

(** *** Floats *)

Lemma of_Z_exact z :
  - 2 ^ 53 <= z <= 2 ^ 53 -> exists x, of_Z z = Ok x /\ num x = z * den x.
Proof.
  intros H. unfold of_Z.
  destruct (fround_some z 1) as [x E]; [lia | lia | ].
  rewrite E. exists x. split; [reflexivity | ].
  assert (G : ge_int x z) by (eapply fround_ge; [ | | | exact E]; lia).
  assert (L : le_int x z) by (eapply fround_le; [ | | | exact E]; lia).
  unfold ge_int, le_int in *. lia.
Qed.

Lemma fmul_bounds x y lo hi :
  0 <= num x -> 0 <= num y -> 0 <= lo -> hi <= 2 ^ 53 ->
  lo * (den x * den y) <= num x * num y <= hi * (den x * den y) ->
  exists p, fmul x y = Some p /\ ge_int p lo /\ le_int p hi.
Proof.
  intros Hx Hy Hlo Hhi H. unfold fmul.
  pose proof (den_pos x). pose proof (den_pos y).
  assert (D : 0 < den x * den y) by nia.
  destruct (fround_some (num x * num y) (den x * den y) D) as [p E]; [nia | ].
  exists p. split; [exact E | ].
  split; [eapply fround_ge | eapply fround_le]; try exact E; try lia; nia.
Qed.

Lemma to_int_bounds p lo hi :
  0 <= lo -> ge_int p lo -> le_int p hi -> lo <= to_int p <= hi.
Proof.
  unfold to_int, ge_int, le_int. intros Hlo G L. pose proof (den_pos p).
  rewrite Z.quot_div_nonneg by nia.
  split; [apply Z.div_le_lower_bound; lia | ].
  apply Z.div_le_upper_bound; lia.
Qed.

Lemma fleq_trans_above a x p q :
  0 < q -> p * den a <= q * num a -> fleq a x -> p * den x <= q * num x.
Proof.
  unfold fleq. intros Hq Ha L.
  pose proof (den_pos a). pose proof (den_pos x).
  apply (Z.mul_le_mono_pos_r _ _ (den a)); [lia | ].
  transitivity (q * num a * den x).
  - replace (p * den x * den a) with (p * den a * den x) by ring.
    apply Z.mul_le_mono_nonneg_r; lia.
  - replace (q * num a * den x) with (q * (num a * den x)) by ring.
    replace (q * num x * den a) with (q * (num x * den a)) by ring.
    apply Z.mul_le_mono_nonneg_l; lia.
Qed.

Lemma fleq_trans_below b x p q :
  0 < q -> q * num b <= p * den b -> fleq x b -> q * num x <= p * den x.
Proof.
  unfold fleq. intros Hq Hb L.
  pose proof (den_pos b). pose proof (den_pos x).
  apply (Z.mul_le_mono_pos_r _ _ (den b)); [lia | ].
  transitivity (q * num b * den x).
  - replace (q * num x * den b) with (q * (num x * den b)) by ring.
    replace (q * num b * den x) with (q * (num b * den x)) by ring.
    apply Z.mul_le_mono_nonneg_l; lia.
  - replace (p * den x * den b) with (p * den b * den x) by ring.
    apply Z.mul_le_mono_nonneg_r; lia.
Qed.

(** *** Random draws *)

Lemma same_output_refl w : same_output w w.
Proof. repeat split. Qed.

Lemma same_output_trans w1 w2 w3 :
  same_output w1 w2 -> same_output w2 w3 -> same_output w1 w3.
Proof.
  unfold same_output. intros (A1 & B1 & C1 & D1) (A2 & B2 & C2 & D2).
  repeat split; congruence.
Qed.

Lemma returns_ret {A} (a : A) (P : A -> Prop) : P a -> returns (ret a) P.
Proof. intros H w. exists a, w. split; [reflexivity | ]. split; [exact H | apply same_output_refl]. Qed.

Lemma returns_bind {A B} (c : M World A) (k : A -> M World B)
    (P : A -> Prop) (Q : B -> Prop) :
  returns c P -> (forall a, P a -> returns (k a) Q) -> returns (bind c k) Q.
Proof.
  intros Hc Hk w. destruct (Hc w) as (a & w1 & E & Pa & S1).
  destruct (Hk a Pa w1) as (b & w2 & E2 & Qb & S2).
  exists b, w2. unfold bind. rewrite E. split; [exact E2 | ].
  split; [exact Qb | eapply same_output_trans; eassumption].
Qed.

Lemma returns_weaken {A} (c : M World A) (P Q : A -> Prop) :
  returns c P -> (forall a, P a -> Q a) -> returns c Q.
Proof.
  intros Hc H w. destruct (Hc w) as (a & w1 & E & Pa & S1). eauto 6.
Qed.

Lemma returns_draw : returns draw (fun _ => True).
Proof.
  intros w. eexists. eexists. split; [reflexivity | ]. split; [exact I | ].
  repeat split.
Qed.

Lemma returns_randbelow n : 0 < n -> returns (randbelow n) (fun z => 0 <= z < n).
Proof.
  intros Hn. unfold randbelow. eapply returns_bind; [apply returns_draw | ].
  intros r _. apply returns_ret. cbv beta. apply Z.mod_pos_bound, Hn.
Qed.

Lemma returns_randint a b : a <= b -> returns (randint a b) (fun z => a <= z <= b).
Proof.
  intros H. unfold randint. eapply returns_bind; [apply returns_randbelow; lia | ].
  intros r Hr. apply returns_ret. cbv beta in *. lia.
Qed.

Lemma returns_choice {A} (seq : list A) (default : A) :
  seq <> [] -> returns (choice seq default) (fun x => In x seq).
Proof.
  intros Hne. unfold choice. destruct seq as [ | x seq]; [congruence | ].
  eapply returns_bind.
  - apply returns_randbelow. unfold Zlen. cbn [List.length]. lia.
  - intros i Hi. apply returns_ret. cbv beta in *. apply nth_In. unfold Zlen in Hi. lia.
Qed.

Lemma returns_for_range {A} (body : M World A) (P : A -> Prop) n :
  returns body P ->
  returns (App.for_range n body) (fun l => List.length l = n /\ Forall P l).
Proof.
  intros Hb. induction n as [ | n IH]; cbn [App.for_range].
  - apply returns_ret. split; [reflexivity | constructor].
  - eapply returns_bind; [exact Hb | ]. intros x Px.
    eapply returns_bind; [exact IH | ]. intros xs [L F].
    apply returns_ret. split; [cbn; now rewrite L | constructor; assumption].
Qed.

(** [random.uniform(a, b)] lies between [a] and any double [hi] that
    is not below [a + (b - a)]. *)
Lemma returns_uniform a b width hi :
  fsub b a = Some width ->
  nonneg_double a -> nonneg_double width -> nonneg_double hi ->
  num hi <= 2 ^ 53 * den hi ->
  (num a * den width + num width * den a) * den hi <= num hi * (den a * den width) ->
  returns (uniform a b) (fun u => exists x, u = Some x /\ fleq a x /\ fleq x hi).
Proof.
  intros Hw Ha Hc Hhi Hbig Hsum.
  unfold uniform, random. eapply returns_bind.
  { eapply returns_bind; [apply returns_draw | ]. intros r _.
    apply (returns_ret _ (fun x => exists k, 0 <= k < 2 ^ 53 /\ x = mkFloat k (-53))).
    exists (Z.of_N r mod 2 ^ 53). split; [apply Z.mod_pos_bound; lia | reflexivity]. }
  intros r (k & Hk & ->). apply returns_ret. rewrite Hw. cbn [xbind].
  assert (Na : 0 <= num a).
  { unfold num. destruct Ha as [[? _] _]. pose proof (pow2_max_pos (expo a)). nia. }
  assert (Nc : 0 <= num width).
  { unfold num. destruct Hc as [[? _] _]. pose proof (pow2_max_pos (expo width)). nia. }
  pose proof (den_pos a) as Da. pose proof (den_pos width) as Dc.
  pose proof (den_pos hi) as Dh.
  set (r := mkFloat k (-53)).
  assert (Nr : num r = k) by (unfold num, r; cbn [mant expo]; change (2 ^ Z.max 0 (-53)) with 1; lia).
  assert (Dr : den r = 2 ^ 53) by reflexivity.
  (* the width is at most 2^53 *)
  assert (Cbig : num width <= 2 ^ 53 * den width).
  { apply (Z.mul_le_mono_pos_r _ _ (den a * den hi)); [nia | ].
    transitivity ((num a * den width + num width * den a) * den hi); [nia | ].
    transitivity (num hi * (den a * den width)); [exact Hsum | ]. nia. }
  (* the product *)
  unfold fmul at 1. rewrite Nr, Dr.
  assert (D1 : 0 < den width * 2 ^ 53) by nia.
  destruct (fround_some (num width * k) (den width * 2 ^ 53) D1) as [p Ep]; [nia | ].
  rewrite Ep. cbn [xbind].
  assert (Np : 0 <= num p) by (eapply fround_nonneg; [ | exact D1 | exact Ep]; nia).
  assert (Lp : fleq p width).
  { eapply fround_le_float; [ | exact D1 | exact Ep | exact Hc | ]; [nia | nia]. }
  pose proof (den_pos p) as Dp. unfold fleq in Lp.
  (* the sum *)
  assert (I : (num a * den p + num p * den a) * den hi <= num hi * (den a * den p)).
  { apply (Z.mul_le_mono_pos_r _ _ (den width)); [lia | ].
    transitivity ((num a * den width + num width * den a) * den hi * den p).
    - replace ((num a * den p + num p * den a) * den hi * den width)
        with (num a * den width * den hi * den p + num p * den width * (den a * den hi))
        by ring.
      replace ((num a * den width + num width * den a) * den hi * den p)
        with (num a * den width * den hi * den p + num width * den p * (den a * den hi))
        by ring.
      apply Z.add_le_mono_l. apply Z.mul_le_mono_nonneg_r; [nia | exact Lp].
    - replace (num hi * (den a * den p) * den width)
        with (num hi * (den a * den width) * den p) by ring.
      apply Z.mul_le_mono_nonneg_r; [lia | exact Hsum]. }
  unfold fadd.
  assert (D2 : 0 < den a * den p) by nia.
  destruct (fround_some (num a * den p + num p * den a) (den a * den p) D2)
    as [u Eu].
  { split; [nia | ].
    apply (Z.mul_le_mono_pos_r _ _ (den hi)); [lia | ].
    transitivity (num hi * (den a * den p)); [exact I | ].
    replace (2 ^ 53 * (den a * den p) * den hi)
      with (2 ^ 53 * den hi * (den a * den p)) by ring.
    apply Z.mul_le_mono_nonneg_r; lia. }
  exists u. split; [exact Eu | ]. split.
  - eapply fround_ge_float; [ | exact D2 | exact Eu | exact Ha | ]; nia.
  - eapply fround_le_float; [ | exact D2 | exact Eu | exact Hhi | exact I]. nia.
Qed.

Ltac check := vm_compute; first [reflexivity | discriminate | intro; discriminate].

Ltac check_double := split; [split | ]; check.

(** [random.uniform(0.8, 1.4)] lies between 4/5 and 7/5. *)
Lemma returns_price_variation :
  returns (uniform (literal 8 1) (literal 14 1))
          (fun u => exists x, u = Some x /\ 4 * den x <= 5 * num x
                              /\ 5 * num x <= 7 * den x).
Proof.
  eapply returns_weaken.
  - apply (returns_uniform _ _ (mkFloat 5404319552844594 (-53)) (literal 14 1));
      try check_double; check.
  - cbv beta. intros u (x & -> & Lo & Hi). exists x. split; [reflexivity | ]. split.
    + apply (fleq_trans_above (literal 8 1)); [lia | check | exact Lo].
    + apply (fleq_trans_below (literal 14 1)); [lia | check | exact Hi].
Qed.

(** [random.uniform(0.3, 1.0)] lies between the doubles 0.3 and 1.0. *)
Lemma returns_demand :
  returns (uniform (literal 3 1) (literal 10 1))
          (fun u => exists x, u = Some x /\ fleq (literal 3 1) x
                              /\ fleq x (literal 10 1)).
Proof.
  apply (returns_uniform _ _ (mkFloat 6305039478318694 (-53)) (literal 10 1));
    try check_double; check.
Qed.

(** [random.uniform(1, 3)] lies between 1 and 3. *)
Lemma returns_pause :
  returns (uniform (literal 1 0) (literal 3 0))
          (fun u => exists x, u = Some x /\ ge_int x 1 /\ le_int x 3).
Proof.
  eapply returns_weaken.
  - apply (returns_uniform _ _ (mkFloat 4503599627370496 (-51)) (literal 3 0));
      try check_double; check.
  - cbv beta. intros u (x & -> & Lo & Hi). exists x. split; [reflexivity | ].
    unfold ge_int, le_int. split.
    + assert (L : 1 * den x <= 1 * num x)
        by (apply (fleq_trans_above (literal 1 0)); [lia | check | exact Lo]). lia.
    + assert (L : 1 * num x <= 3 * den x)
        by (apply (fleq_trans_below (literal 3 0)); [lia | check | exact Hi]). lia.
Qed.

(** *** _estimate_distance *)

Lemma table_get_in k t v : table_get k t = Some v -> In (k, v) t.
Proof.
  induction t as [ | [k' v'] t IH]; cbn [table_get]; [discriminate | ].
  destruct (String.eqb_spec (fst k) (fst k')) as [E1 | _]; cbn [andb].
  - destruct (String.eqb_spec (snd k) (snd k')) as [E2 | _].
    + intros [= <-]. left. destruct k, k'. cbn in *. congruence.
    + intros H. right. auto.
  - intros H. right. auto.
Qed.

Lemma known_distance_bounds o d km : known_distance o d = Some km -> 880 <= km <= 3290.
Proof.
  unfold known_distance.
  destruct (table_get (o, d) domestic_routes) as [k | ] eqn:E.
  - intros [= <-]. apply table_get_in in E. unfold domestic_routes in E.
    repeat (destruct E as [E | E]; [injection E as _ _ <-; lia | ]). destruct E.
  - intros E'. apply table_get_in in E'. unfold domestic_routes in E'.
    repeat (destruct E' as [E' | E']; [injection E' as _ _ <-; lia | ]). destruct E'.
Qed.

Lemma known_distance_run o d km w :
  known_distance o d = Some km -> _estimate_distance o d w = (Ok km, w).
Proof.
  unfold known_distance, _estimate_distance.
  destruct (table_get (o, d) domestic_routes) as [k | ].
  - intros [= <-]. reflexivity.
  - intros ->. reflexivity.
Qed.

Lemma known_distance_sym o d km :
  known_distance o d = Some km -> known_distance d o = Some km.
Proof.
  unfold known_distance.
  destruct (table_get (o, d) domestic_routes) as [k | ] eqn:E.
  - intros [= <-]. apply table_get_in in E. unfold domestic_routes in E.
    repeat (destruct E as [E | E]; [injection E as <- <- <-; reflexivity | ]).
    destruct E.
  - intros E'. rewrite E'. reflexivity.
Qed.

Lemma returns_distance o d :
  returns (_estimate_distance o d)
          (fun km => 880 <= km <= 20000
                     /\ forall k, known_distance o d = Some k -> km = k).
Proof.
  destruct (known_distance o d) as [k | ] eqn:K.
  - intros w. exists k, w. split; [apply known_distance_run, K | ].
    split; [ | apply same_output_refl].
    pose proof (known_distance_bounds o d k K).
    split; [lia | intros k' [= <-]; reflexivity].
  - unfold known_distance in K. unfold _estimate_distance.
    destruct (table_get (o, d) domestic_routes); [discriminate | ]. rewrite K.
    destruct (App.str_in o ["SYD"; "MEL"; "BNE"]
              && App.str_in d ["SIN"; "BKK"; "NRT"]);
      [ | destruct (App.str_in d ["LAX"; "LHR"])];
      (eapply returns_weaken; [apply returns_randint; lia | ]);
      cbv beta; intros km Hkm; (split; [lia | discriminate]).
Qed.

(** X26.  [_estimate_distance] always returns a distance between 880
    and 20000 km.  For a route of its table, in either direction, it
    returns the distance of the table, the same both ways, without
    drawing a random number.  A route from Sydney, Melbourne or
    Brisbane to Singapore, Bangkok or Tokyo gets between 6000 and
    9000 km, but the way back only between 1000 and 5000 km. *)
Theorem distance_estimates (origin destination : string) :
  returns (_estimate_distance origin destination) (fun km => 880 <= km <= 20000)
  /\ (forall km w,
        known_distance origin destination = Some km ->
        _estimate_distance origin destination w = (Ok km, w)
        /\ _estimate_distance destination origin w = (Ok km, w))
  /\ (In origin ["SYD"; "MEL"; "BNE"] -> In destination ["SIN"; "BKK"; "NRT"] ->
      returns (_estimate_distance origin destination) (fun km => 6000 <= km <= 9000)
      /\ returns (_estimate_distance destination origin)
                 (fun km => 1000 <= km <= 5000)).
Proof.
  split; [ | split].
  - eapply returns_weaken; [apply returns_distance | ]. cbv beta. intros km [H _]. exact H.
  - intros km w K. split; apply known_distance_run; [exact K | ].
    apply known_distance_sym, K.
  - intros Ho Hd. cbn [In] in Ho, Hd.
    destruct Ho as [<- | [<- | [<- | []]]]; destruct Hd as [<- | [<- | [<- | []]]];
      (split; [apply (returns_randint 6000 9000) | apply (returns_randint 1000 5000)]);
      lia.
Qed.

(** From Sydney to Singapore and back. *)
Lemma sydney_singapore_distances :
  returns (_estimate_distance "SYD" "SIN") (fun km => 6000 <= km <= 9000)
  /\ returns (_estimate_distance "SIN" "SYD") (fun km => 1000 <= km <= 5000).
Proof.
  apply (distance_estimates "SYD" "SIN"); cbn; auto.
Defined.

(** *** Prices *)

Lemma of_Z_200 : exists floor, of_Z 200 = Ok floor /\ num floor = 200 * den floor.
Proof. apply of_Z_exact. lia. Qed.

Lemma base_price_spec km :
  880 <= km <= 20000 ->
  exists base,
    base_price_of km = Ok base
    /\ (base = Floor \/ exists b, base = Scaled (Some b) /\ ge_int b 200 /\ le_int b 3000)
    /\ (km <= 1333 -> base = Floor).
Proof.
  intros Hkm. unfold base_price_of.
  destruct (of_Z_exact km ltac:(lia)) as (x & -> & Ex). cbn [rbind].
  destruct of_Z_200 as (floor & Ef & Nf). rewrite Ef.
  pose proof (den_pos x) as Dx.
  set (c := literal 15 2).
  assert (Nc : 0 <= num c) by check.
  assert (Cle : 20 * num c <= 3 * den c) by check.
  pose proof (den_pos c) as Dc.
  assert (D : 0 < den x * den c) by nia.
  assert (Up : num x * num c <= 3000 * (den x * den c)).
  { rewrite Ex.
    transitivity (20000 * den x * num c); [apply Z.mul_le_mono_nonneg_r; nia | ].
    replace (20000 * den x * num c) with (1000 * den x * (20 * num c)) by ring.
    replace (3000 * (den x * den c)) with (1000 * den x * (3 * den c)) by ring.
    apply Z.mul_le_mono_nonneg_l; nia. }
  assert (Nx : 0 <= num x) by (rewrite Ex; nia).
  destruct (fmul_bounds x c 0 3000) as (b & Eb & Gb & Lb); try lia.
  rewrite Eb. cbn [rbind].
  destruct (flt_bool floor b) eqn:F.
  - eexists. split; [reflexivity | ]. split.
    + right. exists b. split; [reflexivity | ]. split; [ | exact Lb].
      unfold flt_bool in F. apply negb_true_iff in F.
      apply ge_int_value.
      destruct (Qlt_le_dec (value floor) (value b)) as [L | L].
      * apply Qlt_le_weak. eapply Qle_lt_trans; [ | exact L].
        apply ge_int_value. unfold ge_int. lia.
      * apply Qle_bool_iff in L. congruence.
    + intros Hs. exfalso.
      assert (Lb' : le_int b 200).
      { unfold fmul in Eb. eapply fround_le; [exact D | | | exact Eb]; [lia | ].
        rewrite Ex.
        transitivity (1333 * den x * num c); [apply Z.mul_le_mono_nonneg_r; nia | ].
        apply (Z.mul_le_mono_pos_r _ _ 20); [lia | ].
        replace (1333 * den x * num c * 20) with (1333 * den x * (20 * num c)) by ring.
        transitivity (1333 * den x * (3 * den c));
          [apply Z.mul_le_mono_nonneg_l; nia | nia]. }
      unfold flt_bool in F. apply negb_true_iff in F.
      assert (Qle_bool (value b) (value floor) = true); [ | congruence].
      apply Qle_bool_iff. eapply Qle_trans; [apply le_int_value; exact Lb' | ].
      apply ge_int_value. unfold ge_int. lia.
  - eexists. split; [reflexivity | ]. split; [left; reflexivity | reflexivity].
Qed.

Lemma final_price_spec base u :
  (base = Floor \/ exists b, base = Scaled (Some b) /\ ge_int b 200 /\ le_int b 3000) ->
  4 * den u <= 5 * num u -> 5 * num u <= 7 * den u ->
  exists z, final_price base (Some u) = Ok z
            /\ 160 <= z <= 4200 /\ (base = Floor -> z <= 280).
Proof.
  intros Hb Lo Hi. pose proof (den_pos u) as Du.
  assert (Nu : 0 <= num u) by lia.
  unfold final_price. destruct Hb as [-> | (b & -> & Gb & Lb)].
  - destruct of_Z_200 as (floor & -> & Nf). cbn [rbind xbind].
    pose proof (den_pos floor) as Df.
    assert (B : 160 * (den floor * den u) <= num floor * num u
                <= 280 * (den floor * den u)).
    { rewrite Nf. split.
      - replace (160 * (den floor * den u)) with (40 * den floor * (4 * den u)) by ring.
        replace (200 * den floor * num u) with (40 * den floor * (5 * num u)) by ring.
        apply Z.mul_le_mono_nonneg_l; nia.
      - replace (280 * (den floor * den u)) with (40 * den floor * (7 * den u)) by ring.
        replace (200 * den floor * num u) with (40 * den floor * (5 * num u)) by ring.
        apply Z.mul_le_mono_nonneg_l; nia. }
    destruct (fmul_bounds floor u 160 280) as (p & -> & Gp & Lp);
      try exact B; try lia.
    eexists. split; [reflexivity | ].
    pose proof (to_int_bounds p 160 280 ltac:(lia) Gp Lp). lia.
  - cbn [rbind xbind]. pose proof (den_pos b) as Db.
    unfold ge_int in Gb. unfold le_int in Lb.
    assert (B : 160 * (den b * den u) <= num b * num u <= 4200 * (den b * den u)).
    { split.
      - apply (Z.mul_le_mono_pos_r _ _ 5); [lia | ].
        transitivity (200 * den b * (4 * den u)); [nia | ].
        transitivity (num b * (4 * den u)); [apply Z.mul_le_mono_nonneg_r; nia | ].
        replace (num b * num u * 5) with (num b * (5 * num u)) by ring.
        apply Z.mul_le_mono_nonneg_l; nia.
      - apply (Z.mul_le_mono_pos_r _ _ 5); [lia | ].
        replace (num b * num u * 5) with (num b * (5 * num u)) by ring.
        transitivity (num b * (7 * den u)); [apply Z.mul_le_mono_nonneg_l; nia | ].
        transitivity (3000 * den b * (7 * den u));
          [apply Z.mul_le_mono_nonneg_r; nia | nia]. }
    destruct (fmul_bounds b u 160 4200) as (p & -> & Gp & Lp);
      try exact B; try lia.
    eexists. split; [reflexivity | ].
    pose proof (to_int_bounds p 160 4200 ltac:(lia) Gp Lp).
    split; [lia | discriminate].
Qed.

(** *** _generate_realistic_flight_data *)

Lemma returns_lift {A} (r : result A) (a : A) (P : A -> Prop) :
  r = Ok a -> P a -> returns (lift r) P.
Proof. intros -> H. apply returns_ret, H. Qed.

Section Generator.
Variable isoformat_now : World -> string.

Lemma returns_gen_flight o d day :
  returns (gen_flight isoformat_now o d day) (scraped_ok o d day).
Proof.
  unfold gen_flight.
  eapply returns_bind; [apply returns_distance | ]. cbv beta. intros km [Hkm Hknown].
  destruct (base_price_spec km Hkm) as (base & Eb & Hbase & Hfloor).
  eapply (returns_bind _ _
            (fun base =>
               (base = Floor
                \/ exists b, base = Scaled (Some b) /\ ge_int b 200 /\ le_int b 3000)
               /\ (km <= 1333 -> base = Floor)));
    [apply (returns_lift _ base); [exact Eb | exact (conj Hbase Hfloor)] | ].
  cbv beta. clear base Eb Hbase Hfloor. intros base [Hbase Hfloor].
  eapply returns_bind; [apply returns_price_variation | ]. cbv beta.
  intros u (x & -> & Lo & Hi).
  destruct (final_price_spec base x Hbase Lo Hi) as (z & Ez & Hz & Hz').
  assert (Hshort : forall k, known_distance o d = Some k -> k <= 1333 -> z <= 280).
  { intros k K Hk. rewrite <- (Hknown k K) in Hk. auto. }
  eapply (returns_bind _ _
            (fun z => 160 <= z <= 4200
                      /\ forall k, known_distance o d = Some k -> k <= 1333 -> z <= 280));
    [apply (returns_lift _ z); [exact Ez | exact (conj Hz Hshort)] | ].
  cbv beta. intros final [Hfinal Hfinal'].
  eapply returns_bind; [apply (returns_randint 6 22); lia | ]. cbv beta.
  intros dep Hdep. cbv zeta.
  eapply returns_bind; [apply (returns_choice airlines ""); discriminate | ].
  cbv beta. intros al Hal.
  eapply returns_bind; [apply (returns_randint 0 59); lia | ]. cbv beta. intros m1 Hm1.
  eapply returns_bind; [apply (returns_randint 0 59); lia | ]. cbv beta. intros m2 Hm2.
  eapply returns_bind; [apply (returns_randint 0 59); lia | ]. cbv beta. intros m3 Hm3.
  eapply returns_bind; [apply (returns_choice [0; 0; 0; 1] 0); discriminate | ].
  cbv beta. intros st Hst.
  eapply returns_bind; [apply (returns_randint 5 200); lia | ]. cbv beta.
  intros seats Hseats.
  eapply returns_bind; [apply (returns_choice booking_classes ""); discriminate | ].
  cbv beta. intros cls Hcls.
  eapply (returns_bind _ _ (fun _ => True)).
  { intros w. exists (isoformat_now w), w.
    split; [reflexivity | ]. split; [exact I | apply same_output_refl]. }
  intros stamp _.
  eapply returns_bind; [apply returns_demand | ]. cbv beta. intros dem Hdem.
  apply returns_ret. unfold scraped_ok.
  cbn [origin destination date currency price airline stops available_seats
       booking_class departure_time arrival_time demand_indicator].
  repeat (split; [first [reflexivity | assumption | lia] | ]).
  split; [cbn [In] in Hst; intuition lia | ].
  split; [lia | ]. split; [exact Hcls | ].
  split; [exists dep, m1; auto | ].
  split; [ | exact Hdem].
  exists ((dep + Z.max 1 (km / 800)) mod 24), m2.
  split; [pose proof (Z.mod_pos_bound (dep + Z.max 1 (km / 800)) 24); lia | auto].
Qed.


(** *** scrape_flight_data and scrape_multiple_routes *)

Lemma generated_batch o d day :
  returns (_generate_realistic_flight_data isoformat_now o d day)
          (route_batch day (o, d)).
Proof.
  unfold _generate_realistic_flight_data.
  eapply returns_bind; [apply (returns_randint 5 15); lia | ]. cbv beta.
  intros n Hn.
  eapply returns_weaken; [apply returns_for_range, returns_gen_flight | ].
  cbv beta. intros l [L F]. split; [unfold Zlen; lia | exact F].
Qed.

Lemma scrape_flight_data_spec o d day w :
  date_defined day (clock w) ->
  exists flights w',
    scrape_flight_data isoformat_now o d day w = (Ok flights, w')
    /\ route_batch (effective_date day (clock w)) (o, d) flights
    /\ same_output w w'.
Proof.
  intros Hd. unfold scrape_flight_data.
  assert (E : (match day with
               | None | Some EmptyString => default_date
               | Some s' => ret s'
               end) w = (Ok (effective_date day (clock w)), w)).
  { unfold date_defined in Hd.
    destruct day as [[ | c s] | ]; try reflexivity;
      unfold default_date, shift_date, effective_date; cbv zeta;
      (destruct (Z.ltb_spec (clock w + 30) 1); [lia | ]);
      (destruct (Z.ltb_spec max_ordinal (clock w + 30)); [lia | ]); reflexivity. }
  destruct (generated_batch o d (effective_date day (clock w)) w)
    as (flights & w' & G & B & S).
  exists flights, w'. unfold bind. rewrite E. auto.
Qed.

Lemma scrape_route_spec day acc o d w :
  date_defined day (clock w) ->
  exists flights s w',
    scrape_route isoformat_now day acc (o, d) w = (Ok (acc ++ flights), w')
    /\ route_batch (effective_date day (clock w)) (o, d) flights
    /\ ge_int s 1 /\ le_int s 3
    /\ rng w' = rng w /\ clock w' = clock w
    /\ stdout w' = stdout w ++ [scraping_line (o, d)]
    /\ naps w' = naps w ++ [s].
Proof.
  intros Hd. unfold scrape_route.
  set (w1 := mkWorld (rng w) (rng_pos w) (clock w)
                     (stdout w ++ [("Scraping data for " ++ o ++ " -> " ++ d)%string])
                     (naps w)).
  destruct (scrape_flight_data_spec o d day w1 Hd)
    as (flights & w2 & E & B & S12).
  destruct (returns_pause w2) as (u & w3 & Eu & (s & -> & Gs & Ls) & S23).
  exists flights, s.
  exists (mkWorld (rng w3) (rng_pos w3) (clock w3) (stdout w3) (naps w3 ++ [s])).
  destruct S12 as (R12 & C12 & O12 & N12). destruct S23 as (R23 & C23 & O23 & N23).
  split.
  { unfold bind at 1. unfold print at 1. fold w1.
    unfold try_except at 1. unfold bind at 1. rewrite E.
    unfold try_except at 1. unfold bind at 1. rewrite Eu.
    unfold bind, sleep, ret.
    destruct (Z.ltb_spec (num s) 0) as [L | _]; [ | reflexivity].
    unfold ge_int in Gs. pose proof (den_pos s). lia. }
  subst w1. cbn [rng clock stdout naps] in *.
  unfold scraping_line. cbn [fst snd].
  split; [exact B | ]. split; [exact Gs | ]. split; [exact Ls | ].
  repeat split; congruence.
Qed.

Lemma scrape_routes_spec day routes : forall acc w,
  date_defined day (clock w) ->
  exists groups pauses w',
    scrape_routes isoformat_now day acc routes w = (Ok (acc ++ List.concat groups), w')
    /\ Forall2 (route_batch (effective_date day (clock w))) routes groups
    /\ stdout w' = stdout w ++ map scraping_line routes
    /\ naps w' = naps w ++ pauses
    /\ List.length pauses = List.length routes
    /\ Forall (fun s => ge_int s 1 /\ le_int s 3) pauses.
Proof.
  induction routes as [ | [o d] routes IH]; intros acc w Hd; cbn [scrape_routes].
  - exists [], [], w. cbn [List.concat map]. rewrite !app_nil_r.
    repeat split; constructor.
  - destruct (scrape_route_spec day acc o d w Hd)
      as (flights & s & w1 & E & B & Gs & Ls & R1 & C1 & O1 & N1).
    assert (Hd1 : date_defined day (clock w1)) by (rewrite C1; exact Hd).
    destruct (IH (acc ++ flights) w1 Hd1)
      as (groups & pauses & w2 & E2 & F2 & O2 & N2 & L2 & P2).
    exists (flights :: groups), (s :: pauses), w2.
    split.
    { unfold bind. rewrite E, E2. cbn [List.concat]. now rewrite app_assoc. }
    rewrite C1 in F2.
    split; [constructor; assumption | ].
    split; [rewrite O2, O1, <- app_assoc; reflexivity | ].
    split; [rewrite N2, N1, <- app_assoc; reflexivity | ].
    split; [cbn [List.length]; lia | constructor; auto].
Qed.

(** X28.  [scrape_multiple_routes] returns in every world in which a
    date is given, or the day 30 days from today exists: the result is
    the batches of the routes in their order, 5 to 15 well-formed
    records for each; one line is printed per route and no error line;
    and after each route the scraper pauses once, for between 1 and 3
    seconds. *)
Theorem routes_scraped_in_order
    (routes : list (string * string)) (day : option string) (w : World) :
  date_available day (clock w) ->
  exists groups pauses w',
    scrape_multiple_routes isoformat_now routes day w = (Ok (List.concat groups), w')
    /\ Forall2 (route_batch (effective_date day (clock w))) routes groups
    /\ stdout w' = stdout w ++ map scraping_line routes
    /\ naps w' = naps w ++ pauses
    /\ List.length pauses = List.length routes
    /\ Forall (fun s => ge_int s 1 /\ le_int s 3) pauses.
Proof.
  intros Hd. unfold scrape_multiple_routes.
  assert (Hd' : date_defined day (clock w)).
  { unfold date_available, first_ordinal in Hd. unfold date_defined.
    destruct day as [[ | c s] | ]; try exact I; lia. }
  destruct (scrape_routes_spec day routes [] w Hd') as (groups & pauses & w' & H).
  exists groups, pauses, w'. exact H.
Qed.

Lemma default_date_late w :
  ~ 1 <= clock w + 30 <= max_ordinal ->
  default_date w = (Raise (Exn OverflowError "date value out of range"), w).
Proof.
  intros H. unfold default_date, shift_date. cbv zeta.
  destruct (Z.ltb_spec (clock w + 30) 1);
    destruct (Z.ltb_spec max_ordinal (clock w + 30)); try lia; reflexivity.
Qed.

Lemma scrape_flight_data_late o d day w :
  ~ date_defined day (clock w) ->
  scrape_flight_data isoformat_now o d day w
  = (Raise (Exn OverflowError "date value out of range"), w).
Proof.
  intros Hd. unfold scrape_flight_data, date_defined in *.
  destruct day as [[ | c s] | ]; try (exfalso; apply Hd; exact I);
    apply RoutesFacts.bind_raise, default_date_late, Hd.
Qed.

Lemma scrape_route_late day acc o d w :
  ~ date_defined day (clock w) ->
  scrape_route isoformat_now day acc (o, d) w
  = (Ok acc, mkWorld (rng w) (rng_pos w) (clock w)
                     (stdout w ++ failure_lines (o, d)) (naps w)).
Proof.
  intros Hd. unfold scrape_route.
  unfold bind at 1. unfold print at 1.
  erewrite RoutesFacts.try_except_raise;
    [ | apply RoutesFacts.bind_raise, scrape_flight_data_late; exact Hd].
  unfold bind, print, ret. cbn [rng rng_pos clock stdout naps exn_msg].
  unfold failure_lines. cbn [fst snd]. rewrite <- app_assoc. reflexivity.
Qed.

Lemma scrape_routes_late day routes : forall acc w,
  ~ date_defined day (clock w) ->
  scrape_routes isoformat_now day acc routes w
  = (Ok acc, mkWorld (rng w) (rng_pos w) (clock w)
                     (stdout w ++ flat_map failure_lines routes) (naps w)).
Proof.
  induction routes as [ | [o d] routes IH]; intros acc w Hd; cbn [scrape_routes].
  - cbn [flat_map]. rewrite app_nil_r. destruct w. reflexivity.
  - unfold bind. rewrite (scrape_route_late day acc o d w Hd).
    rewrite IH by exact Hd. cbn [rng rng_pos clock stdout naps flat_map].
    now rewrite <- app_assoc.
Qed.

(** X29.  [scrape_multiple_routes] returns in every world and never
    raises.  When no date is given and the day 30 days from today is
    past 9999-12-31, every route fails inside the [try]: the result is
    empty, and for each route the announcement and one error line are
    printed; no random number is drawn and no pause is taken. *)
Theorem scraping_never_raises
    (routes : list (string * string)) (day : option string) (w : World) :
  (exists flights w',
      scrape_multiple_routes isoformat_now routes day w = (Ok flights, w'))
  /\ (~ date_defined day (clock w) ->
      scrape_multiple_routes isoformat_now routes day w
      = (Ok [], mkWorld (rng w) (rng_pos w) (clock w)
                        (stdout w ++ flat_map failure_lines routes) (naps w))).
Proof.
  assert (Late : ~ date_defined day (clock w) ->
                 scrape_multiple_routes isoformat_now routes day w
                 = (Ok [], mkWorld (rng w) (rng_pos w) (clock w)
                                   (stdout w ++ flat_map failure_lines routes)
                                   (naps w)))
    by (intros Hd; apply scrape_routes_late, Hd).
  split; [ | exact Late].
  assert (Dec : date_defined day (clock w) \/ ~ date_defined day (clock w)).
  { unfold date_defined. destruct day as [[ | c s] | ]; auto; lia. }
  destruct Dec as [Hd | Hd].
  - destruct (scrape_routes_spec day routes [] w Hd) as (groups & pauses & w' & E & _).
    eauto.
  - rewrite (Late Hd). eauto.
Qed.

End Generator.

(** Twenty days before 9999-12-31 no default date exists. *)
Lemma late_scrape_fails :
  let w := mkWorld (rng scraper_world) 0 (max_ordinal - 20) [] [] in
  scrape_multiple_routes noon_stamp [("SYD", "MEL"); ("SYD", "SIN")] None w
  = (Ok [], mkWorld (rng w) 0 (max_ordinal - 20)
                    (flat_map failure_lines [("SYD", "MEL"); ("SYD", "SIN")]) []).
Proof.
  cbv zeta.
  apply (proj2 (scraping_never_raises noon_stamp [("SYD", "MEL"); ("SYD", "SIN")] None
                  (mkWorld (rng scraper_world) 0 (max_ordinal - 20) [] []))).
  vm_compute. intros [_ H]. apply H. reflexivity.
Defined.

(** Two routes scraped for the default date on 2024-03-15. *)
Lemma two_routes_scraped :
  exists groups pauses w',
    scrape_multiple_routes noon_stamp [("SYD", "MEL"); ("SYD", "SIN")] None
                           scraper_world = (Ok (List.concat groups), w')
    /\ Forall2 (route_batch (effective_date None (clock scraper_world)))
               [("SYD", "MEL"); ("SYD", "SIN")] groups
    /\ stdout w' = stdout scraper_world
                   ++ map scraping_line [("SYD", "MEL"); ("SYD", "SIN")]
    /\ naps w' = naps scraper_world ++ pauses
    /\ List.length pauses = List.length [("SYD", "MEL"); ("SYD", "SIN")]
    /\ Forall (fun s => ge_int s 1 /\ le_int s 3) pauses.
Proof.
  apply (routes_scraped_in_order noon_stamp [("SYD", "MEL"); ("SYD", "SIN")] None
           scraper_world).
  split; vm_compute; discriminate.
Defined.

End ScraperFacts.

(** ** Generation returns *)

Module GenReturns.
Import App Routes Spec SpecMore MonadFacts GenFacts AppFacts RoutesFacts.

Lemma steady_ret {A} (a : A) : steady (ret a).
Proof. intros w b w' H. apply ret_ok in H as [_ ->]. auto. Qed.

Lemma steady_lift {A} (r : result A) : steady (lift r).
Proof. intros w b w' H. apply lift_ok in H as [_ ->]. auto. Qed.

Lemma steady_bind {A B} (c : M World A) (k : A -> M World B) :
  steady c -> (forall a, steady (k a)) -> steady (bind c k).
Proof.
  intros Hc Hk w b w' H. apply bind_ok in H as (a & w1 & H1 & H2).
  destruct (Hc _ _ _ H1) as [R1 C1]. destruct (Hk a _ _ _ H2) as [R2 C2].
  split; congruence.
Qed.

Lemma steady_randbelow n : steady (randbelow n).
Proof. intros w a w' H. unfold randbelow in H. injection H as _ <-. auto. Qed.

Lemma steady_randint a b : steady (randint a b).
Proof.
  unfold randint. apply steady_bind; [apply steady_randbelow | ].
  intros r. apply steady_ret.
Qed.

Lemma steady_choice seq : steady (choice seq).
Proof.
  unfold choice. destruct seq; [apply steady_lift | ].
  apply steady_bind; [apply steady_randbelow | ]. intros i. apply steady_ret.
Qed.

Lemma steady_redraw fuel org dst : steady (redraw fuel org dst).
Proof.
  revert dst. induction fuel as [ | fuel IH]; intros dst; cbn [redraw];
    destruct (String.eqb dst org); try apply steady_ret; try apply steady_lift.
  apply steady_bind; [apply steady_choice | exact IH].
Qed.

Lemma steady_gen_flight fuel base_date : steady (gen_flight fuel base_date).
Proof.
  unfold gen_flight.
  repeat first
    [ apply steady_ret | apply steady_lift | apply steady_choice
    | apply steady_randint | apply steady_redraw
    | match goal with
      | |- steady (if ?b then _ else _) => destruct b
      | |- steady (bind _ _) => apply steady_bind; [ | intro]
      end ].
Qed.

Lemma bind_fueled {W A B} (c : M W A) (k : A -> M W B) w :
  fst (c w) <> OutOfFuel ->
  (forall a w1, c w = (Ok a, w1) -> fst (k a w1) <> OutOfFuel) ->
  fst (bind c k w) <> OutOfFuel.
Proof.
  intros Hc Hk. unfold bind. destruct (c w) as [[a | e | ] w1] eqn:E; cbn [fst] in *.
  - apply (Hk a w1 eq_refl).
  - discriminate.
  - congruence.
Qed.

Lemma choice_run seq w :
  seq <> [] ->
  choice seq w
  = (Ok (nth (Z.to_nat (Z.of_N (rng w (rng_pos w)) mod Zlen seq)) seq ""),
     mkWorld (self_ w) (rng w) (S (rng_pos w)) (clock w)).
Proof. destruct seq; [congruence | reflexivity]. Qed.

Lemma randint_fueled a b w : fst (randint a b w) <> OutOfFuel.
Proof. unfold randint, bind, randbelow, ret. cbn [fst]. discriminate. Qed.

Lemma choice_fueled seq w : seq <> [] -> fst (choice seq w) <> OutOfFuel.
Proof. intros H. rewrite (choice_run seq w H). cbn [fst]. discriminate. Qed.

(** The loop ends if the destination differs already, or one of the
    next [fuel] draws selects another city. *)
Lemma redraw_fueled fuel org : forall dst w,
  dst <> org
  \/ (exists j, (j < fuel)%nat /\ city_at (rng w) (rng_pos w + j) <> org) ->
  fst (redraw fuel org dst w) <> OutOfFuel.
Proof.
  induction fuel as [ | fuel IH]; intros dst w H; cbn [redraw];
    destruct (String.eqb_spec dst org) as [E | E]; try (cbn; discriminate).
  - destruct H as [H | (j & Hj & _)]; [congruence | lia].
  - unfold bind. rewrite (choice_run cities w) by discriminate.
    apply IH. cbn [rng rng_pos].
    destruct H as [H | (j & Hj & Hc)]; [congruence | ].
    destruct j as [ | j].
    + left. rewrite Nat.add_0_r in Hc. exact Hc.
    + right. exists j. split; [lia | ].
      replace (S (rng_pos w) + j)%nat with (rng_pos w + S j)%nat by lia. exact Hc.
Qed.

Lemma gen_flight_fueled fuel base_date w :
  redraw_settles fuel (rng w) -> fst (gen_flight fuel base_date w) <> OutOfFuel.
Proof.
  intros Hs. unfold gen_flight.
  rewrite (bind_run _ _ _ _ _ (choice_run (firstn 10 cities) w ltac:(discriminate))).
  cbv beta.
  set (w1 := mkWorld (self_ w) (rng w) (S (rng_pos w)) (clock w)).
  rewrite (bind_run _ _ _ _ _ (choice_run cities w1 ltac:(discriminate))).
  cbv beta.
  apply bind_fueled.
  { apply redraw_fueled. cbn [rng rng_pos w1].
    destruct (Hs (rng_pos w)) as (j & Hj & Hc).
    unfold origin_at in Hc.
    destruct j as [ | j].
    - left. replace (rng_pos w + 1 + 0)%nat with (S (rng_pos w)) in Hc by lia.
      exact Hc.
    - right. exists j. split; [lia | ].
      replace (S (S (rng_pos w)) + j)%nat with (rng_pos w + 1 + S j)%nat by lia.
      exact Hc. }
  intros dst w3 _. cbv zeta.
  apply bind_fueled.
  { destruct (str_in dst (firstn 10 cities)); apply randint_fueled. }
  intros bp w4 _.
  apply bind_fueled; [apply randint_fueled | ]. intros off w5 _.
  apply bind_fueled.
  { unfold lift, add_days. cbn [fst].
    destruct (max_ordinal <? base_date + off); discriminate. }
  intros fd w6 _.
  apply bind_fueled.
  { unfold lift, priced. cbn [fst].
    destruct (of_Z bp) as [b | e | ] eqn:Eb; cbn [rbind]; try discriminate.
    - destruct (fmul b (weekend_multiplier fd)); discriminate.
    - unfold of_Z in Eb. destruct (fround bp 1); discriminate. }
  intros p w7 _.
  apply bind_fueled; [apply randint_fueled | ]. intros dem w8 _.
  apply bind_fueled; [apply randint_fueled | ]. intros av w9 _.
  apply bind_fueled; [apply choice_fueled; discriminate | ]. intros al w10 _.
  cbn. discriminate.
Qed.

Lemma for_range_fueled fuel base_date n : forall w,
  redraw_settles fuel (rng w) ->
  fst (for_range n (gen_flight fuel base_date) w) <> OutOfFuel.
Proof.
  induction n as [ | n IH]; intros w Hs; cbn [for_range]; [cbn; discriminate | ].
  apply bind_fueled; [apply gen_flight_fueled, Hs | ]. intros f w1 Hf.
  apply bind_fueled.
  - apply IH. destruct (steady_gen_flight _ _ _ _ _ Hf) as [-> _]. exact Hs.
  - intros fs w2 _. cbn. discriminate.
Qed.

(** X30.  [generate_sample_data] returns its hundred records, and
    [get_data] answers with success, in every world whose clock stands
    between 0999-12-31 and 90 days before 9999-12-31 and whose random
    stream lets each [while destination == origin] loop end within
    [fuel] rounds. *)
Theorem generation_returns
    (time_of_day : World -> string) (fuel : nat) (w : World) :
  first_ordinal - 1 <= clock w -> clock w + 90 <= max_ordinal ->
  redraw_settles fuel (rng w) ->
  exists routes w' d,
    generate_sample_data fuel w = (Ok routes, w')
    /\ List.length routes = 100%nat
    /\ get_data time_of_day fuel w = (Ok (Success d), w')
    /\ total_flights d = 100.
Proof.
  intros Hlo Hhi Hs.
  destruct (generate_sample_data fuel w) as [[routes | e | ] w'] eqn:G.
  - destruct (generated_readable _ _ _ _ Hlo G) as (Hlen & Hwf & Hread).
    assert (Hne : routes <> []) by (intros ->; discriminate).
    destruct (selection_parts routes w' Hwf) as (out & t & Hout & Ht & _).
    destruct (insights_run routes w' Hne Hread) as (l & Hl & _).
    exists routes, w'. eexists.
    split; [reflexivity | ]. split; [exact Hlen | ].
    split; [apply (get_data_unfold _ _ _ _ _ _ _ _ G Hout Ht Hl) | ].
    cbn [total_flights]. unfold Zlen. rewrite Hlen. reflexivity.
  - exfalso. apply (generate_no_raise fuel w e Hhi). rewrite G. reflexivity.
  - exfalso. unfold generate_sample_data, bind, now in G.
    apply (for_range_fueled fuel (clock w) 100 w Hs). rewrite G. reflexivity.
Qed.

Lemma sample_stream_settles : redraw_settles 1 (rng sample_world).
Proof.
  intros p. unfold sample_world. cbn [rng].
  assert (R : exists r, (r < 7)%nat /\ (p mod 7 = r)%nat
                        /\ ((p + 1 + 0) mod 7 = (r + 1) mod 7)%nat
                        /\ ((p + 1 + 1) mod 7 = (r + 2) mod 7)%nat).
  { exists (p mod 7)%nat. split; [apply Nat.mod_upper_bound; discriminate | ].
    split; [reflexivity | ].
    split.
    - rewrite Nat.add_0_r. rewrite (Nat.Div0.add_mod p 1 7).
      rewrite (Nat.Div0.add_mod (p mod 7) 1 7).
      rewrite Nat.Div0.mod_mod. reflexivity.
    - replace (p + 1 + 1)%nat with (p + 2)%nat by lia.
      rewrite (Nat.Div0.add_mod p 2 7).
      rewrite (Nat.Div0.add_mod (p mod 7) 2 7).
      rewrite Nat.Div0.mod_mod. reflexivity. }
  destruct R as (r & Hr & E0 & E1 & E2).
  unfold city_at, origin_at. rewrite E0.
  do 7 (destruct r as [ | r];
        [first [exists 0%nat; split; [lia | ]; rewrite E1; vm_compute; discriminate
               | exists 1%nat; split; [lia | ]; rewrite E2; vm_compute; discriminate]
        | ]).
  lia.
Qed.

(** [/api/data] in [sample_world], where one round of the loop is
    always enough. *)
Lemma sample_generation_returns :
  exists routes w' d,
    generate_sample_data 1 sample_world = (Ok routes, w')
    /\ List.length routes = 100%nat
    /\ get_data afternoon 1 sample_world = (Ok (Success d), w')
    /\ total_flights d = 100.
Proof.
  apply (generation_returns afternoon 1 sample_world).
  - vm_compute. discriminate.
  - vm_compute. discriminate.
  - exact sample_stream_settles.
Defined.

End GenReturns.
